(** * Databricks sample apps: a shallow embedding and its properties

    The repository holds three Python scripts:
    - [sample-get-uc-service-creds/app.py]: fetch temporary AWS credentials
      from the workspace credential service and list EC2 instances;
    - [sample-large-file/startup.py]: download [big.json] from a volume;
    - [sample-large-file/app.py]: preview the downloaded [big.json].

    Python is dynamically typed, so the functions are embedded over a small
    universe of Python values ([pyval]) and a state-and-exception monad
    ([M]).  Calls into SDKs are oracles (fields of records) whose outcome
    is either a value or a raised exception. *)

From Stdlib Require Import ZArith Ascii String List Lia Bool.
From Stdlib Require Import Strings.Byte.
From stdpp Require Import base option list strings gmap pretty.

Set Warnings "-register-all".

Local Open Scope string_scope.
Local Open Scope list_scope.

(** ** Exceptions *)

Module Exn.

(** The part of Python's exception hierarchy the scripts can meet.  SDK
    exception classes are [UserDefined] with their base class. *)
Inductive cls : Type :=
| BaseException
| Exception
| KeyboardInterrupt
| SystemExit
| GeneratorExit
| ImportError
| ModuleNotFoundError
| LookupError
| KeyError
| TypeError
| AttributeError
| NameError
| ValueError
| OSError
| UserDefined (name : string) (base : cls).

(** Proper ancestors of a class, nearest first. *)
Fixpoint bases (c : cls) : list cls :=
  match c with
  | BaseException => []
  | Exception => [BaseException]
  | KeyboardInterrupt => [BaseException]
  | SystemExit => [BaseException]
  | GeneratorExit => [BaseException]
  | ImportError => [Exception; BaseException]
  | ModuleNotFoundError => [ImportError; Exception; BaseException]
  | LookupError => [Exception; BaseException]
  | KeyError => [LookupError; Exception; BaseException]
  | TypeError => [Exception; BaseException]
  | AttributeError => [Exception; BaseException]
  | NameError => [Exception; BaseException]
  | ValueError => [Exception; BaseException]
  | OSError => [Exception; BaseException]
  | UserDefined _ b => b :: bases b
  end.

Definition tag (c : cls) : nat :=
  match c with
  | BaseException => 0 | Exception => 1 | KeyboardInterrupt => 2
  | SystemExit => 3 | GeneratorExit => 4 | ImportError => 5
  | ModuleNotFoundError => 6 | LookupError => 7 | KeyError => 8
  | TypeError => 9 | AttributeError => 10 | NameError => 11
  | ValueError => 12 | OSError => 13 | UserDefined _ _ => 14
  end.

Fixpoint eqb (c d : cls) : bool :=
  match c, d with
  | UserDefined n b, UserDefined n' b' => String.eqb n n' && eqb b b'
  | UserDefined _ _, _ | _, UserDefined _ _ => false
  | _, _ => Nat.eqb (tag c) (tag d)
  end.

(** [issubclass c d]: an [except d] clause catches an exception of class [c]. *)
Definition issubclass (c d : cls) : bool :=
  existsb (eqb d) (c :: bases c).

(** A raised exception: its class and what [str(e)] gives. *)
Record t : Type := mk { class : cls; str : string }.

Definition isinstance (e : t) (d : cls) : bool := issubclass (class e) d.

End Exn.

Abbreviation exn := Exn.t.

(** ** Outcomes of a call: a value or a raised exception *)

Inductive outcome (A : Type) : Type :=
| Ret (a : A)
| Raise (e : exn).
Arguments Ret {A} a.
Arguments Raise {A} e.

(** ** The state-and-exception monad

    [S] is the mutable world of a script (a call log, the local files, the
    rendered page).  A raised exception keeps the state reached so far. *)

Definition M (S A : Type) : Type := S -> outcome A * S.

Definition ret {S A} (a : A) : M S A := fun s => (Ret a, s).

Definition raise {S A} (e : exn) : M S A := fun s => (Raise e, s).

Definition bind {S A B} (c : M S A) (k : A -> M S B) : M S B :=
  fun s => match c s with
           | (Ret a, s') => k a s'
           | (Raise e, s') => (Raise e, s')
           end.

Definition lift {S A} (o : outcome A) : M S A := fun s => (o, s).

Definition modify {S} (f : S -> S) : M S unit := fun s => (Ret tt, f s).

Definition gets {S A} (f : S -> A) : M S A := fun s => (Ret (f s), s).

(** [try: body except c1: h1 except c2: h2 ...]: the first clause whose
    class matches handles the exception; an exception no clause matches
    propagates, and so does one raised by a handler. *)
Fixpoint dispatch {S A} (clauses : list ((exn -> bool) * (exn -> M S A)))
    (e : exn) : M S A :=
  match clauses with
  | [] => raise e
  | (catches, handler) :: rest =>
      if catches e then handler e else dispatch rest e
  end.

Definition try_except {S A} (body : M S A)
    (clauses : list ((exn -> bool) * (exn -> M S A))) : M S A :=
  fun s => match body s with
           | (Raise e, s') => dispatch clauses e s'
           | r => r
           end.

(** Calls that touch no state run in [outcome], with stdpp's [x ← c; k]. *)
#[global] Instance outcome_ret : MRet outcome := fun _ a => Ret a.
#[global] Instance outcome_bind : MBind outcome := fun _ _ k c =>
  match c with
  | Ret a => k a
  | Raise e => Raise e
  end.
#[global] Instance outcome_fmap : FMap outcome := fun _ _ f c =>
  match c with
  | Ret a => Ret (f a)
  | Raise e => Raise e
  end.

Declare Scope py_scope.
Delimit Scope py_scope with py.
Notation "x <- c ;; k" := (bind c (fun x => k))
  (at level 100, c at next level, right associativity) : py_scope.
Notation "c ;;; k" := (bind c (fun _ => k))
  (at level 100, right associativity) : py_scope.
Local Open Scope py_scope.

(** [except Exception] and [except ImportError]; a bare [except:] catches
    every exception. *)
Definition except_Exception (e : exn) : bool := Exn.isinstance e Exn.Exception.
Definition except_ImportError (e : exn) : bool := Exn.isinstance e Exn.ImportError.
Definition except_bare (e : exn) : bool := true.

(** ** Python values

    The values the scripts handle: JSON-like data, [bytes] and
    [bytearray], instances with attributes (SDK response objects) and
    callables.  A dict keeps its
    items in insertion order with keys that are strings, which is all the
    scripts index with.  A [PMethod] is a callable attribute whose call
    yields the recorded outcome. *)

Inductive pyval : Type :=
| PNone
| PBool (b : bool)
| PInt (z : Z)
| PFloat (bits : Z)
| PStr (s : string)
| PBytes (b : list byte)
| PByteArray (b : list byte)
| PList (l : list pyval)
| PDict (items : list (string * pyval))
| PObject (class_name : string) (attrs : list (string * pyval))
| PMethod (result : outcome pyval).

(** First binding of a key in an item list. *)
Fixpoint assoc {A} (k : string) (items : list (string * A)) : option A :=
  match items with
  | [] => None
  | (k', v) :: rest => if String.eqb k' k then Some v else assoc k rest
  end.

(** [type(v).__name__] *)
Definition type_name (v : pyval) : string :=
  match v with
  | PNone => "NoneType"
  | PBool _ => "bool"
  | PInt _ => "int"
  | PFloat _ => "float"
  | PStr _ => "str"
  | PBytes _ => "bytes"
  | PByteArray _ => "bytearray"
  | PList _ => "list"
  | PDict _ => "dict"
  | PObject c _ => c
  | PMethod _ => "method"
  end.

Definition quote (s : string) : string := "'" ++ s ++ "'".

Definition type_error (msg : string) : exn := Exn.mk Exn.TypeError msg.

Definition no_attribute (v : pyval) (name : string) : exn :=
  Exn.mk Exn.AttributeError
    (quote (type_name v) ++ " object has no attribute " ++ quote name).

(** [hasattr(v, name)] for the data attributes the scripts probe. *)
Definition py_hasattr (v : pyval) (name : string) : bool :=
  match v with
  | PObject _ attrs => bool_decide (is_Some (assoc name attrs))
  | _ => false
  end.

(** [v.name] *)
Definition py_getattr (v : pyval) (name : string) : outcome pyval :=
  match v with
  | PObject _ attrs =>
      match assoc name attrs with
      | Some x => Ret x
      | None => Raise (no_attribute v name)
      end
  | _ => Raise (no_attribute v name)
  end.

(** [f()] *)
Definition py_call (f : pyval) : outcome pyval :=
  match f with
  | PMethod r => r
  | _ => Raise (type_error (quote (type_name f) ++ " object is not callable"))
  end.

(** [v[key]] with a string key.  [str(KeyError(k))] is [repr(k)]. *)
Definition py_getitem (v : pyval) (key : string) : outcome pyval :=
  match v with
  | PDict items =>
      match assoc key items with
      | Some x => Ret x
      | None => Raise (Exn.mk Exn.KeyError (quote key))
      end
  | PStr _ => Raise (type_error "string indices must be integers, not 'str'")
  | PBytes _ => Raise (type_error "byte indices must be integers or slices, not str")
  | PByteArray _ =>
      Raise (type_error "bytearray indices must be integers or slices, not str")
  | PList _ => Raise (type_error "list indices must be integers or slices, not str")
  | _ => Raise (type_error (quote (type_name v) ++ " object is not subscriptable"))
  end.

(** [v.get(key, default)] *)
Definition py_dict_get (v : pyval) (key : string) (default : pyval) : outcome pyval :=
  match v with
  | PDict items => Ret (match assoc key items with Some x => x | None => default end)
  | PObject _ attrs =>
      match assoc "get" attrs with
      | Some f => py_call f
      | None => Raise (no_attribute v "get")
      end
  | _ => Raise (no_attribute v "get")
  end.

Definition chars (s : string) : list string :=
  map (fun c => String c EmptyString) (list_ascii_of_string s).

(** The items a [for] loop draws from [v]. *)
Definition py_iter (v : pyval) : outcome (list pyval) :=
  match v with
  | PList l => Ret l
  | PDict items => Ret (map (fun kv => PStr (fst kv)) items)
  | PStr s => Ret (map PStr (chars s))
  | PBytes b | PByteArray b => Ret (map (fun x => PInt (Z.of_N (Byte.to_N x))) b)
  | _ => Raise (type_error (quote (type_name v) ++ " object is not iterable"))
  end.

(** [v == s] for a string literal [s]. *)
Definition py_eq_str (v : pyval) (s : string) : bool :=
  match v with
  | PStr s' => String.eqb s' s
  | _ => false
  end.

(** [len(v)] *)
Definition py_len (v : pyval) : outcome Z :=
  match v with
  | PStr s => Ret (Z.of_nat (String.length s))
  | PBytes b | PByteArray b => Ret (Z.of_nat (length b))
  | PList l => Ret (Z.of_nat (length l))
  | PDict items => Ret (Z.of_nat (length items))
  | _ => Raise (type_error ("object of type " ++ quote (type_name v) ++ " has no len()"))
  end.

(** Truth value of [v] in a condition. *)
Definition py_truthy (v : pyval) : bool :=
  match v with
  | PNone => false
  | PBool b => b
  | PInt z => negb (Z.eqb z 0)
  | PFloat bits => negb (Z.eqb bits 0 || Z.eqb bits (2 ^ 63))
  | PStr s => negb (String.eqb s "")
  | PBytes b | PByteArray b => negb (Nat.eqb (length b) 0)
  | PList l => negb (Nat.eqb (length l) 0)
  | PDict items => negb (Nat.eqb (length items) 0)
  | PObject _ _ => true
  | PMethod _ => true
  end.

(** One element of an iterable handed to [bytes()]. *)
Definition byte_of_item (v : pyval) : outcome byte :=
  match v with
  | PInt z =>
      match (if Z.leb 0 z then Byte.of_N (Z.to_N z) else None) with
      | Some b => Ret b
      | None => Raise (Exn.mk Exn.ValueError "bytes must be in range(0, 256)")
      end
  | PBool b => Ret (if b then x01 else x00)
  | _ => Raise (type_error (quote (type_name v) ++
                  " object cannot be interpreted as an integer"))
  end.

Fixpoint bytes_of_items (l : list pyval) : outcome (list byte) :=
  match l with
  | [] => Ret []
  | v :: rest =>
      match byte_of_item v with
      | Raise e => Raise e
      | Ret b =>
          match bytes_of_items rest with
          | Raise e => Raise e
          | Ret bs => Ret (b :: bs)
          end
      end
  end.

Definition cannot_convert (v : pyval) : exn :=
  type_error ("cannot convert " ++ quote (type_name v) ++ " object to bytes").

(** [bytes(v)] *)
Definition py_bytes (v : pyval) : outcome pyval :=
  match v with
  | PBytes b | PByteArray b => Ret (PBytes b)
  | PInt z =>
      if Z.leb 0 z then Ret (PBytes (repeat x00 (Z.to_nat z)))
      else Raise (Exn.mk Exn.ValueError "negative count")
  | PBool b => Ret (PBytes (repeat x00 (if b then 1 else 0)%nat))
  | PStr _ => Raise (type_error "string argument without an encoding")
  | PList l =>
      match bytes_of_items l with
      | Ret bs => Ret (PBytes bs)
      | Raise e => Raise e
      end
  | PDict items =>
      match bytes_of_items (map (fun kv => PStr (fst kv)) items) with
      | Ret bs => Ret (PBytes bs)
      | Raise e => Raise e
      end
  | PObject _ attrs =>
      match assoc "__bytes__" attrs with
      | Some f =>
          match py_call f with
          | Ret (PBytes b) => Ret (PBytes b)
          | Ret r => Raise (type_error ("__bytes__ returned non-bytes (type " ++
                                        type_name r ++ ")"))
          | Raise e => Raise e
          end
      | None => Raise (cannot_convert v)
      end
  | _ => Raise (cannot_convert v)
  end.

(** The bytes of a bytes-like value, which is what a binary write
    accepts.  The instances of this universe are plain objects with
    attributes; none of them exports a buffer. *)
Definition bytes_like (v : pyval) : option (list byte) :=
  match v with
  | PBytes b | PByteArray b => Some b
  | _ => None
  end.

(** The message texts of interpreter-raised errors differ between Python
    versions; no property below depends on them. *)

(** * sample-get-uc-service-creds/app.py *)

Module Creds.

(** The two ways the script calls the [WorkspaceClient] constructor; a
    keyword argument is [None] when its variable is unset. *)
Inductive workspace_client_call : Type :=
| WorkspaceClient_host_token (host token : option string)
| WorkspaceClient_no_args.

(** What the script does to the outside world, in order: SDK calls with
    their arguments, and the widgets [main] renders.  The [logger] calls
    only write to the log stream and are left out. *)
Inductive event : Type :=
| Call_WorkspaceClient (args : workspace_client_call)
| Call_generate_temporary_service_credential (credential_name : string)
| Call_boto3_Session
    (aws_access_key_id aws_secret_access_key aws_session_token : pyval)
| Call_session_client (service_name region_name : string)
| Call_describe_instances
| St_set_page_config (page_title layout : string)
| St_title (body : string)
| St_markdown (body : string)
| St_header (body : string)
| St_warning (body : string)
| St_error (body : string)
| St_info (body : string)
| St_write (body : string)
| St_dataframe (rows : list pyval).

Definition log : Type := list event.

Definition is_session_call (ev : event) : bool :=
  match ev with
  | Call_boto3_Session _ _ _ => true
  | _ => false
  end.

(** An SDK call: recorded, then its outcome returned or raised. *)
Definition external {A} (ev : event) (o : outcome A) : M log A :=
  modify (fun l => l ++ [ev]) ;;; lift o.

Definition emit (ev : event) : M log unit := modify (fun l => l ++ [ev]).

(** ** Configuration: [load_dotenv()] and the three [os.getenv] globals *)

(** [load_dotenv()] adds the entries of the [.env] file to [os.environ]
    without overriding variables that are already set. *)
Definition load_dotenv (dotenv environ : gmap string string) : gmap string string :=
  environ ∪ dotenv.

(** [os.getenv(name, None)] *)
Definition os_getenv (environ : gmap string string) (name : string) : option string :=
  environ !! name.

Record globals : Type := {
  ENVIRONMENT : option string;
  DATABRICKS_HOST : option string;
  DATABRICKS_TOKEN : option string
}.

Definition module_globals (dotenv environ : gmap string string) : globals :=
  let environ := load_dotenv dotenv environ in
  {| ENVIRONMENT := os_getenv environ "ENVIRONMENT";
     DATABRICKS_HOST := os_getenv environ "DATABRICKS_HOST";
     DATABRICKS_TOKEN := os_getenv environ "DATABRICKS_TOKEN" |}.

(** [ENVIRONMENT == "LOCAL"] *)
Definition is_LOCAL (v : option string) : bool :=
  match v with
  | Some s => String.eqb s "LOCAL"
  | None => false
  end.

Definition get_workspace_client (g : globals) : workspace_client_call :=
  if is_LOCAL (ENVIRONMENT g) then
    WorkspaceClient_host_token (DATABRICKS_HOST g) (DATABRICKS_TOKEN g)
  else
    WorkspaceClient_no_args.

(** [@st.cache_resource]: the body runs on the first call of the process
    only; later calls return the object built then. *)
Definition cached_get_workspace_client (g : globals)
    (cache : option workspace_client_call)
  : workspace_client_call * option workspace_client_call :=
  match cache with
  | Some c => (c, cache)
  | None => let c := get_workspace_client g in (c, Some c)
  end.

(** ** SDK objects *)

(** The workspace client [wc], as far as the script uses it. *)
Record workspace_client : Type := {
  generate_temporary_service_credential : string -> outcome pyval
}.

Record ec2_client : Type := {
  describe_instances : outcome pyval
}.

Record session : Type := {
  client : string -> string -> outcome ec2_client
}.

Record boto3_module : Type := {
  Session : pyval -> pyval -> pyval -> outcome session
}.

(** ** get_aws_credentials *)

Definition get_aws_credentials (wc : workspace_client)
    (service_credential_name : string)
  : M log (option pyval * option string) :=
  try_except
    (temp_credentials <-
       external
         (Call_generate_temporary_service_credential service_credential_name)
         (generate_temporary_service_credential wc service_credential_name) ;;
     if py_hasattr temp_credentials "aws_temp_credentials" then
       aws_creds <- lift (py_getattr temp_credentials "aws_temp_credentials") ;;
       access_key_id <- lift (py_getattr aws_creds "access_key_id") ;;
       secret_access_key <- lift (py_getattr aws_creds "secret_access_key") ;;
       session_token <- lift (py_getattr aws_creds "session_token") ;;
       let aws_credentials :=
         PDict [("access_key_id", access_key_id);
                ("secret_access_key", secret_access_key);
                ("session_token", session_token)] in
       ret (Some aws_credentials, None)
     else
       let error_msg := "No AWS credentials found in response" in
       ret (None, Some error_msg))
    [(except_Exception, fun e =>
        let error_msg := "Error getting AWS credentials: " +:+ Exn.str e in
        ret (None, Some error_msg))].

(** The log once the credential service has been called. *)
Definition called (l : log) (name : string) : log :=
  l ++ [Call_generate_temporary_service_credential name].

(** The response carries AWS credentials [aws] with the three fields. *)
Definition has_fields (resp aws a s t : pyval) : Prop :=
  py_getattr resp "aws_temp_credentials" = Ret aws ∧
  py_getattr aws "access_key_id" = Ret a ∧
  py_getattr aws "secret_access_key" = Ret s ∧
  py_getattr aws "session_token" = Ret t.

Definition credential_fields : list string :=
  ["access_key_id"; "secret_access_key"; "session_token"].

(** ** get_ec2_instances *)

(** The inner loop: the first tag whose key is ["Name"] sets the name and
    ends the loop. *)
Fixpoint name_tag_loop (tags : list pyval) (instance_name : pyval) : outcome pyval :=
  match tags with
  | [] => Ret instance_name
  | tag :: rest =>
      key ← py_getitem tag "Key";
      if py_eq_str key "Name" then
        py_getitem tag "Value"
      else
        name_tag_loop rest instance_name
  end.

(** The body of the loop over instances: the record appended for one
    instance. *)
Definition instance_info (instance : pyval) : outcome pyval :=
  let instance_name := PStr "N/A" in
  tags ← py_dict_get instance "Tags" (PList []) ≫= py_iter;
  instance_name ← name_tag_loop tags instance_name;
  instance_id ← py_getitem instance "InstanceId";
  mret (PDict [("Name", instance_name); ("Instance ID", instance_id)]).

Fixpoint instances_loop (items : list pyval) (instances : list pyval)
  : outcome (list pyval) :=
  match items with
  | [] => Ret instances
  | instance :: rest =>
      info ← instance_info instance;
      instances_loop rest (instances ++ [info])
  end.

Fixpoint reservations_loop (items : list pyval) (instances : list pyval)
  : outcome (list pyval) :=
  match items with
  | [] => Ret instances
  | reservation :: rest =>
      insts ← py_getitem reservation "Instances" ≫= py_iter;
      instances ← instances_loop insts instances;
      reservations_loop rest instances
  end.

Definition default_region : string := "us-east-1".

Definition get_ec2_instances (boto3 : boto3_module) (aws_credentials : pyval)
    (region : string)
  : M log (list pyval * option string) :=
  try_except
    (access_key_id <- lift (py_getitem aws_credentials "access_key_id") ;;
     secret_access_key <- lift (py_getitem aws_credentials "secret_access_key") ;;
     session_token <- lift (py_getitem aws_credentials "session_token") ;;
     session <-
       external (Call_boto3_Session access_key_id secret_access_key session_token)
                (Session boto3 access_key_id secret_access_key session_token) ;;
     ec2_client <-
       external (Call_session_client "ec2" region) (client session "ec2" region) ;;
     response <- external Call_describe_instances (describe_instances ec2_client) ;;
     reservations <- lift (py_getitem response "Reservations" ≫= py_iter) ;;
     instances <- lift (reservations_loop reservations []) ;;
     ret (instances, None))
    [(except_Exception, fun e =>
        let error_msg := "Error getting EC2 instances: " +:+ Exn.str e in
        ret ([], Some error_msg))].

(** What the [except Exception] clause of [get_ec2_instances] makes of an
    exception raised in its [try] block. *)
Definition ec2_handled (e : exn) : outcome (list pyval * option string) :=
  if except_Exception e
  then Ret ([], Some ("Error getting EC2 instances: " +:+ Exn.str e))
  else Raise e.

(** Lines 87 to 104: the listing extracted from a response. *)
Definition listing (response : pyval) : outcome (list pyval) :=
  reservations ← py_getitem response "Reservations" ≫= py_iter;
  reservations_loop reservations [].

(** ** The shape of a describe-instances response

    The typed reading of the dicts that [describe_instances] documents:
    a response holds reservations, a reservation holds instances, an
    instance has an id and may have tags.  Further keys are ignored. *)

Record tag : Type := { Key : string; Value : string }.

Record instance : Type := { Tags : option (list tag); InstanceId : string }.

Definition as_tag (v : pyval) : option tag :=
  match v with
  | PDict items =>
      match assoc "Key" items, assoc "Value" items with
      | Some (PStr k), Some (PStr x) => Some {| Key := k; Value := x |}
      | _, _ => None
      end
  | _ => None
  end.

Definition as_instance (v : pyval) : option instance :=
  match v with
  | PDict items =>
      match assoc "InstanceId" items with
      | Some (PStr id) =>
          match assoc "Tags" items with
          | None => Some {| Tags := None; InstanceId := id |}
          | Some (PList l) =>
              tags ← mapM as_tag l;
              Some {| Tags := Some tags; InstanceId := id |}
          | Some _ => None
          end
      | _ => None
      end
  | _ => None
  end.

Definition as_reservation (v : pyval) : option (list instance) :=
  match v with
  | PDict items =>
      match assoc "Instances" items with
      | Some (PList l) => mapM as_instance l
      | _ => None
      end
  | _ => None
  end.

Definition as_response (v : pyval) : option (list (list instance)) :=
  match v with
  | PDict items =>
      match assoc "Reservations" items with
      | Some (PList l) => mapM as_reservation l
      | _ => None
      end
  | _ => None
  end.

Definition tags_of (i : instance) : list tag := default [] (Tags i).

Definition is_name_tag (t : tag) : bool := String.eqb (Key t) "Name".

(** The name the listing shows for an instance. *)
Definition name_of (i : instance) : string :=
  match List.find is_name_tag (tags_of i) with
  | Some t => Value t
  | None => "N/A"
  end.

Definition record_of (i : instance) : pyval :=
  PDict [("Name", PStr (name_of i)); ("Instance ID", PStr (InstanceId i))].

(** A record of the listing is the one the claim describes for [i]. *)
Definition describes (i : instance) (record : pyval) : Prop :=
  ∃ name : string,
    record = PDict [("Name", PStr name); ("Instance ID", PStr (InstanceId i))] ∧
    ((∃ t, t ∈ tags_of i ∧ Key t = "Name" ∧ name = Value t) ∨
     ((∀ t, t ∈ tags_of i → Key t ≠ "Name") ∧ name = "N/A")).

(** ** main: the fetch pipeline behind the sidebar *)

Record sidebar : Type := {
  service_credential_name : string;
  selected_region : string;
  fetch_instances : bool
}.

(** Truth value of an error slot: [None] and the empty string are false. *)
Definition error_truthy (err : option string) : bool :=
  match err with
  | Some s => negb (String.eqb s "")
  | None => false
  end.

Definition error_text (err : option string) : string :=
  match err with
  | Some s => s
  | None => "None"
  end.

(** [wc = get_workspace_client()] as a run of [main] meets it:
    [st.cache_resource] hands out the client an earlier run of the process
    has built, if there is one in [cache]; otherwise the body of
    [get_workspace_client] runs and calls the constructor, which returns
    the client or raises. *)
Definition call_get_workspace_client (g : globals)
    (WorkspaceClient : workspace_client_call -> outcome workspace_client)
    (cache : option workspace_client) : M log workspace_client :=
  match cache with
  | Some wc => ret wc
  | None =>
      external (Call_WorkspaceClient (get_workspace_client g))
               (WorkspaceClient (get_workspace_client g))
  end.

(** [g] holds the module globals, [WorkspaceClient] is the SDK's
    constructor, [cache] what [st.cache_resource] holds when the run
    starts, and [ui] what the three sidebar widgets return in this run. *)
Definition main (g : globals)
    (WorkspaceClient : workspace_client_call -> outcome workspace_client)
    (cache : option workspace_client)
    (boto3 : boto3_module) (ui : sidebar)
  : M log unit :=
  emit (St_set_page_config "Databricks UC Credentials - EC2 Instance Viewer" "wide") ;;;
  emit (St_title "Databricks UC Credentials - EC2 Instance Viewer") ;;;
  emit (St_markdown "---") ;;;
  wc <- call_get_workspace_client g WorkspaceClient cache ;;
  emit (St_header "Configuration") ;;;
  if String.eqb (service_credential_name ui) "" then
    emit (St_warning
      "Please enter a Databricks Service Credential Name in the sidebar to continue.")
  else if fetch_instances ui then
    r <- get_aws_credentials wc (service_credential_name ui) ;;
    let '(aws_credentials, cred_error) := r in
    if error_truthy cred_error then
      emit (St_error ("Failed to get AWS credentials: " +:+ error_text cred_error))
    else
      match aws_credentials with
      | None => emit (St_error "No AWS credentials received from Databricks UC")
      | Some aws_credentials =>
          if negb (py_truthy aws_credentials) then
            emit (St_error "No AWS credentials received from Databricks UC")
          else
            r <- get_ec2_instances boto3 aws_credentials (selected_region ui) ;;
            let '(instances, ec2_error) := r in
            if error_truthy ec2_error then
              emit (St_error ("Failed to get EC2 instances: " +:+ error_text ec2_error))
            else
              match instances with
              | [] => emit (St_info ("No EC2 instances found in region " +:+
                                     selected_region ui))
              | _ =>
                  emit (St_write ("**Found " +:+ pretty (length instances) +:+
                                  " EC2 instance(s) in " +:+ selected_region ui +:+
                                  ":**")) ;;;
                  emit (St_dataframe instances)
              end
      end
  else
    ret tt.

(** The client a run of [main] works with, or the exception of the
    constructor. *)
Definition client_of (g : globals)
    (WorkspaceClient : workspace_client_call -> outcome workspace_client)
    (cache : option workspace_client) : outcome workspace_client :=
  match cache with
  | Some wc => Ret wc
  | None => WorkspaceClient (get_workspace_client g)
  end.

(** What [main] has rendered and called when it comes to look at the
    sidebar's values: the constructor is called only when no client is
    cached. *)
Definition main_header (g : globals) (cache : option workspace_client)
  : list event :=
  [St_set_page_config "Databricks UC Credentials - EC2 Instance Viewer" "wide";
   St_title "Databricks UC Credentials - EC2 Instance Viewer";
   St_markdown "---"]
  ++ match cache with
     | Some _ => []
     | None => [Call_WorkspaceClient (get_workspace_client g)]
     end
  ++ [St_header "Configuration"].

(** The part of [main] below the sidebar: what it does with the client
    and the values the widgets returned. *)
Definition after_sidebar (wc : workspace_client) (boto3 : boto3_module)
    (ui : sidebar) : M log unit :=
  if String.eqb (service_credential_name ui) "" then
    emit (St_warning
      "Please enter a Databricks Service Credential Name in the sidebar to continue.")
  else if fetch_instances ui then
    r <- get_aws_credentials wc (service_credential_name ui) ;;
    let '(aws_credentials, cred_error) := r in
    if error_truthy cred_error then
      emit (St_error ("Failed to get AWS credentials: " +:+ error_text cred_error))
    else
      match aws_credentials with
      | None => emit (St_error "No AWS credentials received from Databricks UC")
      | Some aws_credentials =>
          if negb (py_truthy aws_credentials) then
            emit (St_error "No AWS credentials received from Databricks UC")
          else
            r <- get_ec2_instances boto3 aws_credentials (selected_region ui) ;;
            let '(instances, ec2_error) := r in
            if error_truthy ec2_error then
              emit (St_error ("Failed to get EC2 instances: " +:+ error_text ec2_error))
            else
              match instances with
              | [] => emit (St_info ("No EC2 instances found in region " +:+
                                     selected_region ui))
              | _ =>
                  emit (St_write ("**Found " +:+ pretty (length instances) +:+
                                  " EC2 instance(s) in " +:+ selected_region ui +:+
                                  ":**")) ;;;
                  emit (St_dataframe instances)
              end
      end
  else
    ret tt.

Definition is_sdk_call (ev : event) : bool :=
  match ev with
  | Call_WorkspaceClient _
  | Call_generate_temporary_service_credential _
  | Call_boto3_Session _ _ _
  | Call_session_client _ _
  | Call_describe_instances => true
  | _ => false
  end.

End Creds.

(** * sample-large-file/startup.py *)

Module Startup.

Definition VOLUME_CATALOG : string := "example".
Definition VOLUME_SCHEMA : string := "default".
Definition VOLUME_NAME : string := "test-volume".
Definition FILE_NAME : string := "big.json".
Definition LOCAL_FILE_PATH : string := "big.json".

Definition get_volume_path : string :=
  "/Volumes/" +:+ VOLUME_CATALOG +:+ "/" +:+ VOLUME_SCHEMA +:+ "/" +:+
  VOLUME_NAME +:+ "/" +:+ FILE_NAME.

(** The local files: path to content. *)
Abbreviation files := (gmap string (list byte)).

(** [w.files] of a workspace client. *)
Record files_api : Type := {
  download : string -> outcome pyval
}.

(** How the local disk takes [open(path, 'wb')] and the write that
    follows.  [Open_fails e]: [open] raises [e] (the path is a directory,
    access is denied, ...) and the file stays as it was.
    [Write_fails written e]: the file is opened, and the write, or the
    flush when the file is closed, raises [e] (the disk is full, ...) once
    the first [written] bytes have reached the file. *)
Inductive disk : Type :=
| Disk_ok
| Open_fails (e : exn)
| Write_fails (written : nat) (e : exn).

(** What the script finds around it: whether [databricks.sdk] imports,
    what [WorkspaceClient()] gives, the [dbutils] global, which only some
    runtimes define, and the local disk. *)
Record environment : Type := {
  import_WorkspaceClient : outcome unit;
  WorkspaceClient : outcome files_api;
  dbutils_fs_cp : option (string -> string -> M files unit);
  local_disk : disk
}.

(** [with open(path, 'wb') as f: f.write(content)]: opening truncates or
    creates the file; [write] takes a bytes-like object, checked before
    anything is written. *)
Definition write_binary (d : disk) (path : string) (content : pyval)
  : M files unit :=
  match d with
  | Open_fails e => raise e
  | _ =>
      modify (fun fs : files => <[path := []]> fs) ;;;
      match bytes_like content with
      | Some b =>
          match d with
          | Write_fails written e =>
              modify (fun fs : files => <[path := take written b]> fs) ;;;
              raise e
          | _ => modify (fun fs : files => <[path := b]> fs)
          end
      | None => raise (type_error ("a bytes-like object is required, not " +:+
                                   quote (type_name content)))
      end
  end.

Definition is_None (v : pyval) : bool :=
  match v with
  | PNone => true
  | _ => false
  end.

(** [hasattr(r, 'contents') and r.contents is not None] *)
Definition has_contents (download_response : pyval) : outcome bool :=
  if py_hasattr download_response "contents" then
    contents ← py_getattr download_response "contents";
    mret (negb (is_None contents))
  else
    mret false.

(** The fallback chain.  [None] stands for an early [return False].  The
    [print] calls are left out, except for what their f-strings evaluate
    and can raise: the [len(content)] of the progress lines. *)
Definition extract_content (download_response : pyval) : M files (option pyval) :=
  c <- lift (has_contents download_response) ;;
  if (c : bool) then
    binary_content <- lift (py_getattr download_response "contents") ;;
    if py_hasattr binary_content "read" then
      content <- lift (py_getattr binary_content "read" ≫= py_call) ;;
      _ <- lift (py_len content) ;;
      ret (Some content)
    else
      ret None
  else if py_hasattr download_response "content" then
    content <- lift (py_getattr download_response "content") ;;
    ret (Some content)
  else if py_hasattr download_response "body" then
    content <- lift (py_getattr download_response "body") ;;
    ret (Some content)
  else if py_hasattr download_response "read" then
    content <- lift (py_getattr download_response "read" ≫= py_call) ;;
    ret (Some content)
  else
    try_except
      (content <- lift (py_bytes download_response) ;;
       ret (Some content))
      [(except_bare, fun _ => ret None)].

(** [len(content) if content else 0], evaluated for the progress line. *)
Definition length_or_zero (content : pyval) : outcome Z :=
  if py_truthy content then py_len content else Ret 0%Z.

(** Everything after the fallback chain. *)
Definition save_content (d : disk) (content : pyval) : M files bool :=
  _ <- lift (length_or_zero content) ;;
  write_binary d LOCAL_FILE_PATH content ;;;
  file_size <- lift (py_len content) ;;
  ret true.

Definition name_error (name : string) : exn :=
  Exn.mk Exn.NameError ("name " +:+ quote name +:+ " is not defined").

Definition dbutils_fallback (env : environment) : M files bool :=
  try_except
    (let volume_path := get_volume_path in
     match dbutils_fs_cp env with
     | Some cp => cp volume_path ("file:/" +:+ LOCAL_FILE_PATH)
     | None => raise (name_error "dbutils")
     end ;;;
     ret true)
    [(except_Exception, fun e => ret false)].

Definition download_file_from_volume (env : environment) : M files bool :=
  try_except
    (lift (import_WorkspaceClient env) ;;;
     w <- lift (WorkspaceClient env) ;;
     let volume_file_path := get_volume_path in
     download_response <- lift (download w volume_file_path) ;;
     extracted <- extract_content download_response ;;
     match extracted with
     | None => ret false
     | Some content => save_content (local_disk env) content
     end)
    [(except_ImportError, fun _ => dbutils_fallback env);
     (except_Exception, fun e => ret false)].

(** What the two [except] clauses of [download_file_from_volume] make of
    an exception raised in its [try] block. *)
Definition on_exception (env : environment) (e : exn) : M files bool :=
  if except_ImportError e then dbutils_fallback env
  else if except_Exception e then ret false
  else raise e.

(** ** The fallback chain as the specification words it *)

Inductive source : Type :=
| From_contents
| From_content
| From_body
| From_read
| From_bytes.

(** "The first present attribute in a fixed priority order." *)
Definition first_present (download_response : pyval) : source :=
  if py_hasattr download_response "contents" then From_contents
  else if py_hasattr download_response "content" then From_content
  else if py_hasattr download_response "body" then From_body
  else if py_hasattr download_response "read" then From_read
  else From_bytes.

(** The same order, with [contents] counted only when it is not [None]. *)
Definition first_usable (download_response : pyval) : source :=
  match py_getattr download_response "contents" with
  | Ret PNone | Raise _ =>
      if py_hasattr download_response "content" then From_content
      else if py_hasattr download_response "body" then From_body
      else if py_hasattr download_response "read" then From_read
      else From_bytes
  | Ret _ => From_contents
  end.

(** What a source yields: the bytes to save, [None] where the function
    gives up with [False], or the exception the access raises. *)
Definition content_from (src : source) (download_response : pyval)
  : outcome (option pyval) :=
  match src with
  | From_contents =>
      stream ← py_getattr download_response "contents";
      match py_getattr stream "read" with
      | Ret f => data ← py_call f; _ ← py_len data; mret (Some data)
      | Raise _ => mret None
      end
  | From_content => Some <$> py_getattr download_response "content"
  | From_body => Some <$> py_getattr download_response "body"
  | From_read => Some <$> (py_getattr download_response "read" ≫= py_call)
  | From_bytes =>
      match py_bytes download_response with
      | Ret data => mret (Some data)
      | Raise _ => mret None
      end
  end.

(** ** start_streamlit and main *)

(** What the script does with child processes, in order. *)
Inductive process_event : Type :=
| Popen (cmd : list string)
| Process_wait
| Process_terminate.

(** The child that [subprocess.Popen] returns: what its first, second, ...
    [wait()] gives, and what [terminate()] gives. *)
Record process : Type := {
  wait : nat -> outcome Z;
  terminate : outcome unit
}.

(** Where the script runs: [app_py_path] is
    [str(Path(__file__).parent / "app.py")]. *)
Record launcher : Type := {
  app_py_path : string;
  subprocess_Popen : list string -> outcome process
}.

(** The world of [main]: the local files and the process calls made. *)
Record world : Type := {
  local_files : files;
  process_calls : list process_event
}.

Definition on_files {A} (c : M files A) : M world A :=
  fun w =>
    let (o, fs) := c (local_files w) in
    (o, {| local_files := fs; process_calls := process_calls w |}).

Definition process_call {A} (ev : process_event) (o : outcome A) : M world A :=
  modify (fun w => {| local_files := local_files w;
                      process_calls := process_calls w ++ [ev] |}) ;;;
  lift o.

(** The world after further process calls. *)
Definition with_calls (w : world) (evs : list process_event) : world :=
  {| local_files := local_files w; process_calls := process_calls w ++ evs |}.

Definition is_Popen (ev : process_event) : bool :=
  match ev with
  | Popen _ => true
  | _ => false
  end.

Definition except_KeyboardInterrupt (e : exn) : bool :=
  Exn.isinstance e Exn.KeyboardInterrupt.

Definition start_streamlit (os : launcher) : M world unit :=
  let cmd := ["streamlit"; "run"; app_py_path os] in
  process <- process_call (Popen cmd) (subprocess_Popen os cmd) ;;
  try_except
    (_ <- process_call Process_wait (wait process 0) ;;
     ret tt)
    [(except_KeyboardInterrupt, fun _ =>
        process_call Process_terminate (terminate process) ;;;
        _ <- process_call Process_wait (wait process 1) ;;
        ret tt)].

(** [main]: its [print] lines are left out; the download result only
    chooses between two of them. *)
Definition main (env : environment) (os : launcher) : M world unit :=
  download_success <- on_files (download_file_from_volume env) ;;
  start_streamlit os.

End Startup.

(** * sample-large-file/app.py *)

Module Viewer.

(** A local file as the script sees it: its size in bytes, the characters
    it holds, and whether opening it as UTF-8 text and reading from it
    succeeds.  One character of the string stands for one character of the
    text.

    [Text s]: the file holds the text [s] and reading it succeeds.
    [Unreadable s e]: the file holds the characters [s], as far as its
    bytes decode, and opening it or reading from it raises [e]: access is
    denied, or the decoder meets a byte that is not UTF-8.  The text layer
    decodes whole chunks of at least 8192 bytes, so the byte it fails on
    can lie after the characters the read was asked for. *)
Inductive file_content : Type :=
| Text (s : string)
| Unreadable (s : string) (e : exn).

Record file : Type := {
  st_size : Z;
  content : file_content
}.

(** The characters of a file, readable or not. *)
Definition characters (f : file) : string :=
  match content f with
  | Text s => s
  | Unreadable s _ => s
  end.

Abbreviation files := (gmap string file).

(** What a run of the script does, in order: the widgets it renders, and
    its reading of a local file. *)
Inductive event : Type :=
| St_set_page_config (layout : string)
| St_header (body : string)
| St_subheader (body : string)
| St_info (body : string)
| St_success (body : string)
| St_warning (body : string)
| St_error (body : string)
| St_json (data : pyval)
| St_write (args : list pyval)
| St_code (body : string)
| Read_text (path : string) (size : nat).

Definition page : Type := list event.

Definition emit (ev : event) : M page unit := modify (fun p => p ++ [ev]).

Definition local_json_file : string := "big.json".

(** [os.path.exists(path)] *)
Definition os_path_exists (fs : files) (path : string) : bool :=
  bool_decide (is_Some (fs !! path)).

Definition file_not_found (path : string) : exn :=
  Exn.mk (Exn.UserDefined "FileNotFoundError" Exn.OSError)
         ("[Errno 2] No such file or directory: " +:+ quote path).

(** [os.path.getsize(path)] *)
Definition os_path_getsize (fs : files) (path : string) : outcome Z :=
  match fs !! path with
  | Some f => Ret (st_size f)
  | None => Raise (file_not_found path)
  end.

(** [with open(path, 'r', encoding='utf-8') as f: f.read(size)] *)
Definition read_text (fs : files) (path : string) (size : nat) : M page string :=
  emit (Read_text path size) ;;;
  match fs !! path with
  | Some f =>
      match content f with
      | Text s => ret (substring 0 size s)
      | Unreadable _ e => raise e
      end
  | None => raise (file_not_found path)
  end.

Definition JSONDecodeError : Exn.cls := Exn.UserDefined "JSONDecodeError" Exn.ValueError.

Definition except_JSONDecodeError (e : exn) : bool := Exn.isinstance e JSONDecodeError.

Definition sample_size : nat := Z.to_nat 10240.

Section Script.

(** [json.loads], and the [:.2f] rendering of [file_size / (1024*1024)]. *)
Variable json_loads : string -> outcome pyval.
Variable format_megabytes : Z -> string.

(** The [isinstance] cascade under "Data Analysis". *)
Definition data_analysis (sample_data : pyval) : M page unit :=
  match sample_data with
  | PDict items =>
      emit (St_write [PStr ("**Type:** Dictionary with " +:+
                            pretty (length items) +:+ " keys")]) ;;;
      emit (St_write [PStr "**Keys:**";
                      PList (take 10 (map (fun kv => PStr (fst kv)) items))])
  | PList l =>
      emit (St_write [PStr ("**Type:** List with " +:+
                            pretty (length l) +:+ " items")]) ;;;
      match l with
      | first :: _ =>
          emit (St_write [PStr "**First item type:**"; PStr (type_name first)])
      | [] => ret tt
      end
  | _ => emit (St_write [PStr ("**Type:** " +:+ type_name sample_data)])
  end.

(** [sample_content[:1000] + "..." if len(sample_content) > 1000 else sample_content] *)
Definition raw_display (sample_content : string) : string :=
  if Nat.ltb 1000 (String.length sample_content) then
    substring 0 1000 sample_content +:+ "..."
  else
    sample_content.

(** The inner [try]: parse the sample and show it, or show it raw. *)
Definition show_sample (sample_content : string) : M page unit :=
  try_except
    (sample_data <- lift (json_loads sample_content) ;;
     emit (St_success "Successfully parsed JSON sample") ;;;
     emit (St_subheader "Sample Data Structure") ;;;
     emit (St_json sample_data) ;;;
     emit (St_subheader "Data Analysis") ;;;
     data_analysis sample_data)
    [(except_JSONDecodeError, fun e =>
        emit (St_warning "Could not parse as complete JSON, showing raw content") ;;;
        emit (St_code (raw_display sample_content)))].

(** The outer [try]: read the sample and preview it. *)
Definition preview (fs : files) : M page unit :=
  try_except
    (emit (St_subheader "Reading JSON file...") ;;;
     sample_content <- read_text fs local_json_file sample_size ;;
     emit (St_success "Successfully read sample content from JSON file") ;;;
     show_sample sample_content)
    [(except_Exception, fun e =>
        emit (St_error ("Error reading file: " +:+ Exn.str e)))].

Definition download_status (fs : files) : M page unit :=
  emit (St_subheader "File Download Status") ;;;
  if os_path_exists fs local_json_file then
    emit (St_success "File was successfully downloaded from Volume") ;;;
    emit (St_info "This proves the Volume access and file download workflow is working!")
  else
    emit (St_error "File download failed or file not found") ;;;
    emit (St_info "Check the startup logs for download errors").

(** The whole script, top to bottom. *)
Definition app (fs : files) : M page unit :=
  emit (St_set_page_config "wide") ;;;
  emit (St_header "Big JSON File Reader") ;;;
  emit (St_info "Reading sample data from downloaded big.json file") ;;;
  (if os_path_exists fs local_json_file then
     emit (St_success ("Found local file: " +:+ local_json_file)) ;;;
     file_size <- lift (os_path_getsize fs local_json_file) ;;
     emit (St_info ("File size: " +:+ format_megabytes file_size +:+ " MB")) ;;;
     preview fs
   else
     emit (St_error ("Local file not found: " +:+ local_json_file)) ;;;
     emit (St_info
       "Make sure the startup script successfully downloaded the file from Volume")) ;;;
  download_status fs.

End Script.

(** The [except] clause of the outer [try]. *)
Definition reading_failed : list ((exn -> bool) * (exn -> M page unit)) :=
  [(except_Exception, fun e : exn =>
      emit (St_error ("Error reading file: " +:+ Exn.str e)))].

(** A script step only adds to the page. *)
Definition extends {A} (c : M page A) : Prop :=
  forall p, exists rest, snd (c p) = p ++ rest.

(** The closing section of the page. *)
Definition status_section (present : bool) : list event :=
  St_subheader "File Download Status" ::
  if present then
    [St_success "File was successfully downloaded from Volume";
     St_info "This proves the Volume access and file download workflow is working!"]
  else
    [St_error "File download failed or file not found";
     St_info "Check the startup logs for download errors"].

Definition is_read (ev : event) : bool :=
  match ev with
  | Read_text _ _ => true
  | _ => false
  end.

End Viewer.

(** * Concrete inputs used by the examples below *)

Module Sample.

(** A credential response for a cloud other than AWS: the attribute is
    there and holds [None]. *)
Definition non_aws_response : pyval :=
  PObject "TemporaryCredentials"
    [("aws_temp_credentials", PNone);
     ("azure_aad", PObject "AzureActiveDirectoryToken" [("aad_token", PStr "t0")]);
     ("expiration_time", PInt 0)].

Definition aws_response : pyval :=
  PObject "TemporaryCredentials"
    [("aws_temp_credentials",
      PObject "AwsCredentials"
        [("access_key_id", PStr "ASIAEXAMPLE");
         ("secret_access_key", PStr "secret");
         ("session_token", PStr "token")]);
     ("expiration_time", PInt 0)].

Definition wc_returning (resp : pyval) : Creds.workspace_client :=
  {| Creds.generate_temporary_service_credential := fun _ => Ret resp |}.

Definition wc_raising (e : exn) : Creds.workspace_client :=
  {| Creds.generate_temporary_service_credential := fun _ => Raise e |}.

(** The globals of a deployed app, where none of the three variables is
    set, and a constructor that returns a given client. *)
Definition deployed : Creds.globals :=
  {| Creds.ENVIRONMENT := None;
     Creds.DATABRICKS_HOST := None;
     Creds.DATABRICKS_TOKEN := None |}.

Definition constructing (wc : Creds.workspace_client)
  : Creds.workspace_client_call -> outcome Creds.workspace_client :=
  fun _ => Ret wc.

(** A constructor that finds no credentials to authenticate with. *)
Definition cannot_configure : exn :=
  Exn.mk Exn.ValueError "default auth: cannot configure default credentials".

Definition constructor_raising (e : exn)
  : Creds.workspace_client_call -> outcome Creds.workspace_client :=
  fun _ => Raise e.

(** A response whose [contents] is [None] and whose [content] holds the
    bytes of ["{}"]. *)
Definition download_response_without_stream : pyval :=
  PObject "DownloadResponse"
    [("contents", PNone); ("content", PBytes [x7b; x7d])].

(** A response with none of the probed attributes. *)
Definition opaque_response : pyval := PObject "Response" [("status", PInt 200)].

Definition stream_response : pyval :=
  PObject "DownloadResponse"
    [("contents", PObject "BytesIO" [("read", PMethod (Ret (PBytes [x7b; x7d])))])].

Definition sdk_returning (r : outcome pyval) : Startup.environment :=
  {| Startup.import_WorkspaceClient := Ret tt;
     Startup.WorkspaceClient := Ret {| Startup.download := fun _ => r |};
     Startup.dbutils_fs_cp := None;
     Startup.local_disk := Startup.Disk_ok |}.

(** A response whose [contents] stream raises when read, and one with a
    [read] method of its own that raises. *)
Definition broken_stream_response (e : exn) : pyval :=
  PObject "DownloadResponse"
    [("contents", PObject "BytesIO" [("read", PMethod (Raise e))])].

Definition broken_reader_response (e : exn) : pyval :=
  PObject "Response" [("read", PMethod (Raise e))].

(** A disk on which [big.json] cannot be opened for writing, and one that
    fills up after [written] bytes. *)
Definition is_a_directory : exn :=
  Exn.mk (Exn.UserDefined "IsADirectoryError" Exn.OSError)
         "[Errno 21] Is a directory: 'big.json'".

Definition no_space_left : exn :=
  Exn.mk Exn.OSError "[Errno 28] No space left on device".

Definition sdk_on_disk (d : Startup.disk) (r : outcome pyval) : Startup.environment :=
  {| Startup.import_WorkspaceClient := Ret tt;
     Startup.WorkspaceClient := Ret {| Startup.download := fun _ => r |};
     Startup.dbutils_fs_cp := None;
     Startup.local_disk := d |}.

(** A parser that accepts nothing, and a size rendering in whole bytes. *)
Definition json_rejecting : string -> outcome pyval :=
  fun _ => Raise (Exn.mk Viewer.JSONDecodeError "Expecting value").

Definition json_empty_object : string -> outcome pyval :=
  fun _ => Ret (PDict []).

Definition format_bytes : Z -> string := fun z => pretty z.

Fixpoint string_repeat (c : ascii) (n : nat) (tail : string) : string :=
  match n with
  | O => tail
  | S n' => String c (string_repeat c n' tail)
  end.

(** Two texts that agree on their first 10240 characters and differ
    after them, in content and in length. *)
Definition long_text_1 : string := string_repeat "a" Viewer.sample_size "x".
Definition long_text_2 : string := string_repeat "a" Viewer.sample_size "yy".

Definition disk_with (size : Z) (text : string) : Viewer.files :=
  {[ "big.json" := {| Viewer.st_size := size; Viewer.content := Viewer.Text text |} ]}.

Definition interrupt : exn := Exn.mk Exn.KeyboardInterrupt "".

Definition throttled : exn :=
  Exn.mk (Exn.UserDefined "ClientError" Exn.Exception) "RequestLimitExceeded".

Definition credentials : pyval :=
  PDict [("access_key_id", PStr "ASIAEXAMPLE");
         ("secret_access_key", PStr "secret");
         ("session_token", PStr "token")].

Definition session_of (describe : outcome pyval) : Creds.session :=
  {| Creds.client := fun _ _ => Ret {| Creds.describe_instances := describe |} |}.

Definition boto3_of (describe : outcome pyval) : Creds.boto3_module :=
  {| Creds.Session := fun _ _ _ => Ret (session_of describe) |}.

Definition tag_dict (k v : string) : pyval :=
  PDict [("Key", PStr k); ("Value", PStr v)].

(** Two reservations, three instances: one with two ["Name"] tags after
    another tag, one without a ["Tags"] key, one with an empty tag list. *)
Definition ec2_response : pyval :=
  PDict
    [("Reservations",
      PList
        [PDict
           [("ReservationId", PStr "r-01");
            ("Instances",
             PList
               [PDict [("InstanceId", PStr "i-01");
                       ("Tags", PList [tag_dict "env" "prod";
                                       tag_dict "Name" "web";
                                       tag_dict "Name" "shadow"])];
                PDict [("InstanceId", PStr "i-02")]])];
         PDict
           [("Instances",
             PList [PDict [("InstanceId", PStr "i-03"); ("Tags", PList [])]])]]);
     ("ResponseMetadata", PDict [])].

Definition ec2_reservations : list (list Creds.instance) :=
  [[{| Creds.Tags := Some [{| Creds.Key := "env"; Creds.Value := "prod" |};
                           {| Creds.Key := "Name"; Creds.Value := "web" |};
                           {| Creds.Key := "Name"; Creds.Value := "shadow" |}];
       Creds.InstanceId := "i-01" |};
    {| Creds.Tags := None; Creds.InstanceId := "i-02" |}];
   [{| Creds.Tags := Some []; Creds.InstanceId := "i-03" |}]].

(** A response whose [content] is text, not bytes. *)
Definition text_response : pyval :=
  PObject "Response" [("content", PStr "{}")].

(** A child that is interrupted while waited for, then ends with status 0
    once terminated. *)
Definition interrupted_child : Startup.process :=
  {| Startup.wait := fun n => match n with
                              | O => Raise interrupt
                              | _ => Ret 0%Z
                              end;
     Startup.terminate := Ret tt |}.

Definition launcher_of (child : Startup.process) : Startup.launcher :=
  {| Startup.app_py_path := "/app/app.py";
     Startup.subprocess_Popen := fun _ => Ret child |}.

Definition empty_world : Startup.world :=
  {| Startup.local_files := ∅; Startup.process_calls := [] |}.

(** A parser that overflows the interpreter's stack on any input. *)
Definition json_overflowing : string -> outcome pyval :=
  fun _ => Raise (Exn.mk (Exn.UserDefined "RecursionError"
                            (Exn.UserDefined "RuntimeError" Exn.Exception))
                         "maximum recursion depth exceeded").

(** A disk on which [big.json] exists and cannot be opened. *)
Definition disk_unreadable : Viewer.files :=
  {[ "big.json" :=
       {| Viewer.st_size := 2;
          Viewer.content :=
            Viewer.Unreadable "{}"
              (Exn.mk (Exn.UserDefined "PermissionError" Exn.OSError)
                      "[Errno 13] Permission denied: 'big.json'") |} ]}.

(** Two files of 10242 bytes that begin with the same 10240 characters,
    an e with an acute accent and 10239 times the letter a.  The bytes of
    the first are C3 A9, 10239 times 61, then 62: it goes on with the
    letter b.  The bytes of the second are C3 A9, 10239 times 61, then FF,
    which is no UTF-8.  [f.read(10240)] first decodes 10240 bytes, which
    gives 10239 characters, one short of what was asked for, so it decodes
    a second chunk, the rest of the file: on the second file that raises
    [UnicodeDecodeError], at position 1 of that chunk. *)
Definition accented_sample : string :=
  String "233" (string_repeat "a" (Viewer.sample_size - 1) "").

Definition undecodable_byte : exn :=
  Exn.mk (Exn.UserDefined "UnicodeDecodeError"
            (Exn.UserDefined "UnicodeError" Exn.ValueError))
         "'utf-8' codec can't decode byte 0xff in position 1: invalid start byte".

Definition file_decodable : Viewer.file :=
  {| Viewer.st_size := 10242;
     Viewer.content := Viewer.Text (accented_sample +:+ "b") |}.

Definition file_undecodable : Viewer.file :=
  {| Viewer.st_size := 10242;
     Viewer.content := Viewer.Unreadable accented_sample undecodable_byte |}.

(** Credentials that lack the session token. *)
Definition credentials_without_token : pyval :=
  PDict [("access_key_id", PStr "ASIAEXAMPLE");
         ("secret_access_key", PStr "secret")].

(** A response whose second instance has a ["Tags"] key holding [None]. *)
Definition ec2_response_with_null_tags : pyval :=
  PDict
    [("Reservations",
      PList
        [PDict
           [("Instances",
             PList
               [PDict [("InstanceId", PStr "i-01");
                       ("Tags", PList [tag_dict "Name" "web"])];
                PDict [("InstanceId", PStr "i-02"); ("Tags", PNone)];
                PDict [("InstanceId", PStr "i-03")]])]])].

End Sample.

(** * Properties *)

(** ** Exceptions and the monad *)

(** Unfolds one run of a monadic script at a given state. *)
Ltac run :=
  unfold try_except, bind, lift, ret, raise, modify, gets; simpl.

Lemma bind_ret_run {S A B} (c : M S A) (k : A -> M S B) (s s' : S) (a : A) :
  c s = (Ret a, s') -> bind c k s = k a s'.
Proof. intros H. unfold bind. rewrite H. reflexivity. Qed.

(** ** get_workspace_client *)

Lemma is_LOCAL_spec (v : option string) :
  Creds.is_LOCAL v = bool_decide (v = Some "LOCAL").
Proof.
  destruct v as [s|]; [|reflexivity].
  unfold Creds.is_LOCAL.
  destruct (String.eqb_spec s "LOCAL") as [->|Hne].
  - rewrite bool_decide_eq_true_2; reflexivity.
  - rewrite bool_decide_eq_false_2; [reflexivity | congruence].
Qed.

(** C6. [get_workspace_client] builds the client from the host and token
    variables exactly when [ENVIRONMENT] is ["LOCAL"], and with no
    arguments otherwise, also when [ENVIRONMENT] is unset; the cached
    wrapper builds it that way on its first call. *)
Theorem get_workspace_client_by_environment (dotenv environ : gmap string string) :
  let env := Creds.load_dotenv dotenv environ in
  let g := Creds.module_globals dotenv environ in
  Creds.get_workspace_client g =
    (if decide (Creds.os_getenv env "ENVIRONMENT" = Some "LOCAL")
     then Creds.WorkspaceClient_host_token
            (Creds.os_getenv env "DATABRICKS_HOST")
            (Creds.os_getenv env "DATABRICKS_TOKEN")
     else Creds.WorkspaceClient_no_args)
  ∧ (Creds.os_getenv env "ENVIRONMENT" = None ->
     Creds.get_workspace_client g = Creds.WorkspaceClient_no_args)
  ∧ Creds.cached_get_workspace_client g None =
      (Creds.get_workspace_client g, Some (Creds.get_workspace_client g)).
Proof.
  intros env g. unfold Creds.get_workspace_client. subst g. simpl.
  fold env. rewrite is_LOCAL_spec.
  split; [|split].
  - destruct (decide _) as [H|H].
    + rewrite bool_decide_eq_true_2 by exact H. reflexivity.
    + rewrite bool_decide_eq_false_2 by exact H. reflexivity.
  - intros H. rewrite H. reflexivity.
  - unfold Creds.cached_get_workspace_client, Creds.get_workspace_client.
    simpl. fold env. rewrite is_LOCAL_spec. reflexivity.
Qed.

Lemma get_workspace_client_by_environment_witness :
  let env := Creds.load_dotenv ∅ {[ "DATABRICKS_HOST" := "https://example.test" ]} in
  Creds.os_getenv env "ENVIRONMENT" = None ∧
  Creds.get_workspace_client
    (Creds.module_globals ∅ {[ "DATABRICKS_HOST" := "https://example.test" ]})
  = Creds.WorkspaceClient_no_args.
Proof.
  split; [reflexivity|].
  apply (get_workspace_client_by_environment
           ∅ {[ "DATABRICKS_HOST" := "https://example.test" ]}).
  reflexivity.
Defined.

(** ** Attribute access *)

Lemma py_getattr_raises (v : pyval) (name : string) (e : exn) :
  py_getattr v name = Raise e -> e = no_attribute v name.
Proof.
  destruct v; simpl; try congruence.
  destruct (assoc name attrs); congruence.
Qed.

Lemma py_hasattr_getattr (v : pyval) (name : string) :
  py_hasattr v name = true <-> exists x, py_getattr v name = Ret x.
Proof.
  destruct v; simpl; try (split; [discriminate | intros [x Hx]; discriminate]).
  destruct (assoc name attrs) as [x|]; split.
  - eauto.
  - intros _. apply bool_decide_eq_true. eauto.
  - intros H. apply bool_decide_eq_true in H. destruct H as [x Hx]. discriminate.
  - intros [x Hx]. discriminate.
Qed.

Lemma py_hasattr_false (v : pyval) (name : string) :
  py_hasattr v name = false -> py_getattr v name = Raise (no_attribute v name).
Proof.
  intros H. destruct (py_getattr v name) as [x|e] eqn:E.
  - assert (py_hasattr v name = true) by (apply py_hasattr_getattr; eauto).
    congruence.
  - f_equal. eapply py_getattr_raises; eauto.
Qed.

Lemma except_Exception_no_attribute (v : pyval) (name : string) :
  except_Exception (no_attribute v name) = true.
Proof. reflexivity. Qed.

(** ** get_aws_credentials, case by case *)

Section GetAwsCredentials.

Variable wc : Creds.workspace_client.
Variable name : string.
Variable l : Creds.log.

Lemma get_aws_credentials_raised (e : exn) :
  Creds.generate_temporary_service_credential wc name = Raise e ->
  Creds.get_aws_credentials wc name l =
    (if except_Exception e
     then Ret (None, Some ("Error getting AWS credentials: " +:+ Exn.str e))
     else Raise e, Creds.called l name).
Proof.
  intros H. unfold Creds.get_aws_credentials, Creds.external. run.
  rewrite H. simpl. destruct (except_Exception e); reflexivity.
Qed.

Lemma get_aws_credentials_absent (resp : pyval) :
  Creds.generate_temporary_service_credential wc name = Ret resp ->
  py_hasattr resp "aws_temp_credentials" = false ->
  Creds.get_aws_credentials wc name l =
    (Ret (None, Some "No AWS credentials found in response"), Creds.called l name).
Proof.
  intros H Hno. unfold Creds.get_aws_credentials, Creds.external. run.
  rewrite H. simpl. rewrite Hno. reflexivity.
Qed.

Lemma get_aws_credentials_populated (resp aws a s t : pyval) :
  Creds.generate_temporary_service_credential wc name = Ret resp ->
  py_getattr resp "aws_temp_credentials" = Ret aws ->
  py_getattr aws "access_key_id" = Ret a ->
  py_getattr aws "secret_access_key" = Ret s ->
  py_getattr aws "session_token" = Ret t ->
  Creds.get_aws_credentials wc name l =
    (Ret (Some (PDict [("access_key_id", a); ("secret_access_key", s);
                       ("session_token", t)]), None), Creds.called l name).
Proof.
  intros H Haws Ha Hs Ht.
  assert (Hhas : py_hasattr resp "aws_temp_credentials" = true)
    by (apply py_hasattr_getattr; eauto).
  unfold Creds.get_aws_credentials, Creds.external. run.
  rewrite H. simpl. rewrite Hhas, Haws, Ha, Hs, Ht. reflexivity.
Qed.

Lemma get_aws_credentials_incomplete (resp aws : pyval) :
  Creds.generate_temporary_service_credential wc name = Ret resp ->
  py_getattr resp "aws_temp_credentials" = Ret aws ->
  (exists field, field ∈ Creds.credential_fields ∧
                 py_hasattr aws field = false) ->
  exists field,
    field ∈ Creds.credential_fields ∧
    py_hasattr aws field = false ∧
    Creds.get_aws_credentials wc name l =
      (Ret (None, Some ("Error getting AWS credentials: " +:+
                        Exn.str (no_attribute aws field))), Creds.called l name).
Proof.
  intros H Haws Hmiss.
  assert (Hhas : py_hasattr resp "aws_temp_credentials" = true)
    by (apply py_hasattr_getattr; eauto).
  unfold Creds.get_aws_credentials, Creds.external. run.
  rewrite H. simpl. rewrite Hhas, Haws.
  destruct (py_hasattr aws "access_key_id") eqn:E1.
  - apply py_hasattr_getattr in E1 as [a Ha]. rewrite Ha.
    destruct (py_hasattr aws "secret_access_key") eqn:E2.
    + apply py_hasattr_getattr in E2 as [s Hs]. rewrite Hs.
      destruct (py_hasattr aws "session_token") eqn:E3.
      * exfalso. destruct Hmiss as (f & Hf & Hno).
        apply py_hasattr_getattr in E3.
        assert (py_hasattr aws "access_key_id" = true)
          by (apply py_hasattr_getattr; eauto).
        assert (py_hasattr aws "secret_access_key" = true)
          by (apply py_hasattr_getattr; eauto).
        assert (py_hasattr aws "session_token" = true)
          by (apply py_hasattr_getattr; eauto).
        set_unfold in Hf. destruct Hf as [->|[->|[->|[]]]]; congruence.
      * exists "session_token". split; [repeat constructor|]. split; [exact E3|].
        rewrite (py_hasattr_false _ _ E3). reflexivity.
    + exists "secret_access_key". split; [repeat constructor|]. split; [exact E2|].
      rewrite (py_hasattr_false _ _ E2). reflexivity.
  - exists "access_key_id". split; [repeat constructor|]. split; [exact E1|].
    rewrite (py_hasattr_false _ _ E1). reflexivity.
Qed.

End GetAwsCredentials.

(** ** What get_aws_credentials returns *)

(** C2, as stated, fails: a response that has the attribute, holding
    [None], gets no dictionary but the catch-all's error. *)
Lemma get_aws_credentials_attribute_present_no_dictionary :
  Creds.generate_temporary_service_credential
    (Sample.wc_returning Sample.non_aws_response) "cred"
    = Ret Sample.non_aws_response ∧
  py_hasattr Sample.non_aws_response "aws_temp_credentials" = true ∧
  fst (Creds.get_aws_credentials
         (Sample.wc_returning Sample.non_aws_response) "cred" [])
    = Ret (None,
           Some "Error getting AWS credentials: 'NoneType' object has no attribute 'access_key_id'").
Proof. repeat split. Qed.

(** C2, amended. For every response the credential service returns,
    [get_aws_credentials] returns the dictionary of the three fields,
    paired with [None], exactly when the response has the attribute
    [aws_temp_credentials] and the value of that attribute has the
    three fields; [None] with "No AWS credentials found in response"
    when the attribute is absent; and [None] with an "Error getting AWS
    credentials: ..." string when the attribute is there and its value
    lacks one of the fields. *)
Theorem get_aws_credentials_on_response
    (wc : Creds.workspace_client) (name : string) (l : Creds.log) (resp : pyval) :
  Creds.generate_temporary_service_credential wc name = Ret resp ->
  ((exists d, fst (Creds.get_aws_credentials wc name l) = Ret (Some d, None))
   <-> exists aws a s t, Creds.has_fields resp aws a s t)
  ∧ (forall aws a s t, Creds.has_fields resp aws a s t ->
       fst (Creds.get_aws_credentials wc name l) =
         Ret (Some (PDict [("access_key_id", a); ("secret_access_key", s);
                           ("session_token", t)]), None))
  ∧ (py_hasattr resp "aws_temp_credentials" = false ->
       fst (Creds.get_aws_credentials wc name l) =
         Ret (None, Some "No AWS credentials found in response"))
  ∧ (forall aws, py_getattr resp "aws_temp_credentials" = Ret aws ->
       (exists field, field ∈ Creds.credential_fields ∧
                      py_hasattr aws field = false) ->
       exists msg,
         fst (Creds.get_aws_credentials wc name l) =
           Ret (None, Some ("Error getting AWS credentials: " +:+ msg))).
Proof.
  intros H. set (r := fst (Creds.get_aws_credentials wc name l)).
  assert (Hpop : forall aws a s t, Creds.has_fields resp aws a s t ->
       r = Ret (Some (PDict [("access_key_id", a); ("secret_access_key", s);
                             ("session_token", t)]), None)).
  { intros aws a s t (Haws & Ha & Hs & Ht). subst r.
    erewrite get_aws_credentials_populated; eauto. }
  assert (Habs : py_hasattr resp "aws_temp_credentials" = false ->
       r = Ret (None, Some "No AWS credentials found in response")).
  { intros Hno. subst r. erewrite get_aws_credentials_absent; eauto. }
  assert (Hinc : forall aws, py_getattr resp "aws_temp_credentials" = Ret aws ->
       (exists field, field ∈ Creds.credential_fields ∧
                      py_hasattr aws field = false) ->
       exists msg, r = Ret (None, Some ("Error getting AWS credentials: " +:+ msg))).
  { intros aws Haws Hmiss. subst r.
    destruct (get_aws_credentials_incomplete wc name l resp aws H Haws Hmiss)
      as (field & _ & _ & Hrun).
    rewrite Hrun. eauto. }
  split; [|split; [exact Hpop|split; [exact Habs|exact Hinc]]].
  split.
  - intros [d Hd].
    destruct (py_hasattr resp "aws_temp_credentials") eqn:Ehas.
    2:{ rewrite (Habs eq_refl) in Hd. discriminate. }
    apply py_hasattr_getattr in Ehas as [aws Haws].
    destruct (py_hasattr aws "access_key_id") eqn:E1.
    2:{ destruct (Hinc aws Haws) as [msg Hmsg].
        { exists "access_key_id". split; [repeat constructor|exact E1]. }
        rewrite Hmsg in Hd. discriminate. }
    destruct (py_hasattr aws "secret_access_key") eqn:E2.
    2:{ destruct (Hinc aws Haws) as [msg Hmsg].
        { exists "secret_access_key". split; [repeat constructor|exact E2]. }
        rewrite Hmsg in Hd. discriminate. }
    destruct (py_hasattr aws "session_token") eqn:E3.
    2:{ destruct (Hinc aws Haws) as [msg Hmsg].
        { exists "session_token". split; [repeat constructor|exact E3]. }
        rewrite Hmsg in Hd. discriminate. }
    apply py_hasattr_getattr in E1 as [a Ha].
    apply py_hasattr_getattr in E2 as [s Hs].
    apply py_hasattr_getattr in E3 as [t Ht].
    exists aws, a, s, t. repeat split; assumption.
  - intros (aws & a & s & t & Hf). eexists. apply (Hpop _ _ _ _ Hf).
Qed.

Lemma get_aws_credentials_on_response_witness :
  Creds.generate_temporary_service_credential
    (Sample.wc_returning Sample.aws_response) "cred" = Ret Sample.aws_response ∧
  fst (Creds.get_aws_credentials (Sample.wc_returning Sample.aws_response) "cred" [])
    = Ret (Some (PDict [("access_key_id", PStr "ASIAEXAMPLE");
                        ("secret_access_key", PStr "secret");
                        ("session_token", PStr "token")]), None).
Proof.
  split; [reflexivity|].
  refine (proj1 (proj2 (get_aws_credentials_on_response
           (Sample.wc_returning Sample.aws_response) "cred" [] Sample.aws_response
           eq_refl)) _ _ _ _ _).
  repeat split.
Defined.

(** C9. Whatever the credential service answers or raises, a pair that
    [get_aws_credentials] returns has exactly one [None] component: it is
    the dictionary of the three fields with no error, or no dictionary
    with a non-empty error string.  A pair is returned for every response
    and for every exception that is an [Exception]; any other exception
    is the service's own, passing through. *)
Theorem get_aws_credentials_exactly_one_None
    (wc : Creds.workspace_client) (name : string) (l : Creds.log) :
  match fst (Creds.get_aws_credentials wc name l) with
  | Ret (Some d, None) =>
      exists a s t,
        d = PDict [("access_key_id", a); ("secret_access_key", s);
                   ("session_token", t)]
  | Ret (None, Some msg) => msg ≠ ""
  | Ret (Some _, Some _) | Ret (None, None) => False
  | Raise e =>
      Creds.generate_temporary_service_credential wc name = Raise e ∧
      except_Exception e = false
  end.
Proof.
  destruct (Creds.generate_temporary_service_credential wc name) as [resp|e] eqn:H.
  - destruct (py_hasattr resp "aws_temp_credentials") eqn:Ehas.
    + apply py_hasattr_getattr in Ehas as [aws Haws].
      destruct (py_hasattr aws "access_key_id") eqn:E1;
        [destruct (py_hasattr aws "secret_access_key") eqn:E2;
           [destruct (py_hasattr aws "session_token") eqn:E3|]|].
      * apply py_hasattr_getattr in E1 as [a Ha].
        apply py_hasattr_getattr in E2 as [s Hs].
        apply py_hasattr_getattr in E3 as [t Ht].
        erewrite get_aws_credentials_populated; eauto. simpl. eauto.
      * destruct (get_aws_credentials_incomplete wc name l resp aws H Haws)
          as (f & _ & _ & Hrun).
        { exists "session_token". split; [repeat constructor|exact E3]. }
        rewrite Hrun. simpl. discriminate.
      * destruct (get_aws_credentials_incomplete wc name l resp aws H Haws)
          as (f & _ & _ & Hrun).
        { exists "secret_access_key". split; [repeat constructor|exact E2]. }
        rewrite Hrun. simpl. discriminate.
      * destruct (get_aws_credentials_incomplete wc name l resp aws H Haws)
          as (f & _ & _ & Hrun).
        { exists "access_key_id". split; [repeat constructor|exact E1]. }
        rewrite Hrun. simpl. discriminate.
    + erewrite get_aws_credentials_absent; eauto. simpl. discriminate.
  - rewrite (get_aws_credentials_raised wc name l e H). simpl.
    destruct (except_Exception e) eqn:Ee.
    + discriminate.
    + split; [reflexivity | exact Ee].
Qed.

(** ** get_ec2_instances: the calls it makes and what it returns *)

Section GetEc2Instances.

Variable boto3 : Creds.boto3_module.
Variable region : string.
Variable l : Creds.log.
Variables aws_credentials a s t : pyval.
Hypothesis Ha : py_getitem aws_credentials "access_key_id" = Ret a.
Hypothesis Hs : py_getitem aws_credentials "secret_access_key" = Ret s.
Hypothesis Ht : py_getitem aws_credentials "session_token" = Ret t.

Lemma get_ec2_instances_run :
  Creds.get_ec2_instances boto3 aws_credentials region l =
    match Creds.Session boto3 a s t with
    | Raise e => (Creds.ec2_handled e, l ++ [Creds.Call_boto3_Session a s t])
    | Ret session =>
        match Creds.client session "ec2" region with
        | Raise e =>
            (Creds.ec2_handled e,
             l ++ [Creds.Call_boto3_Session a s t;
                   Creds.Call_session_client "ec2" region])
        | Ret ec2 =>
            (match Creds.describe_instances ec2 with
             | Raise e => Creds.ec2_handled e
             | Ret response =>
                 match Creds.listing response with
                 | Ret instances => Ret (instances, None)
                 | Raise e => Creds.ec2_handled e
                 end
             end,
             l ++ [Creds.Call_boto3_Session a s t;
                   Creds.Call_session_client "ec2" region;
                   Creds.Call_describe_instances])
        end
    end.
Proof.
  unfold Creds.get_ec2_instances, Creds.external, Creds.ec2_handled, Creds.listing.
  run. rewrite Ha, Hs, Ht.
  destruct (Creds.Session boto3 a s t) as [session|e]; simpl.
  2:{ destruct (except_Exception e); reflexivity. }
  destruct (Creds.client session "ec2" region) as [ec2|e]; simpl.
  2:{ rewrite <- app_assoc. simpl. destruct (except_Exception e); reflexivity. }
  rewrite <- !app_assoc. simpl.
  destruct (Creds.describe_instances ec2) as [response|e]; simpl.
  2:{ destruct (except_Exception e); reflexivity. }
  destruct (py_getitem response "Reservations") as [rs|e]; simpl.
  2:{ destruct (except_Exception e); reflexivity. }
  destruct (py_iter rs) as [items|e]; simpl.
  2:{ destruct (except_Exception e); reflexivity. }
  destruct (Creds.reservations_loop items []) as [instances|e]; simpl.
  2:{ destruct (except_Exception e); reflexivity. }
  reflexivity.
Qed.

End GetEc2Instances.

(** ** The listing of a well-shaped response *)

Lemma name_tag_loop_typed (l : list pyval) (ts : list Creds.tag) (d : pyval) :
  Forall2 (fun v t => Creds.as_tag v = Some t) l ts ->
  Creds.name_tag_loop l d =
    Ret (match List.find Creds.is_name_tag ts with
         | Some t => PStr (Creds.Value t)
         | None => d
         end).
Proof.
  induction 1 as [|v t l ts Hv _ IH]; [reflexivity|].
  destruct v; try discriminate. simpl in Hv. simpl.
  destruct (assoc "Key" items) as [[]|] eqn:Ek; try discriminate.
  destruct (assoc "Value" items) as [[]|] eqn:Ev; try discriminate.
  injection Hv as <-. simpl. unfold Creds.is_name_tag at 1. simpl.
  destruct (String.eqb s "Name"); [reflexivity|exact IH].
Qed.

Lemma instance_info_typed (v : pyval) (i : Creds.instance) :
  Creds.as_instance v = Some i -> Creds.instance_info v = Ret (Creds.record_of i).
Proof.
  destruct v; try discriminate. simpl. unfold Creds.instance_info. simpl.
  destruct (assoc "InstanceId" items) as [[]|] eqn:Eid; try discriminate.
  destruct (assoc "Tags" items) as [tagsv|] eqn:Etags.
  - destruct tagsv; try discriminate.
    destruct (mapM Creds.as_tag l) as [ts|] eqn:Em; try discriminate.
    intros [= <-]. simpl.
    apply mapM_Some in Em.
    rewrite (name_tag_loop_typed _ _ _ Em). simpl.
    unfold Creds.record_of, Creds.name_of, Creds.tags_of. simpl.
    destruct (List.find Creds.is_name_tag ts); reflexivity.
  - intros [= <-]. reflexivity.
Qed.

Lemma instances_loop_typed (l : list pyval) (insts : list Creds.instance)
    (acc : list pyval) :
  Forall2 (fun v i => Creds.as_instance v = Some i) l insts ->
  Creds.instances_loop l acc = Ret (acc ++ map Creds.record_of insts).
Proof.
  intros H. revert acc.
  induction H as [|v i l insts Hv _ IH]; intros acc; simpl.
  - rewrite app_nil_r. reflexivity.
  - rewrite (instance_info_typed _ _ Hv). simpl.
    rewrite IH, <- app_assoc. reflexivity.
Qed.

Lemma reservations_loop_typed (l : list pyval) (rs : list (list Creds.instance))
    (acc : list pyval) :
  Forall2 (fun v r => Creds.as_reservation v = Some r) l rs ->
  Creds.reservations_loop l acc = Ret (acc ++ map Creds.record_of (concat rs)).
Proof.
  intros H. revert acc.
  induction H as [|v r l rs Hv _ IH]; intros acc; simpl.
  - rewrite app_nil_r. reflexivity.
  - destruct v; try discriminate. simpl in Hv. simpl.
    destruct (assoc "Instances" items) as [[]|]; try discriminate.
    simpl. apply mapM_Some in Hv.
    rewrite (instances_loop_typed _ _ _ Hv). simpl.
    rewrite IH, map_app, app_assoc. reflexivity.
Qed.

Lemma listing_typed (response : pyval) (rs : list (list Creds.instance)) :
  Creds.as_response response = Some rs ->
  Creds.listing response = Ret (map Creds.record_of (concat rs)).
Proof.
  destruct response; try discriminate. simpl. unfold Creds.listing. simpl.
  destruct (assoc "Reservations" items) as [[]|]; try discriminate.
  intros H. apply mapM_Some in H. simpl.
  apply (reservations_loop_typed _ _ [] H).
Qed.

Lemma find_name_tag_describes (i : Creds.instance) :
  Creds.describes i (Creds.record_of i).
Proof.
  exists (Creds.name_of i). split; [reflexivity|].
  unfold Creds.name_of.
  destruct (List.find Creds.is_name_tag (Creds.tags_of i)) as [t|] eqn:E.
  - left. exists t. apply List.find_some in E as [Hin Hname].
    split; [apply list_elem_of_In; exact Hin|].
    split; [|reflexivity].
    unfold Creds.is_name_tag in Hname. apply String.eqb_eq. exact Hname.
  - right. split; [|reflexivity].
    intros t Hin Hkey. apply list_elem_of_In in Hin.
    pose proof (List.find_none _ _ E t Hin) as Hn.
    unfold Creds.is_name_tag in Hn. rewrite Hkey in Hn. discriminate.
Qed.

(** ** One record per instance *)

(** C1. For every describe-instances response, [get_ec2_instances] returns
    one record per instance, in the order of the reservations and of their
    instances; the record's "Name" is the value of a tag whose key is
    "Name" when the instance has one, and "N/A" when it has none or has no
    "Tags" key at all; its "Instance ID" is the instance's id. *)
Theorem get_ec2_instances_one_record_per_instance
    (boto3 : Creds.boto3_module) (region : string) (l : Creds.log)
    (aws_credentials a s t response : pyval)
    (session : Creds.session) (ec2 : Creds.ec2_client)
    (rs : list (list Creds.instance)) :
  py_getitem aws_credentials "access_key_id" = Ret a ->
  py_getitem aws_credentials "secret_access_key" = Ret s ->
  py_getitem aws_credentials "session_token" = Ret t ->
  Creds.Session boto3 a s t = Ret session ->
  Creds.client session "ec2" region = Ret ec2 ->
  Creds.describe_instances ec2 = Ret response ->
  Creds.as_response response = Some rs ->
  exists records,
    fst (Creds.get_ec2_instances boto3 aws_credentials region l) = Ret (records, None)
    ∧ length records = length (concat rs)
    ∧ Forall2 Creds.describes (concat rs) records.
Proof.
  intros Ha Hs Ht Hsession Hclient Hdescribe Hshape.
  rewrite (get_ec2_instances_run boto3 region l aws_credentials a s t Ha Hs Ht).
  rewrite Hsession, Hclient, Hdescribe, (listing_typed _ _ Hshape). simpl.
  exists (map Creds.record_of (concat rs)).
  split; [reflexivity|]. split; [apply length_map|].
  induction (concat rs) as [|i is' IH]; simpl; constructor.
  - apply find_name_tag_describes.
  - exact IH.
Qed.

Lemma get_ec2_instances_one_record_per_instance_witness :
  exists records,
    fst (Creds.get_ec2_instances (Sample.boto3_of (Ret Sample.ec2_response))
           Sample.credentials "us-east-1" [])
      = Ret (records, None)
    ∧ length records = 3
    ∧ Forall2 Creds.describes (concat Sample.ec2_reservations) records.
Proof.
  apply (get_ec2_instances_one_record_per_instance
           (Sample.boto3_of (Ret Sample.ec2_response)) "us-east-1" []
           Sample.credentials (PStr "ASIAEXAMPLE") (PStr "secret") (PStr "token")
           Sample.ec2_response
           (Sample.session_of (Ret Sample.ec2_response))
           {| Creds.describe_instances := Ret Sample.ec2_response |}
           Sample.ec2_reservations);
    reflexivity.
Defined.

Example get_ec2_instances_sample :
  fst (Creds.get_ec2_instances (Sample.boto3_of (Ret Sample.ec2_response))
         Sample.credentials "us-east-1" [])
  = Ret ([PDict [("Name", PStr "web"); ("Instance ID", PStr "i-01")];
          PDict [("Name", PStr "N/A"); ("Instance ID", PStr "i-02")];
          PDict [("Name", PStr "N/A"); ("Instance ID", PStr "i-03")]], None).
Proof. reflexivity. Qed.

(** ** The first "Name" tag wins *)

Lemma find_first_name_tag (pre post : list Creds.tag) (t : Creds.tag) :
  Forall (fun x => Creds.Key x ≠ "Name") pre ->
  Creds.Key t = "Name" ->
  List.find Creds.is_name_tag (pre ++ t :: post) = Some t.
Proof.
  intros Hpre Ht. induction Hpre as [|x pre Hx _ IH]; simpl.
  - unfold Creds.is_name_tag. rewrite Ht. reflexivity.
  - unfold Creds.is_name_tag at 1.
    destruct (String.eqb_spec (Creds.Key x) "Name") as [E|_]; [contradiction|].
    exact IH.
Qed.

(** The loop leaves at the first match: what follows it in the list is
    never looked at, whatever it is. *)
Lemma name_tag_loop_stops (raw_pre later : list pyval) (raw_t d : pyval)
    (pre : list Creds.tag) (t : Creds.tag) :
  Forall2 (fun v x => Creds.as_tag v = Some x) raw_pre pre ->
  Forall (fun x => Creds.Key x ≠ "Name") pre ->
  Creds.as_tag raw_t = Some t ->
  Creds.Key t = "Name" ->
  Creds.name_tag_loop (raw_pre ++ raw_t :: later) d = Ret (PStr (Creds.Value t)).
Proof.
  intros Hraw Hpre Ht Hname. revert Hpre.
  induction Hraw as [|v x raw_pre pre Hv _ IH]; intros Hpre.
  - simpl. destruct raw_t; try discriminate. simpl in Ht. simpl.
    destruct (assoc "Key" items) as [[]|]; try discriminate.
    destruct (assoc "Value" items) as [[]|]; try discriminate.
    injection Ht as <-. simpl in *. rewrite Hname. reflexivity.
  - inversion Hpre as [|? ? Hx Hpre']; subst.
    destruct v; try discriminate. simpl in Hv. simpl.
    destruct (assoc "Key" items) as [[]|]; try discriminate.
    destruct (assoc "Value" items) as [[]|]; try discriminate.
    injection Hv as <-. simpl in *.
    destruct (String.eqb_spec s "Name") as [E|_]; [contradiction|].
    apply IH. exact Hpre'.
Qed.

(** C8. When the tag list of an instance has a tag with key "Name", also
    when it has several, the record's "Name" is the value of the first of
    them in list order; the tags after it never influence the result: the
    loop stops there, whatever follows. *)
Theorem get_ec2_instances_first_name_tag
    (boto3 : Creds.boto3_module) (region : string) (l : Creds.log)
    (aws_credentials a s t response : pyval)
    (session : Creds.session) (ec2 : Creds.ec2_client)
    (rs : list (list Creds.instance))
    (k : nat) (i : Creds.instance) (pre post : list Creds.tag) (first : Creds.tag) :
  py_getitem aws_credentials "access_key_id" = Ret a ->
  py_getitem aws_credentials "secret_access_key" = Ret s ->
  py_getitem aws_credentials "session_token" = Ret t ->
  Creds.Session boto3 a s t = Ret session ->
  Creds.client session "ec2" region = Ret ec2 ->
  Creds.describe_instances ec2 = Ret response ->
  Creds.as_response response = Some rs ->
  concat rs !! k = Some i ->
  Creds.Tags i = Some (pre ++ first :: post) ->
  Forall (fun x => Creds.Key x ≠ "Name") pre ->
  Creds.Key first = "Name" ->
  (exists records,
     fst (Creds.get_ec2_instances boto3 aws_credentials region l) = Ret (records, None)
     ∧ records !! k = Some (PDict [("Name", PStr (Creds.Value first));
                                   ("Instance ID", PStr (Creds.InstanceId i))]))
  ∧ (forall (raw_pre later : list pyval) (raw_first d : pyval),
       Forall2 (fun v x => Creds.as_tag v = Some x) raw_pre pre ->
       Creds.as_tag raw_first = Some first ->
       Creds.name_tag_loop (raw_pre ++ raw_first :: later) d
         = Ret (PStr (Creds.Value first))).
Proof.
  intros Ha Hs Ht Hsession Hclient Hdescribe Hshape Hk Htags Hpre Hfirst.
  split.
  - rewrite (get_ec2_instances_run boto3 region l aws_credentials a s t Ha Hs Ht).
    rewrite Hsession, Hclient, Hdescribe, (listing_typed _ _ Hshape). simpl.
    eexists. split; [reflexivity|].
    rewrite list_lookup_fmap, Hk. simpl.
    unfold Creds.record_of, Creds.name_of, Creds.tags_of. rewrite Htags. simpl.
    rewrite (find_first_name_tag pre post first Hpre Hfirst). reflexivity.
  - intros raw_pre later raw_first d Hraw Hrawfirst.
    eapply name_tag_loop_stops; eauto.
Qed.

Lemma get_ec2_instances_first_name_tag_witness :
  (exists records,
     fst (Creds.get_ec2_instances (Sample.boto3_of (Ret Sample.ec2_response))
            Sample.credentials "us-east-1" [])
       = Ret (records, None)
     ∧ records !! 0%nat = Some (PDict [("Name", PStr "web");
                                       ("Instance ID", PStr "i-01")]))
  ∧ (forall (raw_pre later : list pyval) (raw_first d : pyval),
       Forall2 (fun v x => Creds.as_tag v = Some x) raw_pre
         [{| Creds.Key := "env"; Creds.Value := "prod" |}] ->
       Creds.as_tag raw_first = Some {| Creds.Key := "Name"; Creds.Value := "web" |} ->
       Creds.name_tag_loop (raw_pre ++ raw_first :: later) d = Ret (PStr "web")).
Proof.
  apply (get_ec2_instances_first_name_tag
           (Sample.boto3_of (Ret Sample.ec2_response)) "us-east-1" []
           Sample.credentials (PStr "ASIAEXAMPLE") (PStr "secret") (PStr "token")
           Sample.ec2_response
           (Sample.session_of (Ret Sample.ec2_response))
           {| Creds.describe_instances := Ret Sample.ec2_response |}
           Sample.ec2_reservations
           0%nat
           {| Creds.Tags := Some [{| Creds.Key := "env"; Creds.Value := "prod" |};
                                  {| Creds.Key := "Name"; Creds.Value := "web" |};
                                  {| Creds.Key := "Name"; Creds.Value := "shadow" |}];
              Creds.InstanceId := "i-01" |}
           [{| Creds.Key := "env"; Creds.Value := "prod" |}]
           [{| Creds.Key := "Name"; Creds.Value := "shadow" |}]
           {| Creds.Key := "Name"; Creds.Value := "web" |});
    try reflexivity.
  repeat constructor. simpl. discriminate.
Defined.

(** A tag that is not even a dict, placed after the first "Name" tag,
    changes nothing; placed before it, it makes the whole call fail. *)
Example name_tag_loop_ignores_what_follows :
  Creds.name_tag_loop [Sample.tag_dict "Name" "web"; PInt 7] (PStr "N/A")
    = Ret (PStr "web")
  ∧ exists e, Creds.name_tag_loop [PInt 7; Sample.tag_dict "Name" "web"] (PStr "N/A")
              = Raise e.
Proof. split; [reflexivity | eexists; reflexivity]. Qed.

(** ** From the credential response to the boto3 session *)

Ltac no_session_call :=
  repeat first
    [ apply Forall_nil_2
    | apply Forall_cons_2; [reflexivity|] ].

Lemma get_ec2_instances_log
    (boto3 : Creds.boto3_module) (region : string) (l : Creds.log)
    (aws_credentials a s t : pyval) :
  py_getitem aws_credentials "access_key_id" = Ret a ->
  py_getitem aws_credentials "secret_access_key" = Ret s ->
  py_getitem aws_credentials "session_token" = Ret t ->
  exists rest,
    snd (Creds.get_ec2_instances boto3 aws_credentials region l)
      = l ++ Creds.Call_boto3_Session a s t :: rest
    ∧ Forall (fun ev => Creds.is_session_call ev = false) rest.
Proof.
  intros Ha Hs Ht.
  rewrite (get_ec2_instances_run boto3 region l aws_credentials a s t Ha Hs Ht).
  destruct (Creds.Session boto3 a s t) as [session|e]; simpl.
  2:{ exists []. split; [reflexivity|no_session_call]. }
  destruct (Creds.client session "ec2" region) as [ec2|e]; simpl;
    eexists; (split; [reflexivity|no_session_call]).
Qed.

(** [main] up to the sidebar, when it gets a client and when the
    constructor raises. *)
Lemma main_after_sidebar
    (g : Creds.globals)
    (WorkspaceClient : Creds.workspace_client_call -> outcome Creds.workspace_client)
    (cache : option Creds.workspace_client)
    (wc : Creds.workspace_client) (boto3 : Creds.boto3_module)
    (ui : Creds.sidebar) (l : Creds.log) :
  Creds.client_of g WorkspaceClient cache = Ret wc ->
  Creds.main g WorkspaceClient cache boto3 ui l
    = Creds.after_sidebar wc boto3 ui (l ++ Creds.main_header g cache).
Proof.
  intros Hwc. unfold Creds.main, Creds.main_header.
  do 3 (unfold bind at 1; unfold Creds.emit at 1, modify at 1).
  unfold bind at 1.
  unfold Creds.call_get_workspace_client, Creds.client_of in *.
  destruct cache as [wc'|].
  - injection Hwc as ->. unfold ret at 1.
    unfold bind at 1, Creds.emit at 1, modify at 1.
    repeat (rewrite <- app_assoc; simpl). reflexivity.
  - unfold Creds.external, bind at 1, modify at 1, lift at 1. rewrite Hwc.
    unfold bind at 1, Creds.emit at 1, modify at 1.
    repeat (rewrite <- app_assoc; simpl). reflexivity.
Qed.

Lemma main_constructor_raises
    (g : Creds.globals)
    (WorkspaceClient : Creds.workspace_client_call -> outcome Creds.workspace_client)
    (boto3 : Creds.boto3_module) (ui : Creds.sidebar) (l : Creds.log) (e : exn) :
  WorkspaceClient (Creds.get_workspace_client g) = Raise e ->
  Creds.main g WorkspaceClient None boto3 ui l
    = (Raise e,
       l ++ [Creds.St_set_page_config
               "Databricks UC Credentials - EC2 Instance Viewer" "wide";
             Creds.St_title "Databricks UC Credentials - EC2 Instance Viewer";
             Creds.St_markdown "---";
             Creds.Call_WorkspaceClient (Creds.get_workspace_client g)]).
Proof.
  intros Hraise. unfold Creds.main.
  do 3 (unfold bind at 1; unfold Creds.emit at 1, modify at 1).
  unfold bind at 1. unfold Creds.call_get_workspace_client.
  unfold Creds.external, bind at 1, modify at 1, lift at 1. rewrite Hraise.
  repeat (rewrite <- app_assoc; simpl). reflexivity.
Qed.

Lemma main_log
    (g : Creds.globals)
    (WorkspaceClient : Creds.workspace_client_call -> outcome Creds.workspace_client)
    (cache : option Creds.workspace_client)
    (wc : Creds.workspace_client) (boto3 : Creds.boto3_module) (ui : Creds.sidebar)
    (l : Creds.log) (resp aws a s t : pyval) :
  Creds.client_of g WorkspaceClient cache = Ret wc ->
  Creds.service_credential_name ui ≠ "" ->
  Creds.fetch_instances ui = true ->
  Creds.generate_temporary_service_credential wc (Creds.service_credential_name ui)
    = Ret resp ->
  Creds.has_fields resp aws a s t ->
  exists rest,
    snd (Creds.main g WorkspaceClient cache boto3 ui l)
      = (l ++ Creds.main_header g cache)
        ++ Creds.Call_generate_temporary_service_credential
             (Creds.service_credential_name ui)
           :: Creds.Call_boto3_Session a s t :: rest
    ∧ Forall (fun ev => Creds.is_session_call ev = false) rest.
Proof.
  intros Hwc Hname Hfetch Hgen (Haws & Ha & Hs & Ht).
  rewrite (main_after_sidebar g WorkspaceClient cache wc boto3 ui l Hwc).
  unfold Creds.after_sidebar.
  generalize (l ++ Creds.main_header g cache) as l0. intros l0.
  destruct (String.eqb_spec (Creds.service_credential_name ui) "") as [E|_];
    [contradiction|].
  rewrite Hfetch.
  erewrite bind_ret_run
    by (eapply get_aws_credentials_populated; eauto).
  unfold Creds.called.
  cbn [Creds.error_truthy py_truthy length Nat.eqb negb].
  set (d := PDict [("access_key_id", a); ("secret_access_key", s);
                   ("session_token", t)]).
  set (l1 := l0 ++ [Creds.Call_generate_temporary_service_credential
                     (Creds.service_credential_name ui)]).
  destruct (get_ec2_instances_log boto3 (Creds.selected_region ui) l1 d a s t)
    as (rest & Hlog & Hrest); try reflexivity.
  unfold bind at 1.
  destruct (Creds.get_ec2_instances boto3 d (Creds.selected_region ui) l1)
    as [[[instances ec2_error]|e] l2] eqn:Erun; simpl in Hlog; subst l2 l1.
  - destruct (Creds.error_truthy ec2_error).
    + unfold Creds.emit, modify. simpl. rewrite <- !app_assoc. simpl.
      eexists. split; [reflexivity|].
      apply Forall_app. split; [exact Hrest|no_session_call].
    + destruct instances.
      * unfold Creds.emit, modify. simpl. rewrite <- !app_assoc. simpl.
        eexists. split; [reflexivity|].
        apply Forall_app. split; [exact Hrest|no_session_call].
      * unfold Creds.emit, modify, bind. simpl. rewrite <- !app_assoc. simpl.
        eexists. split; [reflexivity|].
        apply Forall_app. split; [exact Hrest|no_session_call].
  - simpl. rewrite <- app_assoc. simpl. eauto.
Qed.

(** C5. The three credential fields travel unmodified from the response
    of the credential service to the boto3 session: the dictionary that
    [get_aws_credentials] returns makes [get_ec2_instances] call
    [boto3.Session] once, with exactly the [access_key_id],
    [secret_access_key] and [session_token] of the response's
    [aws_temp_credentials]; so does a run of [main] that works with this
    client, whether it finds it cached or has the constructor build it. *)
Theorem credentials_reach_boto3_unmodified
    (wc : Creds.workspace_client) (boto3 : Creds.boto3_module)
    (name region : string) (l l' : Creds.log) (resp aws a s t : pyval) :
  name ≠ "" ->
  Creds.generate_temporary_service_credential wc name = Ret resp ->
  Creds.has_fields resp aws a s t ->
  (exists d,
     fst (Creds.get_aws_credentials wc name l) = Ret (Some d, None)
     ∧ exists rest,
         snd (Creds.get_ec2_instances boto3 d region l')
           = l' ++ Creds.Call_boto3_Session a s t :: rest
         ∧ Forall (fun ev => Creds.is_session_call ev = false) rest)
  ∧ (forall g WorkspaceClient cache,
       Creds.client_of g WorkspaceClient cache = Ret wc ->
       exists rest,
         snd (Creds.main g WorkspaceClient cache boto3
                {| Creds.service_credential_name := name;
                   Creds.selected_region := region;
                   Creds.fetch_instances := true |} l)
           = (l ++ Creds.main_header g cache)
             ++ Creds.Call_generate_temporary_service_credential name
                :: Creds.Call_boto3_Session a s t :: rest
         ∧ Forall (fun ev => Creds.is_session_call ev = false) rest).
Proof.
  intros Hname Hgen Hfields. split.
  - destruct Hfields as (Haws & Ha & Hs & Ht).
    eexists. split.
    + erewrite get_aws_credentials_populated; eauto.
    + apply get_ec2_instances_log; reflexivity.
  - intros g WorkspaceClient cache Hwc.
    apply (main_log g WorkspaceClient cache wc boto3
             {| Creds.service_credential_name := name;
                Creds.selected_region := region;
                Creds.fetch_instances := true |} l resp aws a s t);
      auto.
Qed.

Lemma credentials_reach_boto3_unmodified_witness :
  (exists d,
     fst (Creds.get_aws_credentials (Sample.wc_returning Sample.aws_response)
            "cred" [])
       = Ret (Some d, None)
     ∧ exists rest,
         snd (Creds.get_ec2_instances (Sample.boto3_of (Ret Sample.ec2_response))
                d "us-east-1" [])
           = [] ++ Creds.Call_boto3_Session (PStr "ASIAEXAMPLE") (PStr "secret")
                     (PStr "token") :: rest
         ∧ Forall (fun ev => Creds.is_session_call ev = false) rest)
  ∧ (exists rest,
       snd (Creds.main Sample.deployed
              (Sample.constructing (Sample.wc_returning Sample.aws_response)) None
              (Sample.boto3_of (Ret Sample.ec2_response))
              {| Creds.service_credential_name := "cred";
                 Creds.selected_region := "us-east-1";
                 Creds.fetch_instances := true |} [])
         = ([] ++ Creds.main_header Sample.deployed None)
           ++ Creds.Call_generate_temporary_service_credential "cred"
              :: Creds.Call_boto3_Session (PStr "ASIAEXAMPLE") (PStr "secret")
                   (PStr "token") :: rest
       ∧ Forall (fun ev => Creds.is_session_call ev = false) rest).
Proof.
  destruct (credentials_reach_boto3_unmodified
              (Sample.wc_returning Sample.aws_response)
              (Sample.boto3_of (Ret Sample.ec2_response))
              "cred" "us-east-1" [] []
              Sample.aws_response
              (PObject "AwsCredentials"
                 [("access_key_id", PStr "ASIAEXAMPLE");
                  ("secret_access_key", PStr "secret");
                  ("session_token", PStr "token")])
              (PStr "ASIAEXAMPLE") (PStr "secret") (PStr "token")
              ltac:(discriminate) eq_refl
              (conj eq_refl (conj eq_refl (conj eq_refl eq_refl))))
    as [Hcalls Hmain].
  split; [exact Hcalls|].
  apply (Hmain Sample.deployed
           (Sample.constructing (Sample.wc_returning Sample.aws_response)) None
           eq_refl).
Defined.

Example main_sample :
  snd (Creds.main Sample.deployed
         (Sample.constructing (Sample.wc_returning Sample.aws_response)) None
         (Sample.boto3_of (Ret Sample.ec2_response))
         {| Creds.service_credential_name := "cred";
            Creds.selected_region := "us-east-1";
            Creds.fetch_instances := true |} [])
  = [Creds.St_set_page_config
       "Databricks UC Credentials - EC2 Instance Viewer" "wide";
     Creds.St_title "Databricks UC Credentials - EC2 Instance Viewer";
     Creds.St_markdown "---";
     Creds.Call_WorkspaceClient Creds.WorkspaceClient_no_args;
     Creds.St_header "Configuration";
     Creds.Call_generate_temporary_service_credential "cred";
     Creds.Call_boto3_Session (PStr "ASIAEXAMPLE") (PStr "secret") (PStr "token");
     Creds.Call_session_client "ec2" "us-east-1";
     Creds.Call_describe_instances;
     Creds.St_write "**Found 3 EC2 instance(s) in us-east-1:**";
     Creds.St_dataframe
       [PDict [("Name", PStr "web"); ("Instance ID", PStr "i-01")];
        PDict [("Name", PStr "N/A"); ("Instance ID", PStr "i-02")];
        PDict [("Name", PStr "N/A"); ("Instance ID", PStr "i-03")]]].
Proof. vm_compute. reflexivity. Qed.

(** ** startup.py: the fallback chain and the two handlers *)

Lemma extract_content_spec (r : pyval) (fs : Startup.files) :
  Startup.extract_content r fs
    = (Startup.content_from (Startup.first_usable r) r, fs).
Proof.
  unfold Startup.extract_content, Startup.first_usable, Startup.has_contents,
    Startup.content_from.
  run.
  destruct r; simpl; try reflexivity.
  - destruct (0 <=? z)%Z; reflexivity.
  - destruct (bytes_of_items l); reflexivity.
  - destruct (bytes_of_items _); reflexivity.
  - destruct (assoc "contents" attrs) as [c|]; simpl.
    + destruct c; simpl; try reflexivity.
      * destruct (assoc "content" attrs); simpl; [reflexivity|].
        destruct (assoc "body" attrs); simpl; [reflexivity|].
        destruct (assoc "read" attrs) as [f|]; simpl.
        { destruct (py_call f); reflexivity. }
        destruct (assoc "__bytes__" attrs) as [f|]; simpl; [|reflexivity].
        destruct (py_call f) as [[]|]; reflexivity.
      * destruct (assoc "read" attrs0) as [f|]; simpl; [|reflexivity].
        destruct (py_call f) as [data|]; simpl; [|reflexivity].
        destruct (py_len data); reflexivity.
    + destruct (assoc "content" attrs); simpl; [reflexivity|].
      destruct (assoc "body" attrs); simpl; [reflexivity|].
      destruct (assoc "read" attrs) as [f|]; simpl.
      { destruct (py_call f); reflexivity. }
      destruct (assoc "__bytes__" attrs) as [f|]; simpl; [|reflexivity].
      destruct (py_call f) as [[]|]; reflexivity.
Qed.

Lemma bytes_like_len (content : pyval) (b : list byte) :
  bytes_like content = Some b -> py_len content = Ret (Z.of_nat (length b)).
Proof. destruct content; simpl; intros [= <-]; reflexivity. Qed.

Lemma bytes_like_length_or_zero (content : pyval) (b : list byte) :
  bytes_like content = Some b ->
  exists n, Startup.length_or_zero content = Ret n.
Proof.
  intros H. unfold Startup.length_or_zero.
  destruct (py_truthy content); [|eauto].
  rewrite (bytes_like_len content b H). eauto.
Qed.

(** What saving does, by the disk and the kind of content. *)
Lemma save_content_run (d : Startup.disk) (content : pyval) (fs : Startup.files) :
  Startup.save_content d content fs =
    match Startup.length_or_zero content with
    | Raise e => (Raise e, fs)
    | Ret _ =>
        match d with
        | Startup.Open_fails e => (Raise e, fs)
        | Startup.Write_fails written e =>
            match bytes_like content with
            | Some b => (Raise e, <[Startup.LOCAL_FILE_PATH := take written b]> fs)
            | None =>
                (Raise (type_error ("a bytes-like object is required, not " +:+
                                    quote (type_name content))),
                 <[Startup.LOCAL_FILE_PATH := []]> fs)
            end
        | Startup.Disk_ok =>
            match bytes_like content with
            | Some b => (Ret true, <[Startup.LOCAL_FILE_PATH := b]> fs)
            | None =>
                (Raise (type_error ("a bytes-like object is required, not " +:+
                                    quote (type_name content))),
                 <[Startup.LOCAL_FILE_PATH := []]> fs)
            end
        end
    end.
Proof.
  unfold Startup.save_content, Startup.write_binary. run.
  destruct (Startup.length_or_zero content) as [n|e]; [|reflexivity].
  destruct d as [|e|written e]; [|reflexivity|];
    destruct (bytes_like content) as [b|] eqn:Hb; simpl; try reflexivity.
  - rewrite (bytes_like_len content b Hb), insert_insert_eq. reflexivity.
  - rewrite insert_insert_eq. reflexivity.
Qed.

Lemma save_content_bytes (content : pyval) (b : list byte) (fs : Startup.files) :
  bytes_like content = Some b ->
  Startup.save_content Startup.Disk_ok content fs
    = (Ret true, <[Startup.LOCAL_FILE_PATH := b]> fs).
Proof.
  intros Hb. rewrite save_content_run, Hb.
  destruct (bytes_like_length_or_zero content b Hb) as [n ->]. reflexivity.
Qed.

Lemma dispatch_download (env : Startup.environment) (e : exn) (fs : Startup.files) :
  dispatch [(except_ImportError, fun _ => Startup.dbutils_fallback env);
            (except_Exception, fun _ => ret false)] e fs
    = Startup.on_exception env e fs.
Proof.
  unfold Startup.on_exception. simpl.
  destruct (except_ImportError e); [reflexivity|].
  destruct (except_Exception e); reflexivity.
Qed.

Lemma download_file_from_volume_run (env : Startup.environment) (fs : Startup.files) :
  Startup.download_file_from_volume env fs =
    match Startup.import_WorkspaceClient env with
    | Raise e => Startup.on_exception env e fs
    | Ret _ =>
        match Startup.WorkspaceClient env with
        | Raise e => Startup.on_exception env e fs
        | Ret w =>
            match Startup.download w Startup.get_volume_path with
            | Raise e => Startup.on_exception env e fs
            | Ret r =>
                match Startup.content_from (Startup.first_usable r) r with
                | Raise e => Startup.on_exception env e fs
                | Ret None => (Ret false, fs)
                | Ret (Some content) =>
                    match Startup.save_content (Startup.local_disk env) content fs with
                    | (Raise e, fs') => Startup.on_exception env e fs'
                    | saved => saved
                    end
                end
            end
        end
    end.
Proof.
  unfold Startup.download_file_from_volume, try_except.
  unfold bind at 1. unfold lift at 1.
  destruct (Startup.import_WorkspaceClient env) as [[]|e];
    [|apply dispatch_download].
  unfold bind at 1. unfold lift at 1.
  destruct (Startup.WorkspaceClient env) as [w|e]; [|apply dispatch_download].
  unfold bind at 1. unfold lift at 1.
  destruct (Startup.download w Startup.get_volume_path) as [r|e];
    [|apply dispatch_download].
  unfold bind at 1. rewrite extract_content_spec.
  destruct (Startup.content_from (Startup.first_usable r) r) as [[content|]|e];
    [| reflexivity | apply dispatch_download].
  destruct (Startup.save_content (Startup.local_disk env) content fs)
    as [[b|e] fs']; [reflexivity | apply dispatch_download].
Qed.

Lemma dbutils_fallback_undefined (env : Startup.environment) (fs : Startup.files) :
  Startup.dbutils_fs_cp env = None ->
  Startup.dbutils_fallback env fs = (Ret false, fs).
Proof.
  intros H. unfold Startup.dbutils_fallback. rewrite H. reflexivity.
Qed.

Lemma first_usable_first_present (r : pyval) :
  py_getattr r "contents" ≠ Ret PNone ->
  Startup.first_usable r = Startup.first_present r.
Proof.
  intros H. unfold Startup.first_usable, Startup.first_present.
  destruct (py_getattr r "contents") as [c|e] eqn:E.
  - assert (Hhas : py_hasattr r "contents" = true)
      by (apply py_hasattr_getattr; eauto).
    rewrite Hhas. destruct c; try reflexivity. contradiction.
  - destruct (py_hasattr r "contents") eqn:Hhas; [|reflexivity].
    apply py_hasattr_getattr in Hhas as [c Hc]. congruence.
Qed.

(** C3, as stated, fails: with [contents] present and [None], the first
    present attribute is [contents], yet the bytes come from [content]
    and are saved. *)
Lemma extraction_skips_contents_that_is_None :
  Startup.first_present Sample.download_response_without_stream
    = Startup.From_contents
  ∧ Startup.extract_content Sample.download_response_without_stream ∅
    = (Ret (Some (PBytes [x7b; x7d])), ∅)
  ∧ Startup.extract_content Sample.download_response_without_stream ∅
    ≠ (Startup.content_from
         (Startup.first_present Sample.download_response_without_stream)
         Sample.download_response_without_stream, ∅)
  ∧ Startup.download_file_from_volume
      (Sample.sdk_returning (Ret Sample.download_response_without_stream)) ∅
    = (Ret true, {[ "big.json" := [x7b; x7d] ]}).
Proof.
  split; [reflexivity|]. split; [reflexivity|]. split; [discriminate|].
  rewrite download_file_from_volume_run. cbn -[Startup.save_content].
  rewrite (save_content_bytes _ [x7b; x7d]) by reflexivity. reflexivity.
Qed.

(** C3, amended. The byte extraction takes the first source in the fixed
    order [contents], [content], [body], [read], then a [bytes()]
    conversion, where [contents] counts only when it is present and not
    [None] and the other three count when present; unless [contents] is
    present and [None] this is the first present attribute.  When none
    matches and the conversion fails, and when [contents] is chosen but
    its value has no [read], the function returns [False] and leaves the
    local files as they were. *)
Theorem extraction_follows_priority
    (env : Startup.environment) (fs : Startup.files)
    (w : Startup.files_api) (r : pyval) :
  Startup.import_WorkspaceClient env = Ret tt ->
  Startup.WorkspaceClient env = Ret w ->
  Startup.download w Startup.get_volume_path = Ret r ->
  Startup.extract_content r fs
    = (Startup.content_from (Startup.first_usable r) r, fs)
  ∧ (py_getattr r "contents" ≠ Ret PNone ->
     Startup.first_usable r = Startup.first_present r)
  ∧ (forall e, Startup.first_usable r = Startup.From_bytes ->
       py_bytes r = Raise e ->
       Startup.download_file_from_volume env fs = (Ret false, fs))
  ∧ (forall stream, py_getattr r "contents" = Ret stream ->
       stream ≠ PNone ->
       py_hasattr stream "read" = false ->
       Startup.download_file_from_volume env fs = (Ret false, fs)).
Proof.
  intros Himport Hclient Hdownload.
  split; [apply extract_content_spec|].
  split; [apply first_usable_first_present|].
  split.
  - intros e Hsrc Hbytes.
    rewrite download_file_from_volume_run, Himport, Hclient, Hdownload, Hsrc.
    simpl. rewrite Hbytes. reflexivity.
  - intros stream Hstream Hnot Hnoread.
    rewrite download_file_from_volume_run, Himport, Hclient, Hdownload.
    unfold Startup.first_usable. rewrite Hstream.
    assert (Hraise : py_getattr stream "read" = Raise (no_attribute stream "read"))
      by (apply py_hasattr_false; exact Hnoread).
    destruct stream; try contradiction;
      cbn [Startup.content_from]; rewrite Hstream;
      cbn [mbind outcome_bind]; rewrite Hraise; reflexivity.
Qed.

Lemma extraction_follows_priority_witness :
  Startup.extract_content Sample.opaque_response ∅
    = (Startup.content_from (Startup.first_usable Sample.opaque_response)
         Sample.opaque_response, ∅)
  ∧ Startup.download_file_from_volume
      (Sample.sdk_returning (Ret Sample.opaque_response)) ∅ = (Ret false, ∅).
Proof.
  pose proof (extraction_follows_priority
                (Sample.sdk_returning (Ret Sample.opaque_response)) ∅
                {| Startup.download := fun _ => Ret Sample.opaque_response |}
                Sample.opaque_response eq_refl eq_refl eq_refl)
    as (Hchain & _ & Hclean & _).
  split; [exact Hchain|].
  apply (Hclean (cannot_convert Sample.opaque_response)); reflexivity.
Defined.

Example download_from_stream :
  Startup.download_file_from_volume
    (Sample.sdk_returning (Ret Sample.stream_response)) ∅
  = (Ret true, {[ "big.json" := [x7b; x7d] ]}).
Proof.
  rewrite download_file_from_volume_run. cbn -[Startup.save_content].
  rewrite (save_content_bytes _ [x7b; x7d]) by reflexivity. reflexivity.
Qed.

(** ** The catch-all clauses *)

Lemma ImportError_is_Exception (e : exn) :
  except_ImportError e = true -> except_Exception e = true.
Proof.
  unfold except_ImportError, except_Exception, Exn.isinstance.
  generalize (Exn.class e) as c.
  induction c; simpl; try discriminate; try reflexivity.
  unfold Exn.issubclass in *. simpl in *.
  intros H. apply IHc. exact H.
Qed.

(** A [try] whose [except Exception] clause returns lets no [Exception]
    out. *)
Lemma except_Exception_safe {S A} (body : M S A) (h : exn -> M S A) (s : S) :
  (forall e s', match fst (h e s') with Ret _ => True | Raise _ => False end) ->
  match fst (try_except body [(except_Exception, h)] s) with
  | Ret _ => True
  | Raise e => except_Exception e = false
  end.
Proof.
  intros Hh. unfold try_except. destruct (body s) as [[a|e] s']; simpl; [exact I|].
  destruct (except_Exception e) eqn:E; simpl; [|exact E].
  specialize (Hh e s'). destruct (fst (h e s')); [exact I|contradiction].
Qed.

Lemma dbutils_fallback_safe (env : Startup.environment) (fs : Startup.files) :
  match fst (Startup.dbutils_fallback env fs) with
  | Ret _ => True
  | Raise e => except_Exception e = false
  end.
Proof. apply except_Exception_safe. intros e s'. exact I. Qed.

Lemma download_file_from_volume_safe (env : Startup.environment) (fs : Startup.files) :
  match fst (Startup.download_file_from_volume env fs) with
  | Ret _ => True
  | Raise e => except_Exception e = false
  end.
Proof.
  unfold Startup.download_file_from_volume, try_except.
  match goal with |- context [match ?b fs with _ => _ end] => destruct (b fs) as [[a|e] fs'] end;
    simpl; [exact I|].
  destruct (except_ImportError e) eqn:Ei; [apply dbutils_fallback_safe|].
  destruct (except_Exception e) eqn:Ee; simpl; [exact I|exact Ee].
Qed.




(** [ImportError] takes the other clause: with a [dbutils] whose copy
    succeeds, the function returns [True]. *)
Example import_error_with_dbutils :
  Startup.download_file_from_volume
    {| Startup.import_WorkspaceClient :=
         Raise (Exn.mk Exn.ModuleNotFoundError "No module named 'databricks'");
       Startup.WorkspaceClient := Raise Sample.throttled;
       Startup.dbutils_fs_cp := Some (fun _ _ => ret tt);
       Startup.local_disk := Startup.Disk_ok |} ∅
  = (Ret true, ∅).
Proof. reflexivity. Qed.

(** ** app.py: the viewer *)

Section ViewerPages.

Variable json_loads : string -> outcome pyval.
Variable format_megabytes : Z -> string.

Lemma extends_ret {A} (a : A) : Viewer.extends (ret a).
Proof. intros p. exists []. simpl. rewrite app_nil_r. reflexivity. Qed.

Lemma extends_raise {A} (e : exn) : Viewer.extends (@raise _ A e).
Proof. intros p. exists []. simpl. rewrite app_nil_r. reflexivity. Qed.

Lemma extends_lift {A} (o : outcome A) : Viewer.extends (lift o).
Proof. intros p. exists []. simpl. rewrite app_nil_r. reflexivity. Qed.

Lemma extends_emit (ev : Viewer.event) : Viewer.extends (Viewer.emit ev).
Proof. intros p. exists [ev]. reflexivity. Qed.

Lemma extends_bind {A B} (c : M Viewer.page A) (k : A -> M Viewer.page B) :
  Viewer.extends c -> (forall a, Viewer.extends (k a)) -> Viewer.extends (bind c k).
Proof.
  intros Hc Hk p. unfold bind.
  destruct (Hc p) as [r1 H1]. destruct (c p) as [[a|e] p1]; simpl in H1; subst p1.
  - destruct (Hk a (p ++ r1)) as [r2 H2]. exists (r1 ++ r2).
    rewrite H2, app_assoc. reflexivity.
  - exists r1. reflexivity.
Qed.

Lemma extends_try_except {A} (body : M Viewer.page A) clauses :
  Viewer.extends body ->
  Forall (fun cl => forall e, Viewer.extends (snd cl e)) clauses ->
  Viewer.extends (try_except body clauses).
Proof.
  intros Hb Hcl p. unfold try_except.
  destruct (Hb p) as [r1 H1]. destruct (body p) as [[a|e] p1]; simpl in H1; subst p1.
  - exists r1. reflexivity.
  - induction Hcl as [|[c h] cls Hh _ IH]; simpl.
    + exists r1. reflexivity.
    + destruct (c e); [|exact IH].
      destruct (Hh e (p ++ r1)) as [r2 H2]. exists (r1 ++ r2).
      simpl in H2. rewrite H2, app_assoc. reflexivity.
Qed.

Create HintDb page_steps.
#[local] Hint Resolve extends_ret extends_raise extends_lift extends_emit : page_steps.

Ltac page_steps :=
  repeat first
    [ apply extends_bind; [|intros ?]
    | apply extends_try_except; [|repeat constructor; intros ?]
    | solve [auto with page_steps] ].

Lemma extends_data_analysis (v : pyval) : Viewer.extends (Viewer.data_analysis v).
Proof.
  destruct v; simpl; page_steps. destruct l; page_steps.
Qed.

Lemma extends_show_sample (sample : string) :
  Viewer.extends (Viewer.show_sample json_loads sample).
Proof.
  unfold Viewer.show_sample. page_steps; simpl; page_steps.
  apply extends_data_analysis.
Qed.

(** The preview, once the file has been looked up. *)
Lemma preview_unfold (fs : Viewer.files) (p : Viewer.page) :
  Viewer.preview json_loads fs p =
    let p2 := p ++ [Viewer.St_subheader "Reading JSON file...";
                    Viewer.Read_text Viewer.local_json_file Viewer.sample_size] in
    match fs !! Viewer.local_json_file with
    | Some f =>
        match Viewer.content f with
        | Viewer.Text s =>
            try_except
              (Viewer.emit (Viewer.St_success
                              "Successfully read sample content from JSON file") ;;;
               Viewer.show_sample json_loads (substring 0 Viewer.sample_size s))
              Viewer.reading_failed p2
        | Viewer.Unreadable _ e => dispatch Viewer.reading_failed e p2
        end
    | None => dispatch Viewer.reading_failed (Viewer.file_not_found Viewer.local_json_file) p2
    end.
Proof.
  unfold Viewer.preview, Viewer.read_text, try_except, bind, Viewer.emit, modify,
    raise, ret.
  cbv zeta.
  destruct (fs !! Viewer.local_json_file) as [f|];
    [destruct (Viewer.content f)|];
    rewrite <- !app_assoc; reflexivity.
Qed.

Lemma extends_reading_failed (e : exn) : Viewer.extends (dispatch Viewer.reading_failed e).
Proof.
  intros p. simpl. destruct (except_Exception e).
  - apply extends_emit.
  - apply extends_raise.
Qed.

Lemma preview_page (fs : Viewer.files) (p : Viewer.page) :
  exists rest,
    snd (Viewer.preview json_loads fs p)
      = p ++ Viewer.St_subheader "Reading JSON file..."
          :: Viewer.Read_text Viewer.local_json_file Viewer.sample_size :: rest.
Proof.
  rewrite preview_unfold. cbv zeta.
  set (p2 := p ++ [_; _]).
  assert (Hp2 : forall rest,
    p2 ++ rest = p ++ Viewer.St_subheader "Reading JSON file..."
                   :: Viewer.Read_text Viewer.local_json_file Viewer.sample_size
                   :: rest).
  { intros rest. subst p2. rewrite <- app_assoc. reflexivity. }
  assert (Hext : forall c : M Viewer.page unit, Viewer.extends c ->
            exists rest, snd (c p2)
              = p ++ Viewer.St_subheader "Reading JSON file..."
                  :: Viewer.Read_text Viewer.local_json_file Viewer.sample_size
                  :: rest).
  { intros c Hc. destruct (Hc p2) as [rest Hr]. exists rest.
    rewrite Hr. apply Hp2. }
  destruct (fs !! Viewer.local_json_file) as [f|]; [destruct (Viewer.content f)|].
  - apply Hext. apply extends_try_except.
    + apply extends_bind; [apply extends_emit|].
      intros _. apply extends_show_sample.
    + repeat constructor. intros e. apply extends_emit.
  - apply Hext. apply extends_reading_failed.
  - apply Hext. apply extends_reading_failed.
Qed.

End ViewerPages.

Lemma os_path_exists_spec (fs : Viewer.files) (path : string) :
  Viewer.os_path_exists fs path = true <-> is_Some (fs !! path).
Proof. unfold Viewer.os_path_exists. apply bool_decide_eq_true. Qed.

Lemma extends_download_status (fs : Viewer.files) :
  Viewer.extends (Viewer.download_status fs).
Proof.
  unfold Viewer.download_status.
  apply extends_bind; [apply extends_emit|]. intros _.
  destruct (Viewer.os_path_exists fs Viewer.local_json_file);
    (apply extends_bind; [apply extends_emit|]; intros _; apply extends_emit).
Qed.

(** The page when the file is there: the five opening widgets, then the
    preview, which starts by reading the file. *)
Lemma app_page_present (json_loads : string -> outcome pyval)
    (format_megabytes : Z -> string) (fs : Viewer.files) (f : Viewer.file) :
  fs !! Viewer.local_json_file = Some f ->
  exists rest,
    snd (Viewer.app json_loads format_megabytes fs [])
      = [Viewer.St_set_page_config "wide";
         Viewer.St_header "Big JSON File Reader";
         Viewer.St_info "Reading sample data from downloaded big.json file";
         Viewer.St_success "Found local file: big.json";
         Viewer.St_info ("File size: " +:+ format_megabytes (Viewer.st_size f)
                         +:+ " MB");
         Viewer.St_subheader "Reading JSON file...";
         Viewer.Read_text Viewer.local_json_file Viewer.sample_size] ++ rest.
Proof.
  intros Hf.
  assert (Hex : Viewer.os_path_exists fs Viewer.local_json_file = true)
    by (apply os_path_exists_spec; eauto).
  unfold Viewer.app. rewrite Hex. unfold Viewer.os_path_getsize. rewrite Hf.
  unfold bind, Viewer.emit, modify, lift. simpl app.
  match goal with
  | |- context [Viewer.preview json_loads fs ?p0] =>
      destruct (preview_page json_loads fs p0) as [rest Hrest];
      destruct (Viewer.preview json_loads fs p0) as [[[]|e] p1]
  end; simpl in Hrest; subst p1.
  - match goal with
    | |- context [Viewer.download_status fs ?p1] =>
        destruct (extends_download_status fs p1) as [rest' Hrest']
    end.
    rewrite Hrest'. exists (rest ++ rest'). simpl. reflexivity.
  - exists rest. reflexivity.
Qed.

Lemma app_page_absent (json_loads : string -> outcome pyval)
    (format_megabytes : Z -> string) (fs : Viewer.files) :
  fs !! Viewer.local_json_file = None ->
  Viewer.app json_loads format_megabytes fs []
    = (Ret tt,
       [Viewer.St_set_page_config "wide";
        Viewer.St_header "Big JSON File Reader";
        Viewer.St_info "Reading sample data from downloaded big.json file";
        Viewer.St_error "Local file not found: big.json";
        Viewer.St_info
          "Make sure the startup script successfully downloaded the file from Volume";
        Viewer.St_subheader "File Download Status";
        Viewer.St_error "File download failed or file not found";
        Viewer.St_info "Check the startup logs for download errors"]).
Proof.
  intros Hf. unfold Viewer.app, Viewer.download_status, Viewer.os_path_exists.
  rewrite Hf. reflexivity.
Qed.

(** C7. The viewer opens and reads [big.json] only when the existence
    check reports it present, and then it does; when the check reports it
    absent the page shows the not-found error and nothing is read.  The
    check reports the file present exactly when the local files hold it. *)
Theorem viewer_reads_only_when_present (json_loads : string -> outcome pyval)
    (format_megabytes : Z -> string) (fs : Viewer.files) :
  (Viewer.os_path_exists fs Viewer.local_json_file = true
     <-> is_Some (fs !! "big.json"))
  ∧ (forall path size,
       Viewer.Read_text path size ∈ snd (Viewer.app json_loads format_megabytes fs [])
       -> Viewer.os_path_exists fs Viewer.local_json_file = true)
  ∧ (Viewer.os_path_exists fs Viewer.local_json_file = true ->
       Viewer.Read_text "big.json" Viewer.sample_size
         ∈ snd (Viewer.app json_loads format_megabytes fs []))
  ∧ (Viewer.os_path_exists fs Viewer.local_json_file = false ->
       Viewer.St_error "Local file not found: big.json"
         ∈ snd (Viewer.app json_loads format_megabytes fs [])
       ∧ Forall (fun ev => Viewer.is_read ev = false)
           (snd (Viewer.app json_loads format_megabytes fs []))).
Proof.
  assert (Habsent : Viewer.os_path_exists fs Viewer.local_json_file = false ->
                    fs !! Viewer.local_json_file = None).
  { intros H. destruct (fs !! Viewer.local_json_file) eqn:E; [|reflexivity].
    assert (Viewer.os_path_exists fs Viewer.local_json_file = true)
      by (apply os_path_exists_spec; rewrite E; eauto).
    congruence. }
  split; [apply os_path_exists_spec|]. split; [|split].
  - intros path size Hin.
    destruct (Viewer.os_path_exists fs Viewer.local_json_file) eqn:E;
      [reflexivity|].
    rewrite (app_page_absent json_loads format_megabytes fs (Habsent eq_refl)) in Hin.
    simpl in Hin.
    repeat (apply elem_of_cons in Hin as [Hin|Hin]; [discriminate|]).
    apply elem_of_nil in Hin. contradiction.
  - intros H. apply os_path_exists_spec in H as [f Hf].
    destruct (app_page_present json_loads format_megabytes fs f Hf) as [rest ->].
    apply elem_of_app. left. repeat constructor.
  - intros H.
    rewrite (app_page_absent json_loads format_megabytes fs (Habsent H)). simpl.
    split; repeat constructor.
Qed.

Lemma viewer_reads_only_when_present_witness :
  Viewer.St_error "Local file not found: big.json"
    ∈ snd (Viewer.app Sample.json_rejecting Sample.format_bytes ∅ [])
  ∧ Viewer.Read_text "big.json" Viewer.sample_size
    ∈ snd (Viewer.app Sample.json_rejecting Sample.format_bytes
             (Sample.disk_with 2 "{}") []).
Proof.
  split.
  - apply (viewer_reads_only_when_present Sample.json_rejecting Sample.format_bytes ∅).
    reflexivity.
  - apply (viewer_reads_only_when_present Sample.json_rejecting Sample.format_bytes
             (Sample.disk_with 2 "{}")).
    reflexivity.
Defined.

(** ** The preview sees the first 10240 characters only *)

Lemma length_substring_0 (n : nat) (s : string) :
  n <= String.length s -> String.length (substring 0 n s) = n.
Proof.
  revert s. induction n as [|n IH]; intros s Hn.
  - destruct s; reflexivity.
  - destruct s as [|c s]; simpl in *; [lia|].
    rewrite IH by lia. reflexivity.
Qed.

Lemma length_append (s1 s2 : string) :
  String.length (s1 +:+ s2) = String.length s1 + String.length s2.
Proof. induction s1 as [|c s1 IH]; simpl; [reflexivity|]. rewrite IH. reflexivity. Qed.

Lemma raw_display_short (sample : string) :
  String.length sample <= 1000 -> Viewer.raw_display sample = sample.
Proof.
  intros H. unfold Viewer.raw_display.
  destruct (Nat.ltb_spec 1000 (String.length sample)); [lia|reflexivity].
Qed.

Lemma raw_display_long (sample : string) :
  1000 < String.length sample ->
  Viewer.raw_display sample = substring 0 1000 sample +:+ "..."
  ∧ String.length (Viewer.raw_display sample) = 1003.
Proof.
  intros H. unfold Viewer.raw_display.
  destruct (Nat.ltb_spec 1000 (String.length sample)); [|lia].
  split; [reflexivity|].
  rewrite length_append, length_substring_0 by lia. reflexivity.
Qed.

Lemma preview_of_text (json_loads : string -> outcome pyval)
    (fs : Viewer.files) (f : Viewer.file) (text : string) (p : Viewer.page) :
  fs !! Viewer.local_json_file = Some f ->
  Viewer.content f = Viewer.Text text ->
  Viewer.preview json_loads fs p =
    try_except
      (Viewer.emit (Viewer.St_success
                      "Successfully read sample content from JSON file") ;;;
       Viewer.show_sample json_loads (substring 0 Viewer.sample_size text))
      Viewer.reading_failed
      (p ++ [Viewer.St_subheader "Reading JSON file...";
             Viewer.Read_text Viewer.local_json_file Viewer.sample_size]).
Proof.
  intros Hf Ht. rewrite preview_unfold. cbv zeta. rewrite Hf, Ht. reflexivity.
Qed.




Example preview_of_a_small_object :
  snd (Viewer.app Sample.json_empty_object Sample.format_bytes
         (Sample.disk_with 2 "{}") [])
  = [Viewer.St_set_page_config "wide";
     Viewer.St_header "Big JSON File Reader";
     Viewer.St_info "Reading sample data from downloaded big.json file";
     Viewer.St_success "Found local file: big.json";
     Viewer.St_info "File size: 2 MB";
     Viewer.St_subheader "Reading JSON file...";
     Viewer.Read_text "big.json" Viewer.sample_size;
     Viewer.St_success "Successfully read sample content from JSON file";
     Viewer.St_success "Successfully parsed JSON sample";
     Viewer.St_subheader "Sample Data Structure";
     Viewer.St_json (PDict []);
     Viewer.St_subheader "Data Analysis";
     Viewer.St_write [PStr "**Type:** Dictionary with 0 keys"];
     Viewer.St_write [PStr "**Keys:**"; PList []];
     Viewer.St_subheader "File Download Status";
     Viewer.St_success "File was successfully downloaded from Volume";
     Viewer.St_info
       "This proves the Volume access and file download workflow is working!"].
Proof. vm_compute. reflexivity. Qed.

(** * Further properties of the scripts *)

(** ** get_ec2_instances: its result and its calls *)

Lemma py_getitem_raises_Exception (v : pyval) (key : string) (e : exn) :
  py_getitem v key = Raise e -> except_Exception e = true.
Proof.
  destruct v; simpl; try (intros [= <-]; reflexivity).
  destruct (assoc key items); [discriminate|].
  intros [= <-]. reflexivity.
Qed.

Lemma ec2_handled_Exception (e : exn) :
  except_Exception e = true ->
  Creds.ec2_handled e
    = Ret ([], Some ("Error getting EC2 instances: " +:+ Exn.str e)).
Proof. intros H. unfold Creds.ec2_handled. rewrite H. reflexivity. Qed.

(** The run when one of the three keys cannot be read: the first failing
    lookup ends the [try] block before any SDK call. *)
Lemma get_ec2_instances_key_missing
    (boto3 : Creds.boto3_module) (region : string) (l : Creds.log)
    (aws_credentials : pyval) :
  (exists field e, field ∈ Creds.credential_fields ∧
                   py_getitem aws_credentials field = Raise e) ->
  exists e,
    except_Exception e = true ∧
    Creds.get_ec2_instances boto3 aws_credentials region l
      = (Ret ([], Some ("Error getting EC2 instances: " +:+ Exn.str e)), l).
Proof.
  intros (field & e0 & Hfield & He0).
  unfold Creds.get_ec2_instances, Creds.external. run.
  destruct (py_getitem aws_credentials "access_key_id") as [a|e] eqn:Ea; simpl.
  2:{ exists e. rewrite (py_getitem_raises_Exception _ _ _ Ea). auto. }
  destruct (py_getitem aws_credentials "secret_access_key") as [s|e] eqn:Es; simpl.
  2:{ exists e. rewrite (py_getitem_raises_Exception _ _ _ Es). auto. }
  destruct (py_getitem aws_credentials "session_token") as [t|e] eqn:Et; simpl.
  2:{ exists e. rewrite (py_getitem_raises_Exception _ _ _ Et). auto. }
  exfalso. unfold Creds.credential_fields in Hfield.
  repeat (apply elem_of_cons in Hfield as [->|Hfield]; [congruence|]).
  apply elem_of_nil in Hfield. exact Hfield.
Qed.

Lemma credential_keys_dec (aws_credentials : pyval) :
  (exists a s t,
     py_getitem aws_credentials "access_key_id" = Ret a ∧
     py_getitem aws_credentials "secret_access_key" = Ret s ∧
     py_getitem aws_credentials "session_token" = Ret t)
  ∨ (exists field e, field ∈ Creds.credential_fields ∧
                     py_getitem aws_credentials field = Raise e).
Proof.
  destruct (py_getitem aws_credentials "access_key_id") as [a|e] eqn:Ea.
  2:{ right. exists "access_key_id", e. split; [repeat constructor|exact Ea]. }
  destruct (py_getitem aws_credentials "secret_access_key") as [s|e] eqn:Es.
  2:{ right. exists "secret_access_key", e. split; [repeat constructor|exact Es]. }
  destruct (py_getitem aws_credentials "session_token") as [t|e] eqn:Et.
  2:{ right. exists "session_token", e. split; [repeat constructor|exact Et]. }
  left. eauto 10.
Qed.

(** X1. Whatever the credentials and whatever the SDK calls do,
    [get_ec2_instances] returns either a list with no error, or the empty
    list with a non-empty error string; it never returns records together
    with an error, and the only exceptions that leave it are not
    instances of [Exception]. *)
Theorem get_ec2_instances_list_or_error
    (boto3 : Creds.boto3_module) (aws_credentials : pyval) (region : string)
    (l : Creds.log) :
  match fst (Creds.get_ec2_instances boto3 aws_credentials region l) with
  | Ret (_, None) => True
  | Ret ([], Some msg) => msg ≠ ""
  | Ret (_ :: _, Some _) => False
  | Raise e => except_Exception e = false
  end.
Proof.
  assert (Hhandled : forall e,
    match Creds.ec2_handled e with
    | Ret (_, None) => True
    | Ret ([], Some msg) => msg ≠ ""
    | Ret (_ :: _, Some _) => False
    | Raise e => except_Exception e = false
    end).
  { intros e. unfold Creds.ec2_handled.
    destruct (except_Exception e) eqn:E; [discriminate|exact E]. }
  destruct (credential_keys_dec aws_credentials)
    as [(a & s & t & Ha & Hs & Ht)|Hmissing].
  - rewrite (get_ec2_instances_run boto3 region l aws_credentials a s t Ha Hs Ht).
    destruct (Creds.Session boto3 a s t) as [session|e]; simpl; [|apply Hhandled].
    destruct (Creds.client session "ec2" region) as [ec2|e]; simpl;
      [|apply Hhandled].
    destruct (Creds.describe_instances ec2) as [response|e]; [|apply Hhandled].
    destruct (Creds.listing response) as [[|i instances]|e];
      [exact I|exact I|apply Hhandled].
  - destruct (get_ec2_instances_key_missing boto3 region l aws_credentials Hmissing)
      as (e & _ & ->).
    simpl. discriminate.
Qed.

(** X2. When the credentials lack one of the three keys (or are not a
    dict at all), [get_ec2_instances] makes no SDK call: the call log is
    unchanged, and the result is the empty list with an error string. *)
Theorem get_ec2_instances_no_call_without_keys
    (boto3 : Creds.boto3_module) (aws_credentials : pyval) (region : string)
    (l : Creds.log) :
  (exists field e, field ∈ Creds.credential_fields ∧
                   py_getitem aws_credentials field = Raise e) ->
  snd (Creds.get_ec2_instances boto3 aws_credentials region l) = l
  ∧ exists msg,
      fst (Creds.get_ec2_instances boto3 aws_credentials region l)
        = Ret ([], Some ("Error getting EC2 instances: " +:+ msg)).
Proof.
  intros Hmissing.
  destruct (get_ec2_instances_key_missing boto3 region l aws_credentials Hmissing)
    as (e & _ & ->).
  split; [reflexivity|]. exists (Exn.str e). reflexivity.
Qed.

Lemma get_ec2_instances_no_call_without_keys_witness :
  snd (Creds.get_ec2_instances (Sample.boto3_of (Ret Sample.ec2_response))
         Sample.credentials_without_token "us-east-1" []) = []
  ∧ exists msg,
      fst (Creds.get_ec2_instances (Sample.boto3_of (Ret Sample.ec2_response))
             Sample.credentials_without_token "us-east-1" [])
        = Ret ([], Some ("Error getting EC2 instances: " +:+ msg)).
Proof.
  apply (get_ec2_instances_no_call_without_keys
           (Sample.boto3_of (Ret Sample.ec2_response))
           Sample.credentials_without_token "us-east-1" []).
  exists "session_token", (Exn.mk Exn.KeyError "'session_token'").
  split; [repeat constructor|reflexivity].
Defined.

(** X3. With the three keys present, [get_ec2_instances] calls
    [boto3.Session], then [session.client] for the service "ec2" in the
    region it was given, then [describe_instances], once each and in this
    order; a call that raises is the last one made. *)
Theorem get_ec2_instances_call_sequence
    (boto3 : Creds.boto3_module) (region : string) (l : Creds.log)
    (aws_credentials a s t : pyval) :
  py_getitem aws_credentials "access_key_id" = Ret a ->
  py_getitem aws_credentials "secret_access_key" = Ret s ->
  py_getitem aws_credentials "session_token" = Ret t ->
  (forall e, Creds.Session boto3 a s t = Raise e ->
     snd (Creds.get_ec2_instances boto3 aws_credentials region l)
       = l ++ [Creds.Call_boto3_Session a s t])
  ∧ (forall session e,
       Creds.Session boto3 a s t = Ret session ->
       Creds.client session "ec2" region = Raise e ->
       snd (Creds.get_ec2_instances boto3 aws_credentials region l)
         = l ++ [Creds.Call_boto3_Session a s t;
                 Creds.Call_session_client "ec2" region])
  ∧ (forall session ec2,
       Creds.Session boto3 a s t = Ret session ->
       Creds.client session "ec2" region = Ret ec2 ->
       snd (Creds.get_ec2_instances boto3 aws_credentials region l)
         = l ++ [Creds.Call_boto3_Session a s t;
                 Creds.Call_session_client "ec2" region;
                 Creds.Call_describe_instances]).
Proof.
  intros Ha Hs Ht.
  rewrite (get_ec2_instances_run boto3 region l aws_credentials a s t Ha Hs Ht).
  split; [|split].
  - intros e H. rewrite H. reflexivity.
  - intros session e H1 H2. rewrite H1, H2. reflexivity.
  - intros session ec2 H1 H2. rewrite H1, H2. reflexivity.
Qed.

Lemma get_ec2_instances_call_sequence_witness :
  snd (Creds.get_ec2_instances (Sample.boto3_of (Raise Sample.throttled))
         Sample.credentials "eu-west-1" [])
  = [] ++ [Creds.Call_boto3_Session (PStr "ASIAEXAMPLE") (PStr "secret")
             (PStr "token");
           Creds.Call_session_client "ec2" "eu-west-1";
           Creds.Call_describe_instances].
Proof.
  apply (get_ec2_instances_call_sequence
           (Sample.boto3_of (Raise Sample.throttled)) "eu-west-1" []
           Sample.credentials (PStr "ASIAEXAMPLE") (PStr "secret") (PStr "token")
           eq_refl eq_refl eq_refl)
    with (session := Sample.session_of (Raise Sample.throttled))
         (ec2 := {| Creds.describe_instances := Raise Sample.throttled |});
    reflexivity.
Defined.

(** X4. A response with an empty "Reservations" list gives the empty
    list with no error; a response dict without the "Reservations" key
    gives the empty list too, with the error string naming the key.  Only
    the error slot tells the two apart. *)
Theorem get_ec2_instances_empty_or_missing_reservations
    (boto3 : Creds.boto3_module) (region : string) (l : Creds.log)
    (aws_credentials a s t : pyval)
    (session : Creds.session) (ec2 : Creds.ec2_client)
    (items : list (string * pyval)) :
  py_getitem aws_credentials "access_key_id" = Ret a ->
  py_getitem aws_credentials "secret_access_key" = Ret s ->
  py_getitem aws_credentials "session_token" = Ret t ->
  Creds.Session boto3 a s t = Ret session ->
  Creds.client session "ec2" region = Ret ec2 ->
  Creds.describe_instances ec2 = Ret (PDict items) ->
  (assoc "Reservations" items = Some (PList []) ->
     fst (Creds.get_ec2_instances boto3 aws_credentials region l) = Ret ([], None))
  ∧ (assoc "Reservations" items = None ->
       fst (Creds.get_ec2_instances boto3 aws_credentials region l)
         = Ret ([], Some "Error getting EC2 instances: 'Reservations'")).
Proof.
  intros Ha Hs Ht Hsession Hclient Hdescribe.
  rewrite (get_ec2_instances_run boto3 region l aws_credentials a s t Ha Hs Ht).
  rewrite Hsession, Hclient, Hdescribe. unfold Creds.listing. simpl.
  split; intros ->; reflexivity.
Qed.

Lemma get_ec2_instances_empty_or_missing_reservations_witness :
  fst (Creds.get_ec2_instances
         (Sample.boto3_of (Ret (PDict [("ResponseMetadata", PDict [])])))
         Sample.credentials "us-east-1" [])
  = Ret ([], Some "Error getting EC2 instances: 'Reservations'").
Proof.
  apply (get_ec2_instances_empty_or_missing_reservations
           (Sample.boto3_of (Ret (PDict [("ResponseMetadata", PDict [])])))
           "us-east-1" [] Sample.credentials
           (PStr "ASIAEXAMPLE") (PStr "secret") (PStr "token")
           (Sample.session_of (Ret (PDict [("ResponseMetadata", PDict [])])))
           {| Creds.describe_instances :=
                Ret (PDict [("ResponseMetadata", PDict [])]) |}
           [("ResponseMetadata", PDict [])]);
    reflexivity.
Defined.

(** ** One instance that cannot be read fails the whole listing *)

Lemma instances_loop_fails (raw_good rest : list pyval) (bad : pyval)
    (good : list Creds.instance) (acc : list pyval) (e : exn) :
  Forall2 (fun v i => Creds.as_instance v = Some i) raw_good good ->
  Creds.instance_info bad = Raise e ->
  Creds.instances_loop (raw_good ++ bad :: rest) acc = Raise e.
Proof.
  intros Hgood Hbad. revert acc.
  induction Hgood as [|v i raw_good good Hv _ IH]; intros acc; simpl.
  - rewrite Hbad. reflexivity.
  - rewrite (instance_info_typed _ _ Hv). simpl. apply IH.
Qed.

Lemma reservations_loop_fails (raw_rs later : list pyval)
    (rs : list (list Creds.instance)) (ritems : list (string * pyval))
    (insts acc : list pyval) (e : exn) :
  Forall2 (fun v r => Creds.as_reservation v = Some r) raw_rs rs ->
  assoc "Instances" ritems = Some (PList insts) ->
  (forall acc', Creds.instances_loop insts acc' = Raise e) ->
  Creds.reservations_loop (raw_rs ++ PDict ritems :: later) acc = Raise e.
Proof.
  intros Hrs Hinsts Hfail. revert acc.
  induction Hrs as [|v r raw_rs rs Hv _ IH]; intros acc; simpl.
  - rewrite Hinsts. simpl. rewrite Hfail. reflexivity.
  - destruct v; try discriminate. simpl in Hv. simpl.
    destruct (assoc "Instances" items) as [[]|]; try discriminate.
    simpl. apply mapM_Some in Hv.
    rewrite (instances_loop_typed _ _ _ Hv). simpl. apply IH.
Qed.

(** X5. The listing is all or nothing: when the response is well shaped
    up to some instance whose record cannot be built (its "InstanceId" is
    missing, its "Tags" is not a list, ...), [get_ec2_instances] returns
    the empty list with the error of that instance; the records of the
    instances before it are dropped, those after it are never looked
    at. *)
Theorem get_ec2_instances_all_or_nothing
    (boto3 : Creds.boto3_module) (region : string) (l : Creds.log)
    (aws_credentials a s t : pyval)
    (session : Creds.session) (ec2 : Creds.ec2_client)
    (items ritems : list (string * pyval))
    (raw_rs later_rs raw_good later : list pyval) (bad : pyval)
    (rs : list (list Creds.instance)) (good : list Creds.instance) (e : exn) :
  py_getitem aws_credentials "access_key_id" = Ret a ->
  py_getitem aws_credentials "secret_access_key" = Ret s ->
  py_getitem aws_credentials "session_token" = Ret t ->
  Creds.Session boto3 a s t = Ret session ->
  Creds.client session "ec2" region = Ret ec2 ->
  Creds.describe_instances ec2 = Ret (PDict items) ->
  assoc "Reservations" items = Some (PList (raw_rs ++ PDict ritems :: later_rs)) ->
  Forall2 (fun v r => Creds.as_reservation v = Some r) raw_rs rs ->
  assoc "Instances" ritems = Some (PList (raw_good ++ bad :: later)) ->
  Forall2 (fun v i => Creds.as_instance v = Some i) raw_good good ->
  Creds.instance_info bad = Raise e ->
  except_Exception e = true ->
  fst (Creds.get_ec2_instances boto3 aws_credentials region l)
    = Ret ([], Some ("Error getting EC2 instances: " +:+ Exn.str e)).
Proof.
  intros Ha Hs Ht Hsession Hclient Hdescribe Hres Hrs Hinsts Hgood Hbad He.
  rewrite (get_ec2_instances_run boto3 region l aws_credentials a s t Ha Hs Ht).
  rewrite Hsession, Hclient, Hdescribe. unfold Creds.listing. simpl.
  rewrite Hres. simpl.
  rewrite (reservations_loop_fails raw_rs later_rs rs ritems
             (raw_good ++ bad :: later) [] e Hrs Hinsts).
  - apply ec2_handled_Exception. exact He.
  - intros acc'. apply (instances_loop_fails raw_good later bad good acc' e Hgood Hbad).
Qed.

Lemma get_ec2_instances_all_or_nothing_witness :
  fst (Creds.get_ec2_instances
         (Sample.boto3_of (Ret Sample.ec2_response_with_null_tags))
         Sample.credentials "us-east-1" [])
  = Ret ([], Some ("Error getting EC2 instances: " +:+
                   "'NoneType' object is not iterable")).
Proof.
  apply (get_ec2_instances_all_or_nothing
           (Sample.boto3_of (Ret Sample.ec2_response_with_null_tags))
           "us-east-1" [] Sample.credentials
           (PStr "ASIAEXAMPLE") (PStr "secret") (PStr "token")
           (Sample.session_of (Ret Sample.ec2_response_with_null_tags))
           {| Creds.describe_instances := Ret Sample.ec2_response_with_null_tags |}
           [("Reservations",
             PList
               [PDict
                  [("Instances",
                    PList
                      [PDict [("InstanceId", PStr "i-01");
                              ("Tags", PList [Sample.tag_dict "Name" "web"])];
                       PDict [("InstanceId", PStr "i-02"); ("Tags", PNone)];
                       PDict [("InstanceId", PStr "i-03")]])]])]
           [("Instances",
             PList
               [PDict [("InstanceId", PStr "i-01");
                       ("Tags", PList [Sample.tag_dict "Name" "web"])];
                PDict [("InstanceId", PStr "i-02"); ("Tags", PNone)];
                PDict [("InstanceId", PStr "i-03")]])]
           [] []
           [PDict [("InstanceId", PStr "i-01");
                   ("Tags", PList [Sample.tag_dict "Name" "web"])]]
           [PDict [("InstanceId", PStr "i-03")]]
           (PDict [("InstanceId", PStr "i-02"); ("Tags", PNone)])
           []
           [{| Creds.Tags := Some [{| Creds.Key := "Name"; Creds.Value := "web" |}];
               Creds.InstanceId := "i-01" |}]
           (type_error "'NoneType' object is not iterable"));
    try reflexivity.
  - constructor.
  - repeat constructor.
Defined.

(** ** get_aws_credentials: one call *)

(** X6. [get_aws_credentials] calls the credential service exactly once,
    with the name it was given, whatever the service answers or raises:
    there is no retry and no second request. *)
Theorem get_aws_credentials_calls_once
    (wc : Creds.workspace_client) (name : string) (l : Creds.log) :
  snd (Creds.get_aws_credentials wc name l)
    = l ++ [Creds.Call_generate_temporary_service_credential name].
Proof.
  unfold Creds.get_aws_credentials, Creds.external. run.
  destruct (Creds.generate_temporary_service_credential wc name) as [resp|e]; simpl.
  2:{ destruct (except_Exception e); reflexivity. }
  destruct (py_hasattr resp "aws_temp_credentials"); [|reflexivity].
  destruct (py_getattr resp "aws_temp_credentials") as [aws|e]; simpl.
  2:{ destruct (except_Exception e); reflexivity. }
  destruct (py_getattr aws "access_key_id") as [a|e]; simpl.
  2:{ destruct (except_Exception e); reflexivity. }
  destruct (py_getattr aws "secret_access_key") as [s|e]; simpl.
  2:{ destruct (except_Exception e); reflexivity. }
  destruct (py_getattr aws "session_token") as [t|e]; simpl.
  2:{ destruct (except_Exception e); reflexivity. }
  reflexivity.
Qed.

(** ** main of the credentials app *)

(** X7. With no credential name, or with a name and the fetch button
    not pressed, [main] calls neither the credential service nor AWS.
    Its one SDK call is the client constructor, made between the page
    heading and the sidebar when no client is cached, and not made when
    one is.  With a client, the run shows the heading and the warning
    (no name), or the heading alone (button not pressed).  When the
    constructor raises, [main] raises the same exception with the
    sidebar not yet rendered. *)
Theorem main_idle_makes_no_call
    (g : Creds.globals)
    (WorkspaceClient : Creds.workspace_client_call -> outcome Creds.workspace_client)
    (cache : option Creds.workspace_client)
    (boto3 : Creds.boto3_module) (ui : Creds.sidebar) (l : Creds.log) :
  Creds.service_credential_name ui = "" ∨ Creds.fetch_instances ui = false ->
  (forall wc, Creds.client_of g WorkspaceClient cache = Ret wc ->
     Creds.main g WorkspaceClient cache boto3 ui l
       = (Ret tt,
          l ++ Creds.main_header g cache ++
          if String.eqb (Creds.service_credential_name ui) "" then
            [Creds.St_warning
               "Please enter a Databricks Service Credential Name in the sidebar to continue."]
          else []))
  ∧ (forall e, Creds.client_of g WorkspaceClient cache = Raise e ->
       Creds.main g WorkspaceClient cache boto3 ui l
         = (Raise e,
            l ++ [Creds.St_set_page_config
                    "Databricks UC Credentials - EC2 Instance Viewer" "wide";
                  Creds.St_title "Databricks UC Credentials - EC2 Instance Viewer";
                  Creds.St_markdown "---";
                  Creds.Call_WorkspaceClient (Creds.get_workspace_client g)]))
  ∧ List.filter Creds.is_sdk_call
      (snd (Creds.main g WorkspaceClient cache boto3 ui []))
    = match cache with
      | Some _ => []
      | None => [Creds.Call_WorkspaceClient (Creds.get_workspace_client g)]
      end.
Proof.
  intros Hidle.
  assert (Hrun : forall l0 wc, Creds.client_of g WorkspaceClient cache = Ret wc ->
     Creds.main g WorkspaceClient cache boto3 ui l0
       = (Ret tt,
          l0 ++ Creds.main_header g cache ++
          if String.eqb (Creds.service_credential_name ui) "" then
            [Creds.St_warning
               "Please enter a Databricks Service Credential Name in the sidebar to continue."]
          else [])).
  { intros l0 wc Hwc.
    rewrite (main_after_sidebar g WorkspaceClient cache wc boto3 ui l0 Hwc).
    unfold Creds.after_sidebar.
    destruct (String.eqb_spec (Creds.service_credential_name ui) "") as [E|E].
    - unfold Creds.emit, modify. rewrite <- app_assoc. reflexivity.
    - destruct Hidle as [H|H]; [contradiction|]. rewrite H.
      rewrite app_nil_r. reflexivity. }
  assert (Hfail : forall l0 e, Creds.client_of g WorkspaceClient cache = Raise e ->
     Creds.main g WorkspaceClient cache boto3 ui l0
       = (Raise e,
          l0 ++ [Creds.St_set_page_config
                   "Databricks UC Credentials - EC2 Instance Viewer" "wide";
                 Creds.St_title "Databricks UC Credentials - EC2 Instance Viewer";
                 Creds.St_markdown "---";
                 Creds.Call_WorkspaceClient (Creds.get_workspace_client g)])).
  { intros l0 e Hwc. unfold Creds.client_of in Hwc.
    destruct cache as [wc|]; [discriminate|].
    apply main_constructor_raises. exact Hwc. }
  split; [apply Hrun|]. split; [apply Hfail|].
  destruct (Creds.client_of g WorkspaceClient cache) as [wc|e] eqn:Hwc.
  - rewrite (Hrun [] wc eq_refl). unfold Creds.main_header. simpl.
    destruct cache; simpl;
      destruct (String.eqb (Creds.service_credential_name ui) ""); reflexivity.
  - rewrite (Hfail [] e eq_refl). simpl.
    unfold Creds.client_of in Hwc. destruct cache; [discriminate|reflexivity].
Qed.

Lemma main_idle_makes_no_call_witness :
  Creds.main Sample.deployed
    (Sample.constructing (Sample.wc_returning Sample.aws_response)) None
    (Sample.boto3_of (Ret Sample.ec2_response))
    {| Creds.service_credential_name := "";
       Creds.selected_region := "us-east-1";
       Creds.fetch_instances := true |} []
  = (Ret tt,
     [Creds.St_set_page_config
        "Databricks UC Credentials - EC2 Instance Viewer" "wide";
      Creds.St_title "Databricks UC Credentials - EC2 Instance Viewer";
      Creds.St_markdown "---";
      Creds.Call_WorkspaceClient Creds.WorkspaceClient_no_args;
      Creds.St_header "Configuration";
      Creds.St_warning
        "Please enter a Databricks Service Credential Name in the sidebar to continue."])
  ∧ Creds.main Sample.deployed
      (Sample.constructing (Sample.wc_returning Sample.aws_response))
      (Some (Sample.wc_returning Sample.aws_response))
      (Sample.boto3_of (Ret Sample.ec2_response))
      {| Creds.service_credential_name := "cred";
         Creds.selected_region := "us-east-1";
         Creds.fetch_instances := false |} []
    = (Ret tt,
       [Creds.St_set_page_config
          "Databricks UC Credentials - EC2 Instance Viewer" "wide";
        Creds.St_title "Databricks UC Credentials - EC2 Instance Viewer";
        Creds.St_markdown "---";
        Creds.St_header "Configuration"])
  ∧ Creds.main Sample.deployed
      (Sample.constructor_raising Sample.cannot_configure) None
      (Sample.boto3_of (Ret Sample.ec2_response))
      {| Creds.service_credential_name := "";
         Creds.selected_region := "us-east-1";
         Creds.fetch_instances := false |} []
    = (Raise Sample.cannot_configure,
       [Creds.St_set_page_config
          "Databricks UC Credentials - EC2 Instance Viewer" "wide";
        Creds.St_title "Databricks UC Credentials - EC2 Instance Viewer";
        Creds.St_markdown "---";
        Creds.Call_WorkspaceClient Creds.WorkspaceClient_no_args]).
Proof.
  split; [|split].
  - apply (proj1 (main_idle_makes_no_call Sample.deployed
                    (Sample.constructing (Sample.wc_returning Sample.aws_response))
                    None
                    (Sample.boto3_of (Ret Sample.ec2_response))
                    {| Creds.service_credential_name := "";
                       Creds.selected_region := "us-east-1";
                       Creds.fetch_instances := true |} []
                    (or_introl eq_refl))
                 (Sample.wc_returning Sample.aws_response) eq_refl).
  - apply (proj1 (main_idle_makes_no_call Sample.deployed
                    (Sample.constructing (Sample.wc_returning Sample.aws_response))
                    (Some (Sample.wc_returning Sample.aws_response))
                    (Sample.boto3_of (Ret Sample.ec2_response))
                    {| Creds.service_credential_name := "cred";
                       Creds.selected_region := "us-east-1";
                       Creds.fetch_instances := false |} []
                    (or_intror eq_refl))
                 (Sample.wc_returning Sample.aws_response) eq_refl).
  - apply (proj1 (proj2 (main_idle_makes_no_call Sample.deployed
                    (Sample.constructor_raising Sample.cannot_configure) None
                    (Sample.boto3_of (Ret Sample.ec2_response))
                    {| Creds.service_credential_name := "";
                       Creds.selected_region := "us-east-1";
                       Creds.fetch_instances := false |} []
                    (or_introl eq_refl)))
                 Sample.cannot_configure eq_refl).
Defined.

(** X8. When the credentials cannot be had, [main] shows the error and
    stops before any AWS call: after a service exception that is an
    [Exception], and after a response without [aws_temp_credentials], the
    run consists of the header, the one credential call and one error
    widget carrying the message. *)
Theorem main_stops_on_credential_error
    (g : Creds.globals)
    (WorkspaceClient : Creds.workspace_client_call -> outcome Creds.workspace_client)
    (cache : option Creds.workspace_client)
    (wc : Creds.workspace_client) (boto3 : Creds.boto3_module)
    (ui : Creds.sidebar) (l : Creds.log) :
  Creds.client_of g WorkspaceClient cache = Ret wc ->
  Creds.service_credential_name ui ≠ "" ->
  Creds.fetch_instances ui = true ->
  (forall e,
     Creds.generate_temporary_service_credential wc (Creds.service_credential_name ui)
       = Raise e ->
     except_Exception e = true ->
     Creds.main g WorkspaceClient cache boto3 ui l
       = (Ret tt,
          (l ++ Creds.main_header g cache) ++
          [Creds.Call_generate_temporary_service_credential
             (Creds.service_credential_name ui);
           Creds.St_error
             ("Failed to get AWS credentials: Error getting AWS credentials: "
              +:+ Exn.str e)]))
  ∧ (forall resp,
       Creds.generate_temporary_service_credential wc
         (Creds.service_credential_name ui) = Ret resp ->
       py_hasattr resp "aws_temp_credentials" = false ->
       Creds.main g WorkspaceClient cache boto3 ui l
         = (Ret tt,
            (l ++ Creds.main_header g cache) ++
            [Creds.Call_generate_temporary_service_credential
               (Creds.service_credential_name ui);
             Creds.St_error
               "Failed to get AWS credentials: No AWS credentials found in response"])).
Proof.
  intros Hwc Hname Hfetch.
  rewrite (main_after_sidebar g WorkspaceClient cache wc boto3 ui l Hwc).
  unfold Creds.after_sidebar.
  destruct (String.eqb_spec (Creds.service_credential_name ui) "");
    [contradiction|].
  rewrite Hfetch. split.
  - intros e Hraise He.
    erewrite bind_ret_run
      by (rewrite (get_aws_credentials_raised wc _ _ e Hraise), He; reflexivity).
    unfold Creds.called, Creds.emit, modify. simpl.
    rewrite <- !app_assoc. reflexivity.
  - intros resp Hresp Habsent.
    erewrite bind_ret_run
      by (apply (get_aws_credentials_absent wc _ _ resp Hresp Habsent)).
    unfold Creds.called, Creds.emit, modify. simpl.
    rewrite <- !app_assoc. reflexivity.
Qed.

Lemma main_stops_on_credential_error_witness :
  Creds.main Sample.deployed (Sample.constructing (Sample.wc_raising Sample.throttled)) None
    (Sample.boto3_of (Ret Sample.ec2_response))
    {| Creds.service_credential_name := "cred";
       Creds.selected_region := "us-east-1";
       Creds.fetch_instances := true |} []
  = (Ret tt,
     ([] ++ Creds.main_header Sample.deployed None) ++
     [Creds.Call_generate_temporary_service_credential "cred";
      Creds.St_error
        ("Failed to get AWS credentials: Error getting AWS credentials: "
         +:+ "RequestLimitExceeded")]).
Proof.
  apply (proj1 (main_stops_on_credential_error Sample.deployed
                  (Sample.constructing (Sample.wc_raising Sample.throttled)) None
                  (Sample.wc_raising Sample.throttled)
                  (Sample.boto3_of (Ret Sample.ec2_response))
                  {| Creds.service_credential_name := "cred";
                     Creds.selected_region := "us-east-1";
                     Creds.fetch_instances := true |} []
                  eq_refl ltac:(discriminate) eq_refl) Sample.throttled);
    reflexivity.
Defined.

Lemma get_ec2_instances_listed
    (boto3 : Creds.boto3_module) (region : string) (l : Creds.log)
    (aws_credentials a s t response : pyval)
    (session : Creds.session) (ec2 : Creds.ec2_client)
    (rs : list (list Creds.instance)) :
  py_getitem aws_credentials "access_key_id" = Ret a ->
  py_getitem aws_credentials "secret_access_key" = Ret s ->
  py_getitem aws_credentials "session_token" = Ret t ->
  Creds.Session boto3 a s t = Ret session ->
  Creds.client session "ec2" region = Ret ec2 ->
  Creds.describe_instances ec2 = Ret response ->
  Creds.as_response response = Some rs ->
  Creds.get_ec2_instances boto3 aws_credentials region l
    = (Ret (map Creds.record_of (concat rs), None),
       l ++ [Creds.Call_boto3_Session a s t;
             Creds.Call_session_client "ec2" region;
             Creds.Call_describe_instances]).
Proof.
  intros Ha Hs Ht Hsession Hclient Hdescribe Hshape.
  rewrite (get_ec2_instances_run boto3 region l aws_credentials a s t Ha Hs Ht).
  rewrite Hsession, Hclient, Hdescribe, (listing_typed _ _ Hshape). reflexivity.
Qed.

(** X9. A run of [main] that has a client, gets credentials and a
    well-shaped response makes the credential call and the three AWS
    calls in order and then shows either the notice
    that the region has no instances, when the response holds none, or
    the count of the instances followed by the table of their records,
    one row per instance. *)
Theorem main_shows_the_listing
    (g : Creds.globals)
    (WorkspaceClient : Creds.workspace_client_call -> outcome Creds.workspace_client)
    (cache : option Creds.workspace_client)
    (wc : Creds.workspace_client) (boto3 : Creds.boto3_module)
    (ui : Creds.sidebar) (l : Creds.log)
    (resp aws a s t response : pyval)
    (session : Creds.session) (ec2 : Creds.ec2_client)
    (rs : list (list Creds.instance)) :
  Creds.client_of g WorkspaceClient cache = Ret wc ->
  Creds.service_credential_name ui ≠ "" ->
  Creds.fetch_instances ui = true ->
  Creds.generate_temporary_service_credential wc (Creds.service_credential_name ui)
    = Ret resp ->
  Creds.has_fields resp aws a s t ->
  Creds.Session boto3 a s t = Ret session ->
  Creds.client session "ec2" (Creds.selected_region ui) = Ret ec2 ->
  Creds.describe_instances ec2 = Ret response ->
  Creds.as_response response = Some rs ->
  Creds.main g WorkspaceClient cache boto3 ui l
    = (Ret tt,
       (l ++ Creds.main_header g cache) ++
       [Creds.Call_generate_temporary_service_credential
          (Creds.service_credential_name ui);
        Creds.Call_boto3_Session a s t;
        Creds.Call_session_client "ec2" (Creds.selected_region ui);
        Creds.Call_describe_instances] ++
       match concat rs with
       | [] => [Creds.St_info ("No EC2 instances found in region " +:+
                               Creds.selected_region ui)]
       | _ :: _ =>
           [Creds.St_write ("**Found " +:+ pretty (length (concat rs)) +:+
                            " EC2 instance(s) in " +:+ Creds.selected_region ui +:+
                            ":**");
            Creds.St_dataframe (map Creds.record_of (concat rs))]
       end).
Proof.
  intros Hwc Hname Hfetch Hgen (Haws & Ha & Hs & Ht) Hsession Hclient Hdescribe Hshape.
  rewrite (main_after_sidebar g WorkspaceClient cache wc boto3 ui l Hwc).
  unfold Creds.after_sidebar.
  destruct (String.eqb_spec (Creds.service_credential_name ui) "");
    [contradiction|].
  rewrite Hfetch.
  erewrite bind_ret_run
    by (eapply get_aws_credentials_populated; eauto).
  cbn [Creds.error_truthy py_truthy length Nat.eqb negb].
  erewrite bind_ret_run
    by (eapply get_ec2_instances_listed; eauto; reflexivity).
  cbn [Creds.error_truthy]. unfold Creds.called.
  destruct (concat rs) as [|i rest]; simpl map.
  - unfold Creds.emit, modify. simpl.
    repeat (rewrite <- app_assoc; simpl). reflexivity.
  - unfold bind, Creds.emit, modify. rewrite length_map. simpl.
    repeat (rewrite <- app_assoc; simpl). reflexivity.
Qed.

Lemma main_shows_the_listing_witness :
  Creds.main Sample.deployed (Sample.constructing (Sample.wc_returning Sample.aws_response)) None
    (Sample.boto3_of (Ret Sample.ec2_response))
    {| Creds.service_credential_name := "cred";
       Creds.selected_region := "us-east-1";
       Creds.fetch_instances := true |} []
  = (Ret tt,
     ([] ++ Creds.main_header Sample.deployed None) ++
     [Creds.Call_generate_temporary_service_credential "cred";
      Creds.Call_boto3_Session (PStr "ASIAEXAMPLE") (PStr "secret") (PStr "token");
      Creds.Call_session_client "ec2" "us-east-1";
      Creds.Call_describe_instances] ++
     [Creds.St_write ("**Found " +:+ pretty 3%nat +:+
                      " EC2 instance(s) in " +:+ "us-east-1" +:+ ":**");
      Creds.St_dataframe
        (map Creds.record_of (concat Sample.ec2_reservations))]).
Proof.
  apply (main_shows_the_listing Sample.deployed
           (Sample.constructing (Sample.wc_returning Sample.aws_response)) None
           (Sample.wc_returning Sample.aws_response)
           (Sample.boto3_of (Ret Sample.ec2_response))
           {| Creds.service_credential_name := "cred";
              Creds.selected_region := "us-east-1";
              Creds.fetch_instances := true |} []
           Sample.aws_response
           (PObject "AwsCredentials"
              [("access_key_id", PStr "ASIAEXAMPLE");
               ("secret_access_key", PStr "secret");
               ("session_token", PStr "token")])
           (PStr "ASIAEXAMPLE") (PStr "secret") (PStr "token")
           Sample.ec2_response
           (Sample.session_of (Ret Sample.ec2_response))
           {| Creds.describe_instances := Ret Sample.ec2_response |}
           Sample.ec2_reservations);
    try reflexivity.
  - discriminate.
  - repeat split.
Defined.

(** X10. When an AWS call raises an [Exception], [main] shows one error
    widget with the message of [get_ec2_instances] and no table: the
    calls made so far are followed by that widget alone. *)
Theorem main_reports_aws_failure
    (g : Creds.globals)
    (WorkspaceClient : Creds.workspace_client_call -> outcome Creds.workspace_client)
    (cache : option Creds.workspace_client)
    (wc : Creds.workspace_client) (boto3 : Creds.boto3_module)
    (ui : Creds.sidebar) (l : Creds.log)
    (resp aws a s t : pyval) (e : exn) :
  Creds.client_of g WorkspaceClient cache = Ret wc ->
  Creds.service_credential_name ui ≠ "" ->
  Creds.fetch_instances ui = true ->
  Creds.generate_temporary_service_credential wc (Creds.service_credential_name ui)
    = Ret resp ->
  Creds.has_fields resp aws a s t ->
  except_Exception e = true ->
  (Creds.Session boto3 a s t = Raise e ->
     Creds.main g WorkspaceClient cache boto3 ui l
       = (Ret tt,
          (l ++ Creds.main_header g cache) ++
          [Creds.Call_generate_temporary_service_credential
             (Creds.service_credential_name ui);
           Creds.Call_boto3_Session a s t;
           Creds.St_error
             ("Failed to get EC2 instances: Error getting EC2 instances: "
              +:+ Exn.str e)]))
  ∧ (forall session ec2,
       Creds.Session boto3 a s t = Ret session ->
       Creds.client session "ec2" (Creds.selected_region ui) = Ret ec2 ->
       Creds.describe_instances ec2 = Raise e ->
       Creds.main g WorkspaceClient cache boto3 ui l
         = (Ret tt,
            (l ++ Creds.main_header g cache) ++
            [Creds.Call_generate_temporary_service_credential
               (Creds.service_credential_name ui);
             Creds.Call_boto3_Session a s t;
             Creds.Call_session_client "ec2" (Creds.selected_region ui);
             Creds.Call_describe_instances;
             Creds.St_error
               ("Failed to get EC2 instances: Error getting EC2 instances: "
                +:+ Exn.str e)])).
Proof.
  intros Hwc Hname Hfetch Hgen (Haws & Ha & Hs & Ht) He.
  rewrite (main_after_sidebar g WorkspaceClient cache wc boto3 ui l Hwc).
  unfold Creds.after_sidebar.
  destruct (String.eqb_spec (Creds.service_credential_name ui) "");
    [contradiction|].
  rewrite Hfetch.
  erewrite bind_ret_run
    by (eapply get_aws_credentials_populated; eauto).
  cbn [Creds.error_truthy py_truthy length Nat.eqb negb].
  split.
  - intros Hsession.
    erewrite bind_ret_run.
    2:{ erewrite get_ec2_instances_run by reflexivity.
        rewrite Hsession, (ec2_handled_Exception e He). reflexivity. }
    unfold Creds.called, Creds.emit, modify. simpl.
    rewrite <- !app_assoc. reflexivity.
  - intros session ec2 Hsession Hclient Hdescribe.
    erewrite bind_ret_run.
    2:{ erewrite get_ec2_instances_run by reflexivity.
        rewrite Hsession, Hclient, Hdescribe, (ec2_handled_Exception e He).
        reflexivity. }
    unfold Creds.called, Creds.emit, modify. simpl.
    rewrite <- !app_assoc. reflexivity.
Qed.

Lemma main_reports_aws_failure_witness :
  Creds.main Sample.deployed (Sample.constructing (Sample.wc_returning Sample.aws_response)) None
    (Sample.boto3_of (Raise Sample.throttled))
    {| Creds.service_credential_name := "cred";
       Creds.selected_region := "us-east-1";
       Creds.fetch_instances := true |} []
  = (Ret tt,
     ([] ++ Creds.main_header Sample.deployed None) ++
     [Creds.Call_generate_temporary_service_credential "cred";
      Creds.Call_boto3_Session (PStr "ASIAEXAMPLE") (PStr "secret") (PStr "token");
      Creds.Call_session_client "ec2" "us-east-1";
      Creds.Call_describe_instances;
      Creds.St_error
        ("Failed to get EC2 instances: Error getting EC2 instances: "
         +:+ "RequestLimitExceeded")]).
Proof.
  refine (proj2 (main_reports_aws_failure Sample.deployed
           (Sample.constructing (Sample.wc_returning Sample.aws_response)) None
           (Sample.wc_returning Sample.aws_response)
           (Sample.boto3_of (Raise Sample.throttled))
           {| Creds.service_credential_name := "cred";
              Creds.selected_region := "us-east-1";
              Creds.fetch_instances := true |} []
           Sample.aws_response
           (PObject "AwsCredentials"
              [("access_key_id", PStr "ASIAEXAMPLE");
               ("secret_access_key", PStr "secret");
               ("session_token", PStr "token")])
           (PStr "ASIAEXAMPLE") (PStr "secret") (PStr "token")
           Sample.throttled eq_refl _ eq_refl eq_refl _ eq_refl)
           (Sample.session_of (Raise Sample.throttled))
           {| Creds.describe_instances := Raise Sample.throttled |}
           eq_refl eq_refl eq_refl).
  - discriminate.
  - repeat split.
Defined.

(** ** startup.py: what the download leaves on disk *)

Lemma py_len_raises (v : pyval) (e : exn) :
  py_len v = Raise e ->
  except_Exception e = true ∧ except_ImportError e = false.
Proof. destruct v; simpl; intros [= <-]; split; reflexivity. Qed.

Lemma on_exception_caught (env : Startup.environment) (e : exn) (fs : Startup.files) :
  except_Exception e = true ->
  except_ImportError e = false ->
  Startup.on_exception env e fs = (Ret false, fs).
Proof. intros He Hi. unfold Startup.on_exception. rewrite Hi, He. reflexivity. Qed.

Lemma on_exception_no_dbutils (env : Startup.environment) (e : exn)
    (fs : Startup.files) :
  Startup.dbutils_fs_cp env = None ->
  Startup.on_exception env e fs
    = (if except_Exception e then Ret false else Raise e, fs).
Proof.
  intros Hnone. unfold Startup.on_exception.
  destruct (except_ImportError e) eqn:Hi.
  - rewrite (ImportError_is_Exception e Hi).
    apply dbutils_fallback_undefined. exact Hnone.
  - destruct (except_Exception e); reflexivity.
Qed.

Lemma length_or_zero_raises (content : pyval) (e : exn) :
  Startup.length_or_zero content = Raise e ->
  except_Exception e = true ∧ except_ImportError e = false.
Proof.
  unfold Startup.length_or_zero. destruct (py_truthy content); [|discriminate].
  apply py_len_raises.
Qed.

(** X11. Bytes are saved verbatim: when the fallback chain yields a
    bytes-like value and the disk takes the write, the function returns
    [True] and [big.json] holds exactly those bytes afterwards, replacing
    what was there.  When the file cannot be opened the function returns
    [False] and [big.json] is as before; when the write fails part-way it
    returns [False] and [big.json] holds the bytes written until then.
    Every other file is as before in all three cases. *)
Theorem download_saves_bytes_verbatim
    (env : Startup.environment) (fs : Startup.files)
    (w : Startup.files_api) (r content : pyval) (b : list byte) :
  Startup.import_WorkspaceClient env = Ret tt ->
  Startup.WorkspaceClient env = Ret w ->
  Startup.download w "/Volumes/example/default/test-volume/big.json" = Ret r ->
  Startup.extract_content r fs = (Ret (Some content), fs) ->
  bytes_like content = Some b ->
  (Startup.local_disk env = Startup.Disk_ok ->
     Startup.download_file_from_volume env fs = (Ret true, <["big.json" := b]> fs)
     ∧ snd (Startup.download_file_from_volume env fs) !! "big.json" = Some b
     ∧ (forall path, path ≠ "big.json" ->
          snd (Startup.download_file_from_volume env fs) !! path = fs !! path))
  ∧ (forall e, Startup.local_disk env = Startup.Open_fails e ->
       except_Exception e = true -> except_ImportError e = false ->
       Startup.download_file_from_volume env fs = (Ret false, fs))
  ∧ (forall written e, Startup.local_disk env = Startup.Write_fails written e ->
       except_Exception e = true -> except_ImportError e = false ->
       Startup.download_file_from_volume env fs
         = (Ret false, <["big.json" := take written b]> fs)
       ∧ snd (Startup.download_file_from_volume env fs) !! "big.json"
         = Some (take written b)
       ∧ (forall path, path ≠ "big.json" ->
            snd (Startup.download_file_from_volume env fs) !! path = fs !! path)).
Proof.
  intros Himport Hclient Hdownload Hextract Hb.
  assert (Hrun : Startup.download_file_from_volume env fs
                 = match Startup.local_disk env with
                   | Startup.Disk_ok => (Ret true, <["big.json" := b]> fs)
                   | Startup.Open_fails e => Startup.on_exception env e fs
                   | Startup.Write_fails written e =>
                       Startup.on_exception env e (<["big.json" := take written b]> fs)
                   end).
  { rewrite download_file_from_volume_run, Himport, Hclient.
    change Startup.get_volume_path
      with "/Volumes/example/default/test-volume/big.json".
    rewrite Hdownload.
    rewrite extract_content_spec in Hextract.
    injection Hextract as Hextract. rewrite Hextract.
    rewrite save_content_run, Hb.
    destruct (bytes_like_length_or_zero content b Hb) as [n ->].
    destruct (Startup.local_disk env); reflexivity. }
  split; [|split].
  - intros Hdisk. rewrite Hrun, Hdisk. simpl.
    split; [reflexivity|]. split; [apply lookup_insert_eq|].
    intros path Hpath. apply lookup_insert_ne. congruence.
  - intros e Hdisk He Hi. rewrite Hrun, Hdisk.
    apply on_exception_caught; assumption.
  - intros written e Hdisk He Hi. rewrite Hrun, Hdisk.
    rewrite on_exception_caught by assumption. simpl.
    split; [reflexivity|]. split; [apply lookup_insert_eq|].
    intros path Hpath. apply lookup_insert_ne. congruence.
Qed.

Lemma download_saves_bytes_verbatim_witness :
  Startup.download_file_from_volume
    (Sample.sdk_returning (Ret Sample.stream_response))
    {[ "big.json" := [x00]; "other.txt" := [x01] ]}
  = (Ret true,
     <["big.json" := [x7b; x7d]]> {[ "big.json" := [x00]; "other.txt" := [x01] ]})
  ∧ Startup.download_file_from_volume
      (Sample.sdk_on_disk (Startup.Write_fails 1 Sample.no_space_left)
         (Ret Sample.stream_response))
      {[ "big.json" := [x00]; "other.txt" := [x01] ]}
    = (Ret false,
       <["big.json" := [x7b]]> {[ "big.json" := [x00]; "other.txt" := [x01] ]}).
Proof.
  split.
  - apply (download_saves_bytes_verbatim
             (Sample.sdk_returning (Ret Sample.stream_response))
             {[ "big.json" := [x00]; "other.txt" := [x01] ]}
             {| Startup.download := fun _ => Ret Sample.stream_response |}
             Sample.stream_response (PBytes [x7b; x7d]) [x7b; x7d]);
      reflexivity.
  - apply (proj2 (proj2 (download_saves_bytes_verbatim
             (Sample.sdk_on_disk (Startup.Write_fails 1 Sample.no_space_left)
                (Ret Sample.stream_response))
             {[ "big.json" := [x00]; "other.txt" := [x01] ]}
             {| Startup.download := fun _ => Ret Sample.stream_response |}
             Sample.stream_response (PBytes [x7b; x7d]) [x7b; x7d]
             eq_refl eq_refl eq_refl eq_refl eq_refl))
             1%nat Sample.no_space_left);
      reflexivity.
Defined.

(** X12. Content that is not bytes-like never reaches the file, but it
    can empty it: when the chain yields a value that is neither [bytes]
    nor [bytearray] (text, [None], a list, ...), the function returns
    [False]; if the value has a length or is falsy, [big.json] is opened
    for writing before the write is refused, and is left empty, whatever
    it held, unless the opening itself fails, which leaves it as it was;
    if taking the length fails, no file is touched. *)
Theorem download_of_non_bytes
    (env : Startup.environment) (fs : Startup.files)
    (w : Startup.files_api) (r content : pyval) :
  Startup.import_WorkspaceClient env = Ret tt ->
  Startup.WorkspaceClient env = Ret w ->
  Startup.download w Startup.get_volume_path = Ret r ->
  Startup.extract_content r fs = (Ret (Some content), fs) ->
  bytes_like content = None ->
  (forall n, Startup.length_or_zero content = Ret n ->
     (forall e, Startup.local_disk env ≠ Startup.Open_fails e) ->
     Startup.download_file_from_volume env fs
       = (Ret false, <["big.json" := []]> fs))
  ∧ (forall n e, Startup.length_or_zero content = Ret n ->
       Startup.local_disk env = Startup.Open_fails e ->
       except_Exception e = true -> except_ImportError e = false ->
       Startup.download_file_from_volume env fs = (Ret false, fs))
  ∧ (forall e, Startup.length_or_zero content = Raise e ->
       Startup.download_file_from_volume env fs = (Ret false, fs)).
Proof.
  intros Himport Hclient Hdownload Hextract Hnot.
  rewrite download_file_from_volume_run, Himport, Hclient, Hdownload.
  rewrite extract_content_spec in Hextract.
  injection Hextract as Hextract. rewrite Hextract.
  rewrite save_content_run, Hnot. split; [|split].
  - intros n Hn Hopen. rewrite Hn.
    destruct (Startup.local_disk env) as [|e|written e];
      try (apply on_exception_caught; reflexivity).
    exfalso. apply (Hopen e). reflexivity.
  - intros n e Hn Hdisk He Hi. rewrite Hn, Hdisk.
    apply on_exception_caught; assumption.
  - intros e He. rewrite He.
    destruct (length_or_zero_raises content e He) as [Hex Him].
    apply on_exception_caught; assumption.
Qed.

Lemma download_of_non_bytes_witness :
  Startup.download_file_from_volume
    (Sample.sdk_returning (Ret Sample.text_response))
    {[ "big.json" := [x7b; x7d] ]}
  = (Ret false, <["big.json" := []]> {[ "big.json" := [x7b; x7d] ]})
  ∧ Startup.download_file_from_volume
      (Sample.sdk_on_disk (Startup.Open_fails Sample.is_a_directory)
         (Ret Sample.text_response))
      {[ "big.json" := [x7b; x7d] ]}
    = (Ret false, {[ "big.json" := [x7b; x7d] ]}).
Proof.
  split.
  - refine (proj1 (download_of_non_bytes
             (Sample.sdk_returning (Ret Sample.text_response))
             {[ "big.json" := [x7b; x7d] ]}
             {| Startup.download := fun _ => Ret Sample.text_response |}
             Sample.text_response (PStr "{}")
             eq_refl eq_refl eq_refl eq_refl eq_refl) 2%Z eq_refl _).
    intros e. discriminate.
  - refine (proj1 (proj2 (download_of_non_bytes
             (Sample.sdk_on_disk (Startup.Open_fails Sample.is_a_directory)
                (Ret Sample.text_response))
             {[ "big.json" := [x7b; x7d] ]}
             {| Startup.download := fun _ => Ret Sample.text_response |}
             Sample.text_response (PStr "{}")
             eq_refl eq_refl eq_refl eq_refl eq_refl))
             2%Z Sample.is_a_directory eq_refl eq_refl eq_refl eq_refl).
Defined.



(** X14. An [ImportError] from the SDK import hands the download to
    [dbutils]: the function copies the volume path to ["file:/big.json"]
    and returns [True] when the copy returns, [False] when the copy
    raises an [Exception]; the SDK client plays no part, and where
    [dbutils] is not defined the answer is [False] with the files as
    they were. *)
Theorem download_falls_back_to_dbutils
    (env : Startup.environment) (fs : Startup.files) (e : exn) :
  Startup.import_WorkspaceClient env = Raise e ->
  except_ImportError e = true ->
  (forall cp, Startup.dbutils_fs_cp env = Some cp ->
     Startup.download_file_from_volume env fs =
       match cp "/Volumes/example/default/test-volume/big.json" "file:/big.json" fs with
       | (Ret _, fs') => (Ret true, fs')
       | (Raise e', fs') =>
           (if except_Exception e' then Ret false else Raise e', fs')
       end)
  ∧ (Startup.dbutils_fs_cp env = None ->
     Startup.download_file_from_volume env fs = (Ret false, fs)).
Proof.
  intros Himport He.
  rewrite download_file_from_volume_run, Himport.
  unfold Startup.on_exception. rewrite He. split.
  - intros cp Hcp. unfold Startup.dbutils_fallback. rewrite Hcp.
    unfold try_except, bind.
    change (Startup.get_volume_path)
      with "/Volumes/example/default/test-volume/big.json".
    change ("file:/" +:+ Startup.LOCAL_FILE_PATH) with "file:/big.json".
    destruct (cp "/Volumes/example/default/test-volume/big.json"
                 "file:/big.json" fs) as [[[]|e'] fs']; simpl; [reflexivity|].
    destruct (except_Exception e'); reflexivity.
  - apply dbutils_fallback_undefined.
Qed.

Lemma download_falls_back_to_dbutils_witness :
  Startup.download_file_from_volume
    {| Startup.import_WorkspaceClient :=
         Raise (Exn.mk Exn.ModuleNotFoundError "No module named 'databricks'");
       Startup.WorkspaceClient := Raise Sample.throttled;
       Startup.dbutils_fs_cp := None;
       Startup.local_disk := Startup.Disk_ok |} ∅
  = (Ret false, ∅).
Proof.
  apply (download_falls_back_to_dbutils
           {| Startup.import_WorkspaceClient :=
                Raise (Exn.mk Exn.ModuleNotFoundError "No module named 'databricks'");
              Startup.WorkspaceClient := Raise Sample.throttled;
              Startup.dbutils_fs_cp := None;
              Startup.local_disk := Startup.Disk_ok |} ∅
           (Exn.mk Exn.ModuleNotFoundError "No module named 'databricks'")
           eq_refl eq_refl).
  reflexivity.
Defined.

(** ** startup.py: launching the viewer *)

Lemma with_calls_app (w : Startup.world) (evs evs' : list Startup.process_event) :
  Startup.with_calls (Startup.with_calls w evs) evs'
    = Startup.with_calls w (evs ++ evs').
Proof. unfold Startup.with_calls. simpl. rewrite <- app_assoc. reflexivity. Qed.

(** A run of [start_streamlit], by what the child does. *)
Lemma start_streamlit_run (os : Startup.launcher) (w : Startup.world) :
  let cmd := ["streamlit"; "run"; Startup.app_py_path os] in
  Startup.start_streamlit os w =
    match Startup.subprocess_Popen os cmd with
    | Raise e => (Raise e, Startup.with_calls w [Startup.Popen cmd])
    | Ret child =>
        match Startup.wait child 0 with
        | Ret _ =>
            (Ret tt, Startup.with_calls w [Startup.Popen cmd; Startup.Process_wait])
        | Raise e =>
            if Startup.except_KeyboardInterrupt e then
              match Startup.terminate child with
              | Raise e' =>
                  (Raise e',
                   Startup.with_calls w [Startup.Popen cmd; Startup.Process_wait;
                                         Startup.Process_terminate])
              | Ret _ =>
                  (match Startup.wait child 1 with
                   | Ret _ => Ret tt
                   | Raise e' => Raise e'
                   end,
                   Startup.with_calls w [Startup.Popen cmd; Startup.Process_wait;
                                         Startup.Process_terminate;
                                         Startup.Process_wait])
              end
            else
              (Raise e,
               Startup.with_calls w [Startup.Popen cmd; Startup.Process_wait])
        end
    end.
Proof.
  cbv zeta. unfold Startup.start_streamlit, Startup.process_call, try_except,
    bind, lift, modify, ret.
  fold (Startup.with_calls w
          [Startup.Popen ["streamlit"; "run"; Startup.app_py_path os]]).
  destruct (Startup.subprocess_Popen os _) as [child|e]; [|reflexivity].
  destruct (Startup.wait child 0) as [c|e].
  - unfold Startup.with_calls. simpl. rewrite <- app_assoc. reflexivity.
  - simpl dispatch. destruct (Startup.except_KeyboardInterrupt e).
    + destruct (Startup.terminate child) as [[]|e'].
      * destruct (Startup.wait child 1) as [c|e'];
          unfold Startup.with_calls; simpl; rewrite <- !app_assoc; reflexivity.
      * unfold Startup.with_calls. simpl. rewrite <- !app_assoc. reflexivity.
    + unfold raise, Startup.with_calls. simpl. rewrite <- app_assoc. reflexivity.
Qed.

(** X15. [start_streamlit] launches [streamlit run <dir>/app.py] and
    waits for it.  When the wait is broken by a [KeyboardInterrupt] it
    terminates the child and waits once more; any other exception from
    the wait leaves the function with the child neither terminated nor
    waited for again. *)
Theorem start_streamlit_interrupt_handling
    (os : Startup.launcher) (w : Startup.world) (child : Startup.process) :
  Startup.subprocess_Popen os ["streamlit"; "run"; Startup.app_py_path os]
    = Ret child ->
  (forall status, Startup.wait child 0 = Ret status ->
     Startup.start_streamlit os w
       = (Ret tt,
          Startup.with_calls w
            [Startup.Popen ["streamlit"; "run"; Startup.app_py_path os];
             Startup.Process_wait]))
  ∧ (forall e status,
       Startup.wait child 0 = Raise e ->
       Startup.except_KeyboardInterrupt e = true ->
       Startup.terminate child = Ret tt ->
       Startup.wait child 1 = Ret status ->
       Startup.start_streamlit os w
         = (Ret tt,
            Startup.with_calls w
              [Startup.Popen ["streamlit"; "run"; Startup.app_py_path os];
               Startup.Process_wait; Startup.Process_terminate;
               Startup.Process_wait]))
  ∧ (forall e,
       Startup.wait child 0 = Raise e ->
       Startup.except_KeyboardInterrupt e = false ->
       Startup.start_streamlit os w
         = (Raise e,
            Startup.with_calls w
              [Startup.Popen ["streamlit"; "run"; Startup.app_py_path os];
               Startup.Process_wait])).
Proof.
  intros Hpopen. rewrite start_streamlit_run. cbv zeta. rewrite Hpopen.
  split; [|split].
  - intros status ->. reflexivity.
  - intros e status -> -> -> ->. reflexivity.
  - intros e -> ->. reflexivity.
Qed.

Lemma start_streamlit_interrupt_handling_witness :
  Startup.start_streamlit (Sample.launcher_of Sample.interrupted_child)
    Sample.empty_world
  = (Ret tt,
     Startup.with_calls Sample.empty_world
       [Startup.Popen ["streamlit"; "run"; "/app/app.py"];
        Startup.Process_wait; Startup.Process_terminate; Startup.Process_wait]).
Proof.
  refine (proj1 (proj2 (start_streamlit_interrupt_handling
           (Sample.launcher_of Sample.interrupted_child) Sample.empty_world
           Sample.interrupted_child eq_refl))
           Sample.interrupt 0%Z eq_refl eq_refl eq_refl eq_refl).
Defined.

(** X16. [main] starts the viewer whether or not the download worked:
    when [download_file_from_volume] returns, with [True] or [False],
    the files are as the download left them and the one process launched
    is [streamlit run <dir>/app.py]; the viewer is not started only when
    an exception leaves the download, and such an exception is not an
    [Exception]. *)
Theorem main_starts_viewer_after_download
    (env : Startup.environment) (os : Startup.launcher) (w : Startup.world) :
  match Startup.download_file_from_volume env (Startup.local_files w) with
  | (Ret _, fs) =>
      Startup.local_files (snd (Startup.main env os w)) = fs
      ∧ exists rest,
          Startup.process_calls (snd (Startup.main env os w))
            = Startup.process_calls w
              ++ Startup.Popen ["streamlit"; "run"; Startup.app_py_path os] :: rest
          ∧ Forall (fun ev => Startup.is_Popen ev = false) rest
  | (Raise e, fs) =>
      except_Exception e = false
      ∧ Startup.main env os w
        = (Raise e, {| Startup.local_files := fs;
                       Startup.process_calls := Startup.process_calls w |})
  end.
Proof.
  pose proof (download_file_from_volume_safe env (Startup.local_files w)) as Hsafe.
  unfold Startup.main, bind, Startup.on_files.
  destruct (Startup.download_file_from_volume env (Startup.local_files w))
    as [[b|e] fs]; simpl in Hsafe.
  2:{ split; [exact Hsafe|reflexivity]. }
  rewrite start_streamlit_run. cbv zeta.
  destruct (Startup.subprocess_Popen os _) as [child|e]; simpl.
  { destruct (Startup.wait child 0) as [c|e]; simpl.
    - split; [reflexivity|]. eexists. split; [reflexivity|]. repeat constructor.
    - destruct (Startup.except_KeyboardInterrupt e); simpl.
      + destruct (Startup.terminate child) as [[]|e']; simpl;
          (split; [reflexivity|]); eexists; (split; [reflexivity|]);
          repeat constructor.
      + split; [reflexivity|]. eexists. split; [reflexivity|]. repeat constructor. }
  split; [reflexivity|]. exists []. split; [reflexivity|]. constructor.
Qed.

(** ** app.py: what the preview shows *)

Lemma substring_0_all (n : nat) (s : string) :
  String.length s <= n -> substring 0 n s = s.
Proof.
  revert n. induction s as [|c s IH]; intros n Hn.
  - destruct n; reflexivity.
  - destruct n as [|n]; simpl in *; [lia|]. rewrite IH by lia. reflexivity.
Qed.

Lemma substring_0_substring_0 (m n : nat) (s : string) :
  m <= n -> substring 0 m (substring 0 n s) = substring 0 m s.
Proof.
  revert n s. induction m as [|m IH]; intros n s Hmn.
  - destruct (substring 0 n s), s; reflexivity.
  - destruct n as [|n]; [lia|].
    destruct s as [|c s]; simpl; [reflexivity|].
    rewrite IH by lia. reflexivity.
Qed.

Lemma data_analysis_returns (v : pyval) (p : Viewer.page) :
  fst (Viewer.data_analysis v p) = Ret tt.
Proof. destruct v; try reflexivity. destruct l; reflexivity. Qed.

(** The preview of a text file whose sample parses. *)
Lemma preview_parsed (json_loads : string -> outcome pyval)
    (fs : Viewer.files) (f : Viewer.file) (text : string) (v : pyval)
    (p : Viewer.page) :
  fs !! Viewer.local_json_file = Some f ->
  Viewer.content f = Viewer.Text text ->
  json_loads (substring 0 Viewer.sample_size text) = Ret v ->
  Viewer.preview json_loads fs p
    = Viewer.data_analysis v
        (p ++ [Viewer.St_subheader "Reading JSON file...";
               Viewer.Read_text Viewer.local_json_file Viewer.sample_size;
               Viewer.St_success "Successfully read sample content from JSON file";
               Viewer.St_success "Successfully parsed JSON sample";
               Viewer.St_subheader "Sample Data Structure";
               Viewer.St_json v;
               Viewer.St_subheader "Data Analysis"]).
Proof.
  intros Hf Ht Hv.
  rewrite (preview_of_text json_loads fs f text p Hf Ht).
  unfold Viewer.show_sample, Viewer.reading_failed, try_except, bind,
    Viewer.emit, modify, lift.
  rewrite Hv. rewrite <- !app_assoc. simpl app.
  pose proof (data_analysis_returns v
    (p ++ [Viewer.St_subheader "Reading JSON file...";
           Viewer.Read_text Viewer.local_json_file Viewer.sample_size;
           Viewer.St_success "Successfully read sample content from JSON file";
           Viewer.St_success "Successfully parsed JSON sample";
           Viewer.St_subheader "Sample Data Structure";
           Viewer.St_json v;
           Viewer.St_subheader "Data Analysis"])) as Hret.
  destruct (Viewer.data_analysis v _) as [[[]|e] q]; [reflexivity|discriminate].
Qed.

(** The preview of a text file whose sample the parser rejects. *)
Lemma preview_rejected (json_loads : string -> outcome pyval)
    (fs : Viewer.files) (f : Viewer.file) (text : string) (e : exn)
    (p : Viewer.page) :
  fs !! Viewer.local_json_file = Some f ->
  Viewer.content f = Viewer.Text text ->
  json_loads (substring 0 Viewer.sample_size text) = Raise e ->
  Viewer.preview json_loads fs p
    = (if Viewer.except_JSONDecodeError e then
         (Ret tt,
          p ++ [Viewer.St_subheader "Reading JSON file...";
                Viewer.Read_text Viewer.local_json_file Viewer.sample_size;
                Viewer.St_success "Successfully read sample content from JSON file";
                Viewer.St_warning
                  "Could not parse as complete JSON, showing raw content";
                Viewer.St_code
                  (Viewer.raw_display (substring 0 Viewer.sample_size text))])
       else if except_Exception e then
         (Ret tt,
          p ++ [Viewer.St_subheader "Reading JSON file...";
                Viewer.Read_text Viewer.local_json_file Viewer.sample_size;
                Viewer.St_success "Successfully read sample content from JSON file";
                Viewer.St_error ("Error reading file: " +:+ Exn.str e)])
       else
         (Raise e,
          p ++ [Viewer.St_subheader "Reading JSON file...";
                Viewer.Read_text Viewer.local_json_file Viewer.sample_size;
                Viewer.St_success
                  "Successfully read sample content from JSON file"])).
Proof.
  intros Hf Ht He.
  rewrite (preview_of_text json_loads fs f text p Hf Ht).
  unfold Viewer.show_sample, Viewer.reading_failed, try_except, bind,
    Viewer.emit, modify, lift.
  rewrite He. simpl.
  destruct (Viewer.except_JSONDecodeError e); simpl.
  - rewrite <- !app_assoc. reflexivity.
  - destruct (except_Exception e); simpl; rewrite <- !app_assoc; reflexivity.
Qed.

(** X17. A file of at most 10240 characters is parsed whole: when
    [json.loads] accepts its text, the preview shows the parsed value of
    the entire file and its analysis. *)
Theorem small_file_is_parsed_whole (json_loads : string -> outcome pyval)
    (fs : Viewer.files) (f : Viewer.file) (text : string) (v : pyval)
    (p : Viewer.page) :
  fs !! Viewer.local_json_file = Some f ->
  Viewer.content f = Viewer.Text text ->
  String.length text <= Viewer.sample_size ->
  json_loads text = Ret v ->
  Viewer.preview json_loads fs p
    = Viewer.data_analysis v
        (p ++ [Viewer.St_subheader "Reading JSON file...";
               Viewer.Read_text "big.json" Viewer.sample_size;
               Viewer.St_success "Successfully read sample content from JSON file";
               Viewer.St_success "Successfully parsed JSON sample";
               Viewer.St_subheader "Sample Data Structure";
               Viewer.St_json v;
               Viewer.St_subheader "Data Analysis"]).
Proof.
  intros Hf Ht Hlen Hv.
  apply (preview_parsed json_loads fs f text v p Hf Ht).
  rewrite substring_0_all; [exact Hv|exact Hlen].
Qed.

Lemma small_file_is_parsed_whole_witness :
  Viewer.preview Sample.json_empty_object (Sample.disk_with 2 "{}") []
  = Viewer.data_analysis (PDict [])
      ([] ++ [Viewer.St_subheader "Reading JSON file...";
              Viewer.Read_text "big.json" Viewer.sample_size;
              Viewer.St_success "Successfully read sample content from JSON file";
              Viewer.St_success "Successfully parsed JSON sample";
              Viewer.St_subheader "Sample Data Structure";
              Viewer.St_json (PDict []);
              Viewer.St_subheader "Data Analysis"]).
Proof.
  apply (small_file_is_parsed_whole Sample.json_empty_object
           (Sample.disk_with 2 "{}")
           {| Viewer.st_size := 2; Viewer.content := Viewer.Text "{}" |}
           "{}" (PDict []) []);
    try reflexivity.
  unfold Viewer.sample_size. simpl String.length. lia.
Defined.



Lemma download_status_run (fs : Viewer.files) (p : Viewer.page) :
  Viewer.download_status fs p
    = (Ret tt,
       p ++ Viewer.status_section (Viewer.os_path_exists fs Viewer.local_json_file)).
Proof.
  unfold Viewer.download_status, Viewer.status_section, bind, Viewer.emit, modify.
  destruct (Viewer.os_path_exists fs Viewer.local_json_file); simpl;
    rewrite <- !app_assoc; reflexivity.
Qed.

(** The page of a run, given what the preview gives. *)
Lemma app_run_present (json_loads : string -> outcome pyval)
    (format_megabytes : Z -> string) (fs : Viewer.files) (f : Viewer.file) :
  fs !! Viewer.local_json_file = Some f ->
  Viewer.app json_loads format_megabytes fs [] =
    match Viewer.preview json_loads fs
            [Viewer.St_set_page_config "wide";
             Viewer.St_header "Big JSON File Reader";
             Viewer.St_info "Reading sample data from downloaded big.json file";
             Viewer.St_success "Found local file: big.json";
             Viewer.St_info ("File size: " +:+ format_megabytes (Viewer.st_size f)
                             +:+ " MB")] with
    | (Ret _, p) => (Ret tt, p ++ Viewer.status_section true)
    | (Raise e, p) => (Raise e, p)
    end.
Proof.
  intros Hf.
  assert (Hex : Viewer.os_path_exists fs Viewer.local_json_file = true)
    by (apply os_path_exists_spec; eauto).
  unfold Viewer.app. rewrite Hex. unfold Viewer.os_path_getsize. rewrite Hf.
  unfold bind, Viewer.emit, modify, lift. simpl app.
  destruct (Viewer.preview json_loads fs _) as [[[]|e] p1]; [|reflexivity].
  rewrite download_status_run, Hex. reflexivity.
Qed.

(** X19. A file that exists but cannot be read (no permission,
    undecodable bytes) yields exactly one error widget with the message
    of the exception, and the closing section still reports the download
    as successful: that section looks at the existence of the file
    only. *)
Theorem unreadable_file_is_reported (json_loads : string -> outcome pyval)
    (format_megabytes : Z -> string) (fs : Viewer.files) (f : Viewer.file)
    (held : string) (e : exn) :
  fs !! Viewer.local_json_file = Some f ->
  Viewer.content f = Viewer.Unreadable held e ->
  except_Exception e = true ->
  Viewer.app json_loads format_megabytes fs []
    = (Ret tt,
       [Viewer.St_set_page_config "wide";
        Viewer.St_header "Big JSON File Reader";
        Viewer.St_info "Reading sample data from downloaded big.json file";
        Viewer.St_success "Found local file: big.json";
        Viewer.St_info ("File size: " +:+ format_megabytes (Viewer.st_size f)
                        +:+ " MB");
        Viewer.St_subheader "Reading JSON file...";
        Viewer.Read_text "big.json" Viewer.sample_size;
        Viewer.St_error ("Error reading file: " +:+ Exn.str e);
        Viewer.St_subheader "File Download Status";
        Viewer.St_success "File was successfully downloaded from Volume";
        Viewer.St_info
          "This proves the Volume access and file download workflow is working!"]).
Proof.
  intros Hf Hcontent He.
  rewrite (app_run_present json_loads format_megabytes fs f Hf).
  rewrite preview_unfold. cbv zeta. rewrite Hf, Hcontent.
  simpl. rewrite He. reflexivity.
Qed.

Lemma unreadable_file_is_reported_witness :
  snd (Viewer.app Sample.json_rejecting Sample.format_bytes
         Sample.disk_unreadable [])
  = [Viewer.St_set_page_config "wide";
     Viewer.St_header "Big JSON File Reader";
     Viewer.St_info "Reading sample data from downloaded big.json file";
     Viewer.St_success "Found local file: big.json";
     Viewer.St_info ("File size: " +:+ Sample.format_bytes 2 +:+ " MB");
     Viewer.St_subheader "Reading JSON file...";
     Viewer.Read_text "big.json" Viewer.sample_size;
     Viewer.St_error ("Error reading file: " +:+
                      "[Errno 13] Permission denied: 'big.json'");
     Viewer.St_subheader "File Download Status";
     Viewer.St_success "File was successfully downloaded from Volume";
     Viewer.St_info
       "This proves the Volume access and file download workflow is working!"].
Proof.
  rewrite (unreadable_file_is_reported Sample.json_rejecting Sample.format_bytes
             Sample.disk_unreadable
             {| Viewer.st_size := 2;
                Viewer.content :=
                  Viewer.Unreadable "{}"
                    (Exn.mk (Exn.UserDefined "PermissionError" Exn.OSError)
                            "[Errno 13] Permission denied: 'big.json'") |}
             "{}"
             (Exn.mk (Exn.UserDefined "PermissionError" Exn.OSError)
                     "[Errno 13] Permission denied: 'big.json'")
             eq_refl eq_refl eq_refl).
  reflexivity.
Defined.

(** X20. An exception of [json.loads] that is not a [JSONDecodeError]
    but is an [Exception] (a recursion overflow on deep nesting, say)
    skips the raw display: the outer handler shows it as an error of
    reading the file, after the page has already announced that the
    sample was read. *)
Theorem parser_failure_shown_as_read_error (json_loads : string -> outcome pyval)
    (fs : Viewer.files) (f : Viewer.file) (text : string) (e : exn)
    (p : Viewer.page) :
  fs !! Viewer.local_json_file = Some f ->
  Viewer.content f = Viewer.Text text ->
  json_loads (substring 0 Viewer.sample_size text) = Raise e ->
  Viewer.except_JSONDecodeError e = false ->
  except_Exception e = true ->
  Viewer.preview json_loads fs p
    = (Ret tt,
       p ++ [Viewer.St_subheader "Reading JSON file...";
             Viewer.Read_text "big.json" Viewer.sample_size;
             Viewer.St_success "Successfully read sample content from JSON file";
             Viewer.St_error ("Error reading file: " +:+ Exn.str e)]).
Proof.
  intros Hf Ht He Hjson Hex.
  rewrite (preview_rejected json_loads fs f text e p Hf Ht He), Hjson, Hex.
  reflexivity.
Qed.

Lemma parser_failure_shown_as_read_error_witness :
  Viewer.preview Sample.json_overflowing (Sample.disk_with 4 "[[]]") []
  = (Ret tt,
     [] ++ [Viewer.St_subheader "Reading JSON file...";
            Viewer.Read_text "big.json" Viewer.sample_size;
            Viewer.St_success "Successfully read sample content from JSON file";
            Viewer.St_error ("Error reading file: " +:+
                             "maximum recursion depth exceeded")]).
Proof.
  apply (parser_failure_shown_as_read_error Sample.json_overflowing
           (Sample.disk_with 4 "[[]]")
           {| Viewer.st_size := 4; Viewer.content := Viewer.Text "[[]]" |}
           "[[]]"
           (Exn.mk (Exn.UserDefined "RecursionError"
                      (Exn.UserDefined "RuntimeError" Exn.Exception))
                   "maximum recursion depth exceeded") []);
    reflexivity.
Defined.

(** X21. As long as reading and parsing raise nothing but instances of
    [Exception], a run of the viewer never fails: it returns, and its
    page ends with the download status section, which reports success
    exactly when [big.json] exists. *)
Theorem app_always_reaches_status (json_loads : string -> outcome pyval)
    (format_megabytes : Z -> string) (fs : Viewer.files) :
  (forall s e, json_loads s = Raise e -> except_Exception e = true) ->
  (forall f held e, fs !! Viewer.local_json_file = Some f ->
                    Viewer.content f = Viewer.Unreadable held e ->
                    except_Exception e = true) ->
  exists body,
    Viewer.app json_loads format_megabytes fs []
      = (Ret tt,
         body ++ Viewer.status_section
                   (bool_decide (is_Some (fs !! "big.json")))).
Proof.
  intros Hparser Hfile.
  destruct (fs !! Viewer.local_json_file) as [f|] eqn:Hf.
  - change (fs !! "big.json") with (fs !! Viewer.local_json_file). rewrite Hf.
    rewrite bool_decide_eq_true_2 by eauto.
    rewrite (app_run_present json_loads format_megabytes fs f Hf).
    match goal with
    | |- context [Viewer.preview json_loads fs ?p0] =>
        assert (Hret : fst (Viewer.preview json_loads fs p0) = Ret tt);
        [|destruct (Viewer.preview json_loads fs p0) as [[[]|e] p1];
          [eexists; reflexivity|discriminate]]
    end.
    destruct (Viewer.content f) as [text|held e] eqn:Hcontent.
    + destruct (json_loads (substring 0 Viewer.sample_size text)) as [v|e] eqn:Ej.
      * rewrite (preview_parsed json_loads fs f text v _ Hf Hcontent Ej).
        apply data_analysis_returns.
      * rewrite (preview_rejected json_loads fs f text e _ Hf Hcontent Ej).
        rewrite (Hparser _ _ Ej).
        destruct (Viewer.except_JSONDecodeError e); reflexivity.
    + rewrite preview_unfold. cbv zeta. rewrite Hf, Hcontent. simpl.
      rewrite (Hfile f held e eq_refl Hcontent). reflexivity.
  - change (fs !! "big.json") with (fs !! Viewer.local_json_file). rewrite Hf.
    rewrite (app_page_absent json_loads format_megabytes fs Hf).
    exists [Viewer.St_set_page_config "wide";
            Viewer.St_header "Big JSON File Reader";
            Viewer.St_info "Reading sample data from downloaded big.json file";
            Viewer.St_error "Local file not found: big.json";
            Viewer.St_info
              "Make sure the startup script successfully downloaded the file from Volume"].
    reflexivity.
Qed.

Lemma app_always_reaches_status_witness :
  exists body,
    Viewer.app Sample.json_overflowing Sample.format_bytes
      Sample.disk_unreadable []
    = (Ret tt,
       body ++ Viewer.status_section
                 (bool_decide (is_Some (Sample.disk_unreadable !! "big.json")))).
Proof.
  apply (app_always_reaches_status Sample.json_overflowing Sample.format_bytes
           Sample.disk_unreadable).
  - intros s e [= <-]. reflexivity.
  - intros f held e Hf Hcontent.
    change (Sample.disk_unreadable !! Viewer.local_json_file)
      with (Some {| Viewer.st_size := 2;
                    Viewer.content :=
                      Viewer.Unreadable "{}"
                        (Exn.mk (Exn.UserDefined "PermissionError" Exn.OSError)
                                "[Errno 13] Permission denied: 'big.json'") |})
      in Hf.
    injection Hf as <-. simpl in Hcontent. injection Hcontent as _ <-. reflexivity.
Defined.
